(** * study_help: mastery engine and adaptive scheduler

    A shallow embedding of [backend/services/mastery_engine.py] and
    [backend/services/scheduler.py], with the properties the design
    document states about them.

    Conventions of the embedding.
    - A Python [float] is a value of a type [T] carrying the operations
      of the class [PyFloat].  Every function is written once, over
      that class, and read in two instances: [B64.binary64], the IEEE
      754 double precision arithmetic Python runs (the Standard
      Library's [SpecFloat], round to nearest even), and
      [Exact.QFloat], the same expressions over the rationals with no
      rounding.  Statements say which arithmetic they are about;
      where none is named they hold in any instance.
    - A Python [int] is a [Z]; a [date] is the number of days since
      1970-01-01 and a [datetime] the number of microseconds since
      1970-01-01T00:00 (both [Z]).  The mastery engine adds a review
      interval, which has no bound of its own, to a date: there the
      year 1..9999 limit of [date] is modelled ([date_add_days] raises
      [OverflowError]).  The scheduler only steps through the days and
      minutes of the range it is given, and its dates are taken within
      the limit.  An int above the largest double converts to an
      infinity, where Python raises [OverflowError] at the conversion;
      in the engine such a value only reaches [int()], which then
      raises the same error.  [date.today()], [datetime.now()] and
      [datetime.utcnow()] are read once and passed as arguments.
    - An exception is a value of [PyError]; a function that can raise
      returns a [Result].  A loop that may not end takes a bound on
      its iterations and returns [None] when the bound is reached.
    - A table is the list of its rows, a query a [filter] on it and
      [.first()] the first row found; [ORDER BY] and [sorted] are
      stable insertion sorts (the order SQL leaves open among equal
      keys is the order of the table).
    - Identifiers (UUIDs) are strings. *)

From Stdlib Require Import ZArith QArith Qround Qminmax Lia Lra Psatz Bool Sorted.
From Stdlib Require Import Floats.SpecFloat.
From stdpp Require Import base option list sorting gmap strings fin_maps.

Open Scope Z_scope.

(** ** Exceptions *)

Inductive PyError :=
| ZeroDivisionError
| ValueError
| OverflowError
| KeyError (key : string)
| AttributeError (name : string)
| TypeError (what : string).

Inductive Result (A : Type) :=
| Ok (a : A)
| Raise (e : PyError).
Arguments Ok {A} a.
Arguments Raise {A} e.

#[export] Instance result_ret : MRet Result := fun A a => Ok a.
#[export] Instance result_bind : MBind Result := fun A B k m =>
  match m with
  | Ok a => k a
  | Raise e => Raise e
  end.

Definition of_option {A} (e : PyError) (o : option A) : Result A :=
  match o with
  | Some a => Ok a
  | None => Raise e
  end.

Fixpoint mapM {A B} (f : A -> Result B) (l : list A) : Result (list B) :=
  match l with
  | [] => Ok []
  | x :: l' =>
      y ← f x;
      ys ← mapM f l';
      Ok (y :: ys)
  end.

(** ** Python floats *)

Class PyFloat (T : Type) := {
  fadd : T -> T -> T;
  fsub : T -> T -> T;
  fmul : T -> T -> T;
  fopp : T -> T;
  (** [x / y]; raises [ZeroDivisionError] when [y] is zero *)
  fdiv : T -> T -> Result T;
  (** [x < y] and [x <= y] on two floats *)
  fltb : T -> T -> bool;
  fleb : T -> T -> bool;
  (** [x < n] for a float and an int, compared exactly as Python does *)
  flt_int : T -> Z -> bool;
  (** the implicit conversion of an int operand *)
  of_int : Z -> T;
  (** the literal [n/d], e.g. [0.3] is [fdec 3 10] *)
  fdec : Z -> positive -> T;
  (** [int(x)]: truncation toward zero; raises on nan and infinities *)
  to_int : T -> Result Z;
  (** [math.sqrt(x)]; raises [ValueError] on a negative argument *)
  fsqrt : T -> Result T
}.

(** [max(a, b)] of the builtin: [b] only when [b > a]. *)
Definition py_max {T} `{PyFloat T} (a b : T) : T :=
  if fltb a b then b else a.

(** *** IEEE 754 binary64 *)

Module B64.

Definition prec : Z := 53.
Definition emax : Z := 1024.

Definition is_zero (x : spec_float) : bool :=
  match x with
  | S754_zero _ => true
  | _ => false
  end.

Definition b64_of_Z (n : Z) : spec_float := binary_normalize prec emax n 0 false.

Definition b64_div (x y : spec_float) : Result spec_float :=
  if is_zero y then Raise ZeroDivisionError else Ok (SFdiv prec emax x y).

(** The correctly rounded quotient of two exactly representable
    integers is the double nearest to [n/d], which is how a decimal
    literal is read. *)
Definition b64_dec (n : Z) (d : positive) : spec_float :=
  SFdiv prec emax (b64_of_Z n) (b64_of_Z (Zpos d)).

Definition b64_to_int (x : spec_float) : Result Z :=
  match x with
  | S754_zero _ => Ok 0
  | S754_finite s m e =>
      let a := match e with
               | Zneg p => Z.shiftr (Zpos m) (Zpos p)
               | _ => Z.shiftl (Zpos m) e
               end in
      Ok (if s then - a else a)
  | S754_infinity _ => Raise OverflowError
  | S754_nan => Raise ValueError
  end.

Definition b64_sqrt (x : spec_float) : Result spec_float :=
  match x with
  | S754_finite true _ _ | S754_infinity true => Raise ValueError
  | _ => Ok (SFsqrt prec emax x)
  end.

(** Exact comparison [x < n] of a double with an integer. *)
Definition b64_lt_int (x : spec_float) (n : Z) : bool :=
  match x with
  | S754_nan => false
  | S754_infinity s => s
  | S754_zero _ => 0 <? n
  | S754_finite s m e =>
      let v := if s then Zneg m else Zpos m in
      match e with
      | Zneg p => v <? n * 2 ^ Zpos p
      | _ => v * 2 ^ e <? n
      end
  end.

#[global] Instance binary64 : PyFloat spec_float := {
  fadd := SFadd prec emax;
  fsub := SFsub prec emax;
  fmul := SFmul prec emax;
  fopp := SFopp;
  fdiv := b64_div;
  fltb := SFltb;
  fleb := SFleb;
  flt_int := b64_lt_int;
  of_int := b64_of_Z;
  fdec := b64_dec;
  to_int := b64_to_int;
  fsqrt := b64_sqrt
}.

End B64.

(** *** Exact rational arithmetic *)

Module Exact.

Definition Qltb (x y : Q) : bool := negb (Qle_bool y x).

Definition q_div (x y : Q) : Result Q :=
  if Qeq_bool y 0 then Raise ZeroDivisionError else Ok (x / y)%Q.

Definition q_to_int (x : Q) : Result Z := Ok (Z.quot (Qnum x) (Zpos (Qden x))).

Section WithSqrt.
(** The rationals have no square root function; the one used is a
    parameter of the instance. *)
Variable qsqrt : Q -> Result Q.

Definition QFloat : PyFloat Q := {|
  fadd := Qplus;
  fsub := Qminus;
  fmul := Qmult;
  fopp := Qopp;
  fdiv := q_div;
  fltb := Qltb;
  fleb := Qle_bool;
  flt_int := fun x n => Qltb x (inject_Z n);
  of_int := inject_Z;
  fdec := fun n d => Qmake n d;
  to_int := q_to_int;
  fsqrt := qsqrt
|}.
End WithSqrt.

End Exact.

(** ** Data model ([models/models.py]) *)

Inductive Trend := IMPROVING | STABLE | DECLINING | NEW.
Inductive Difficulty := EASY | MEDIUM | HARD | EXAM_LEVEL.
Inductive TaskType := READING | PROBLEM_SET | QUIZ | REVIEW | PROJECT | FLASHCARDS.
Inductive TaskStatus := PENDING | SCHEDULED | IN_PROGRESS | COMPLETED | SKIPPED.

(** The [.value] of the enumeration members. *)
Definition Trend_value (t : Trend) : string :=
  match t with
  | IMPROVING => "improving"
  | STABLE => "stable"
  | DECLINING => "declining"
  | NEW => "new"
  end.

Definition Difficulty_value (d : Difficulty) : string :=
  match d with
  | EASY => "easy"
  | MEDIUM => "medium"
  | HARD => "hard"
  | EXAM_LEVEL => "exam_level"
  end.

(** Attribute access [TaskType.<name>] on the enumeration class. *)
Definition TaskType_member (name : string) : Result TaskType :=
  if decide (name = "READING") then Ok READING
  else if decide (name = "PROBLEM_SET") then Ok PROBLEM_SET
  else if decide (name = "QUIZ") then Ok QUIZ
  else if decide (name = "REVIEW") then Ok REVIEW
  else if decide (name = "PROJECT") then Ok PROJECT
  else if decide (name = "FLASHCARDS") then Ok FLASHCARDS
  else Raise (AttributeError name).

#[export] Instance Trend_eq_dec : EqDecision Trend.
Proof. solve_decision. Defined.
#[export] Instance Difficulty_eq_dec : EqDecision Difficulty.
Proof. solve_decision. Defined.
#[export] Instance TaskType_eq_dec : EqDecision TaskType.
Proof. solve_decision. Defined.
#[export] Instance TaskStatus_eq_dec : EqDecision TaskStatus.
Proof. solve_decision. Defined.

(** Microseconds in a day and in a minute. *)
Definition DAY : Z := 86400000000.
Definition MINUTE : Z := 60000000.

(** [dt.date()] and [datetime.combine(d, t)], [t] a time of day in
    microseconds since midnight. *)
Definition date_of (dt : Z) : Z := dt / DAY.
Definition combine (d t : Z) : Z := d * DAY + t.
(** [time.min] and [time.max]. *)
Definition time_min : Z := 0.
Definition time_max : Z := DAY - 1.

(** [date.min] and [date.max], 0001-01-01 and 9999-12-31, and the
    largest number of days of a [timedelta]. *)
Definition DATE_MIN : Z := -719162.
Definition DATE_MAX : Z := 2932896.
Definition TIMEDELTA_MAX_DAYS : Z := 999999999.

(** [d + timedelta(days=n)] on a [date]: [OverflowError] when [n]
    is above what a [timedelta] holds or the sum is not a date. *)
Definition date_add_days (d n : Z) : Result Z :=
  if (Z.abs n <=? TIMEDELTA_MAX_DAYS) && (DATE_MIN <=? d + n) && (d + n <=? DATE_MAX)
  then Ok (d + n)
  else Raise OverflowError.

Record Topic := {
  topic_id : string;
  topic_name : string;
  topic_course_id : string
}.

Record Course := {
  course_id : string;
  course_user_id : string;
  is_archived : bool
}.

Record CalendarBlock := {
  cb_user_id : string;
  start_time : Z;
  end_time : Z
}.

(** Values stored in the JSON column [weekly_availability]. *)
Unset Elimination Schemes.
Inductive Json :=
| JNull
| JBool (b : bool)
| JNum (n : Z)
| JStr (s : string)
| JList (l : list Json)
| JObj (l : list (string * Json)).
Set Elimination Schemes.

Definition truthy (j : Json) : bool :=
  match j with
  | JNull => false
  | JBool b => b
  | JNum n => negb (n =? 0)
  | JStr s => negb (String.eqb s "")
  | JList l => match l with [] => false | _ => true end
  | JObj l => match l with [] => false | _ => true end
  end.

(** Stable sorts, as [sorted]/[list.sort] and SQL [ORDER BY] are used
    here: descending on a float key ([reverse=True]) and ascending on
    an integer key. *)
Fixpoint insert_desc {T} `{PyFloat T} {A} (x : T * A) (l : list (T * A)) : list (T * A) :=
  match l with
  | [] => [x]
  | y :: l' => if fltb x.1 y.1 then y :: insert_desc x l' else x :: l
  end.

Fixpoint sort_desc {T} `{PyFloat T} {A} (l : list (T * A)) : list (T * A) :=
  match l with
  | [] => []
  | x :: l' => insert_desc x (sort_desc l')
  end.

Fixpoint insert_asc {A} (key : A -> Z) (x : A) (l : list A) : list A :=
  match l with
  | [] => [x]
  | y :: l' => if key y <? key x then y :: insert_asc key x l' else x :: l
  end.

Fixpoint sort_asc {A} (key : A -> Z) (l : list A) : list A :=
  match l with
  | [] => []
  | x :: l' => insert_asc key x (sort_asc key l')
  end.

(** The slice [l[:n]]. *)
Definition py_slice_to {A} (n : Z) (l : list A) : list A :=
  if 0 <=? n then take (Z.to_nat n) l
  else take (Z.to_nat (Z.of_nat (length l) + n)) l.

Section Model.
Context {T : Type} `{PyFloat T}.

Record MasteryRecord := {
  mr_user_id : string;
  mr_topic_id : string;
  mastery_score : T;
  confidence_interval : T;
  trend : Trend;
  last_practiced_at : option Z;
  next_review_date : option Z;
  review_interval_days : Z;
  easiness_factor : T;
  practice_count : Z;
  quiz_count : Z
}.

Record Assessment := {
  assessment_id : string;
  a_course_id : string;
  a_name : string;
  weight_percent : T;
  due_date : Z;
  a_estimated_duration_min : option Z;
  is_completed : bool;
  (** the [topics] relationship, as topic ids *)
  a_topics : list string
}.

Record UserPreferences := {
  max_hours_per_day : T;
  preferred_block_length_min : Z;
  break_length_min : Z;
  earliest_start_time : Z;
  latest_end_time : Z;
  weekly_availability : gmap string Json
}.

Record User := {
  user_id : string;
  preferences : option UserPreferences
}.

Record StudyTask := {
  st_user_id : string;
  st_course_id : string;
  title : string;
  task_type : TaskType;
  difficulty : Difficulty;
  estimated_duration_min : Z;
  scheduled_start : option Z;
  scheduled_end : option Z;
  status : TaskStatus;
  priority_score : option T
}.

(** The tables a session reads and writes. *)
Record Database := {
  users : list User;
  courses : list Course;
  topics : list Topic;
  assessments : list Assessment;
  mastery_records : list MasteryRecord;
  calendar_blocks : list CalendarBlock;
  study_tasks : list StudyTask
}.

(** A SQLAlchemy session: the rows as committed, and the rows as the
    session sees them, pending changes included. *)
Record Session := {
  committed : Database;
  working : Database
}.

Definition db_commit (s : Session) : Session :=
  {| committed := working s; working := working s |}.

(** [db.close()] without a commit drops the pending changes. *)
Definition db_close (s : Session) : Session :=
  {| committed := committed s; working := committed s |}.

Definition with_mastery_records (l : list MasteryRecord) (d : Database) : Database :=
  {| users := users d; courses := courses d; topics := topics d;
     assessments := assessments d; mastery_records := l;
     calendar_blocks := calendar_blocks d; study_tasks := study_tasks d |}.

Definition with_study_tasks (l : list StudyTask) (d : Database) : Database :=
  {| users := users d; courses := courses d; topics := topics d;
     assessments := assessments d; mastery_records := mastery_records d;
     calendar_blocks := calendar_blocks d; study_tasks := l |}.

Definition set_working (d : Database) (s : Session) : Session :=
  {| committed := committed s; working := d |}.

(** ** MasteryEngine ([services/mastery_engine.py]) *)

Definition calculate_confidence_interval (attempt_count : Z) : Result T :=
  r ← fsqrt (of_int attempt_count);
  q ← fdiv (of_int 20) r;
  Ok (py_max (of_int 5) q).

(** Columns the constructor call leaves out take their defaults
    ([review_interval_days = 1], [easiness_factor = 2.5]) at the
    insert.  The confidence interval and the review date are computed
    before the row is added. *)
Definition initialize_mastery (s : Session) (today now : Z)
    (user topic : string) (diagnostic_score : T) (question_count : Z)
    : Session * Result MasteryRecord :=
  match calculate_confidence_interval question_count with
  | Raise e => (s, Raise e)
  | Ok confidence =>
      match date_add_days today 1 with
      | Raise e => (s, Raise e)
      | Ok next_review =>
          let mastery := {|
            mr_user_id := user;
            mr_topic_id := topic;
            mastery_score := diagnostic_score;
            confidence_interval := confidence;
            trend := NEW;
            last_practiced_at := Some now;
            next_review_date := Some next_review;
            review_interval_days := 1;
            easiness_factor := fdec 25 10;
            practice_count := 1;
            quiz_count := 0 |} in
          let d := working s in
          (db_commit (set_working (with_mastery_records (mastery_records d ++ [mastery]) d) s),
           Ok mastery)
      end
  end.

Definition detect_trend (old_mastery new_mastery threshold : T) : Trend :=
  let delta := fsub new_mastery old_mastery in
  if fltb threshold delta then IMPROVING
  else if fltb delta (fopp threshold) then DECLINING
  else STABLE.

Definition calculate_next_review (easiness_factor : T) (current_interval quality : Z)
    : Result (Z * T) :=
  let new_ef :=
    fadd easiness_factor
      (fsub (fdec 1 10)
         (fmul (of_int (5 - quality))
            (fadd (fdec 8 100) (fmul (of_int (5 - quality)) (fdec 2 100))))) in
  let new_ef := py_max (fdec 13 10) new_ef in
  if quality <? 3 then Ok (1, new_ef)
  else if current_interval =? 0 then Ok (1, new_ef)
  else if current_interval =? 1 then Ok (6, new_ef)
  else
    next_interval ← to_int (fmul (of_int current_interval) new_ef);
    Ok (next_interval, new_ef).

(** The row for [(user, topic)], with its position in the table:
    [query(...).filter(...).first()]. *)
Definition find_mastery (user topic : string) (l : list MasteryRecord)
    : option (nat * MasteryRecord) :=
  list_find (fun r => mr_user_id r = user /\ mr_topic_id r = topic) l.

(** The new mastery of an existing record. *)
Definition ewma (alpha quiz_score old_mastery : T) : T :=
  fadd (fmul alpha quiz_score) (fmul (fsub (of_int 1) alpha) old_mastery).

Definition update_mastery_ewma (s : Session) (today now : Z)
    (user topic : string) (quiz_score : T) (question_count : Z) (alpha : T)
    : Session * Result MasteryRecord :=
  match find_mastery user topic (mastery_records (working s)) with
  | None => initialize_mastery s today now user topic quiz_score question_count
  | Some (i, mastery) =>
      let old_mastery := mastery_score mastery in
      let new_mastery := ewma alpha quiz_score old_mastery in
      let ci := py_max (of_int 5) (fmul (confidence_interval mastery) (fdec 9 10)) in
      let tr := detect_trend old_mastery new_mastery (of_int 5) in
      let store (m : MasteryRecord) :=
        set_working
          (with_mastery_records (<[i := m]> (mastery_records (working s))) (working s)) s in
      (* the row as the session holds it while the schedule is being
         updated: the confidence interval and the trend are set, the
         review interval is [interval] *)
      let pending (interval : Z) :=
        {| mr_user_id := mr_user_id mastery;
           mr_topic_id := mr_topic_id mastery;
           mastery_score := old_mastery;
           confidence_interval := ci;
           trend := tr;
           last_practiced_at := last_practiced_at mastery;
           next_review_date := next_review_date mastery;
           review_interval_days := interval;
           easiness_factor := easiness_factor mastery;
           practice_count := practice_count mastery;
           quiz_count := quiz_count mastery |} in
      let schedule : Result (Z * T) :=
        if fleb (of_int 70) new_mastery then
          p ← fdiv quiz_score (of_int 100);
          quality ← to_int (fmul p (of_int 5));
          calculate_next_review (easiness_factor mastery) (review_interval_days mastery) quality
        else Ok (1, easiness_factor mastery) in
      match schedule with
      | Raise e => (store (pending (review_interval_days mastery)), Raise e)
      | Ok (interval, ef) =>
          (* [review_interval_days] is assigned before the date is
             computed *)
          match date_add_days today interval with
          | Raise e => (store (pending interval), Raise e)
          | Ok next_review =>
              let m := {| mr_user_id := mr_user_id mastery;
                          mr_topic_id := mr_topic_id mastery;
                          mastery_score := new_mastery;
                          confidence_interval := ci;
                          trend := tr;
                          last_practiced_at := Some now;
                          next_review_date := Some next_review;
                          review_interval_days := interval;
                          easiness_factor := ef;
                          practice_count := practice_count mastery;
                          quiz_count := quiz_count mastery + 1 |} in
              (db_commit (store m), Ok m)
          end
      end
  end.

Definition select_difficulty_by_mastery (mastery : T) : Difficulty :=
  if fltb mastery (of_int 40) then EASY
  else if fltb mastery (of_int 60) then MEDIUM
  else if fltb mastery (of_int 80) then HARD
  else EXAM_LEVEL.

Definition diff_order : list Difficulty := [EASY; MEDIUM; HARD; EXAM_LEVEL].

(** [diff_order.index(d)] *)
Definition diff_index (d : Difficulty) : Z :=
  match d with
  | EASY => 0
  | MEDIUM => 1
  | HARD => 2
  | EXAM_LEVEL => 3
  end.

Definition select_difficulty_adaptive (mastery : T) (tr : Trend)
    (days_until_exam : Z) (difficulty_curve : string) : Difficulty :=
  let base_diff := select_difficulty_by_mastery mastery in
  let base_diff :=
    if decide (tr = DECLINING) then
      let idx := diff_index base_diff in
      default base_diff (diff_order !! Z.to_nat (Z.max 0 (idx - 1)))
    else if decide (tr = IMPROVING /\ difficulty_curve = "aggressive") then
      let idx := diff_index base_diff in
      default base_diff (diff_order !! Z.to_nat (Z.min 3 (idx + 1)))
    else base_diff in
  if (days_until_exam <=? 7) && fleb (of_int 60) mastery then EXAM_LEVEL
  else if (days_until_exam <=? 3) && fltb mastery (of_int 60) then MEDIUM
  else base_diff.

(** [(date.today() - last_practiced).days if last_practiced else 30] *)
Definition days_since (today : Z) (last_practiced : option Z) : Z :=
  match last_practiced with
  | Some d => today - d
  | None => 30
  end.

Definition calculate_priority (today : Z) (assessment_weight mastery ci : T)
    (exam_date : Z) (last_practiced : option Z) : Result T :=
  weight ← fdiv assessment_weight (of_int 100);
  m ← fdiv mastery (of_int 100);
  let gap := fsub (of_int 1) m in
  let days_until_exam := Z.max 1 (exam_date - today) in
  urgency ← fdiv (of_int 1) (of_int days_until_exam);
  c ← fdiv ci (of_int 100);
  confidence_factor ← fdiv (of_int 1) (fadd (of_int 1) c);
  let days_since_practice := days_since today last_practiced in
  recency_factor ← fdiv (of_int 1) (fadd (of_int 1) (of_int days_since_practice));
  fdiv (fmul (fmul (fmul weight gap) urgency) confidence_factor) recency_factor.

(** Values held by the dictionaries the engine returns. *)
Inductive PyVal :=
| VStr (s : string)
| VInt (n : Z)
| VFloat (x : T).

(** [d[key]] *)
Definition getitem (d : gmap string PyVal) (key : string) : Result PyVal :=
  of_option (KeyError key) (d !! key).

(** A value used as a sort key or in a float comparison. *)
Definition as_float (v : PyVal) : Result T :=
  match v with
  | VFloat x => Ok x
  | VInt n => Ok (of_int n)
  | VStr _ => Raise (TypeError "str")
  end.

Definition as_str (v : PyVal) : string :=
  match v with
  | VStr s => s
  | _ => ""
  end.

(** The assessments covering [topic] that are due at [now] or later,
    by due date. *)
Definition upcoming_assessments_of (now : Z) (topic : string) (l : list Assessment)
    : list Assessment :=
  sort_asc due_date
    (filter (fun a => topic ∈ a_topics a /\ now <= due_date a) l).

(** One iteration of the loop of [get_prioritized_topics]: [None] is
    [continue]. *)
Definition prioritize_record (d : Database) (today now : Z) (record : MasteryRecord)
    : Result (option (gmap string PyVal)) :=
  match list_find (fun t => topic_id t = mr_topic_id record) (topics d) with
  | None => Ok None
  | Some (_, topic) =>
      match upcoming_assessments_of now (mr_topic_id record) (assessments d) with
      | [] => Ok None
      | next_assessment :: _ =>
          priority ← calculate_priority today
                       (weight_percent next_assessment)
                       (mastery_score record)
                       (confidence_interval record)
                       (date_of (due_date next_assessment))
                       (date_of <$> last_practiced_at record);
          let days_until := date_of (due_date next_assessment) - today in
          let diff := select_difficulty_adaptive (mastery_score record) (trend record)
                        days_until "balanced" in
          Ok (Some (list_to_map
            [("topic_id", VStr (mr_topic_id record));
             ("topic_name", VStr (topic_name topic));
             ("course_id", VStr (topic_course_id topic));
             ("priority", VFloat priority);
             ("mastery", VFloat (mastery_score record));
             ("trend", VStr (Trend_value (trend record)));
             ("recommended_difficulty", VStr (Difficulty_value diff));
             ("assessment_name", VStr (a_name next_assessment));
             ("days_until_exam", VInt days_until)]))
      end
  end.

Definition get_prioritized_topics (d : Database) (today now : Z)
    (user : string) (horizon_days : Z) : Result (list (gmap string PyVal)) :=
  let records := filter (fun r => mr_user_id r = user) (mastery_records d) in
  found ← mapM (prioritize_record d today now) records;
  let prioritized := omap id found in
  keyed ← mapM (fun x => v ← getitem x "priority"; k ← as_float v; Ok (k, x)) prioritized;
  Ok (py_slice_to (horizon_days * 2) (snd <$> sort_desc keyed)).

(** ** Scheduler ([services/scheduler.py]) *)

(** [current_date.strftime("%A").lower()]; day 0 is a Thursday. *)
Definition day_of_week (d : Z) : string :=
  match d mod 7 with
  | 0 => "thursday"
  | 1 => "friday"
  | 2 => "saturday"
  | 3 => "sunday"
  | 4 => "monday"
  | 5 => "tuesday"
  | _ => "wednesday"
  end.

(** [any(block.start_time < e and block.end_time > s for block in busy)] *)
Definition is_busy (busy : list CalendarBlock) (s e : Z) : bool :=
  existsb (fun b => (start_time b <? e) && (s <? end_time b)) busy.

(** The inner [while] loop over one day.  It runs as long as the block
    fits before [end_time]; [fuel] bounds the number of iterations and
    [None] means the bound was reached. *)
Fixpoint tile_day (fuel : nat) (busy : list CalendarBlock)
    (block_length break_length day_end current_block_start : Z)
    (available_blocks : list (Z * Z)) : option (list (Z * Z)) :=
  if current_block_start + block_length <=? day_end then
    match fuel with
    | O => None
    | S fuel' =>
        let current_block_end := current_block_start + block_length in
        let available_blocks :=
          if is_busy busy current_block_start current_block_end
          then available_blocks
          else available_blocks ++ [(current_block_start, current_block_end)] in
        tile_day fuel' busy block_length break_length day_end
          (current_block_end + break_length) available_blocks
    end
  else Some available_blocks.

(** The outer loop, over the days [current_date, current_date + 1, ...]
    up to [end_date]; [n] is the number of days left. *)
Fixpoint tile_days (fuel : nat) (prefs : UserPreferences) (busy : list CalendarBlock)
    (n : nat) (current_date : Z) (available_blocks : list (Z * Z))
    : option (list (Z * Z)) :=
  match n with
  | O => Some available_blocks
  | S n' =>
      if negb (truthy (default (JBool true)
                         (weekly_availability prefs !! day_of_week current_date)))
      then tile_days fuel prefs busy n' (current_date + 1) available_blocks
      else
        let day_start := combine current_date (earliest_start_time prefs) in
        let day_end := combine current_date (latest_end_time prefs) in
        blocks ← tile_day fuel busy
                   (preferred_block_length_min prefs * MINUTE)
                   (break_length_min prefs * MINUTE)
                   day_end day_start available_blocks;
        tile_days fuel prefs busy n' (current_date + 1) blocks
  end.

(** The busy times the query fetches: the user's calendar blocks that
    lie within the date range. *)
Definition busy_blocks (d : Database) (user : string) (start_date end_date : Z)
    : list CalendarBlock :=
  filter (fun b => cb_user_id b = user
                   /\ combine start_date time_min <= start_time b
                   /\ end_time b <= combine end_date time_max)
         (calendar_blocks d).

(** [user = db.query(User)...first(); prefs = user.preferences] *)
Definition user_preferences (d : Database) (user : string)
    : Result (option UserPreferences) :=
  match list_find (fun u => user_id u = user) (users d) with
  | None => Raise (AttributeError "preferences")
  | Some (_, u) => Ok (preferences u)
  end.

(** [None]: the iteration bound [fuel] was reached.  Without a
    preferences row the first day of the range raises. *)
Definition get_available_time_blocks (fuel : nat) (d : Database) (user : string)
    (start_date end_date : Z) : option (Result (list (Z * Z))) :=
  match user_preferences d user with
  | Raise e => Some (Raise e)
  | Ok None =>
      if start_date <=? end_date
      then Some (Raise (AttributeError "weekly_availability"))
      else Some (Ok [])
  | Ok (Some prefs) =>
      Ok <$> tile_days fuel prefs (busy_blocks d user start_date end_date)
               (Z.to_nat (end_date - start_date + 1)) start_date []
  end.

(** The attributes of the mapped class [StudyTask]; the declarative
    constructor raises [TypeError] on any other keyword. *)
Definition StudyTask_attributes : list string :=
  ["id"; "user_id"; "course_id"; "title"; "description"; "task_type";
   "difficulty"; "topic_ids"; "estimated_duration_min"; "scheduled_start";
   "scheduled_end"; "actual_start"; "actual_end"; "status";
   "completion_percentage"; "priority_score"; "calendar_event_id";
   "notion_page_id"; "expected_mastery_gain"; "actual_mastery_gain";
   "created_at"; "updated_at"; "user"; "course"; "calendar_block";
   "notion_task"].

Definition StudyTask_new (keywords : list string) (row : StudyTask) : Result StudyTask :=
  match list_find (fun k => k ∉ StudyTask_attributes) keywords with
  | Some (_, k) => Raise (TypeError k)
  | None => Ok row
  end.

(** [str(t.get(key))]; the engine stores strings under the keys this
    is used for (other values are rendered as the empty string). *)
Definition get_str (t : gmap string PyVal) (key : string) : string :=
  match t !! key with
  | None => "None"
  | Some v => as_str v
  end.

(** The body of the loop of [create_study_tasks_from_topics]; [None]
    is [continue]. *)
Definition create_study_task (d : Database) (user course : string)
    (topic_data : gmap string PyVal) : Result (option StudyTask) :=
  tid ← getitem topic_data "topic_id";
  match list_find (fun t => topic_id t = as_str tid) (topics d) with
  | None => Ok None
  | Some (_, topic) =>
      v ← getitem topic_data "mastery_score";
      mastery ← as_float v;
      let '(diff, duration) :=
        if fltb mastery (of_int 40) then (EASY, 30)
        else if fltb mastery (of_int 70) then (MEDIUM, 45)
        else (HARD, 60) in
      practice ← TaskType_member "PRACTICE";
      p ← getitem topic_data "priority_score";
      priority ← as_float p;
      task ← StudyTask_new
               ["user_id"; "course_id"; "topic_id"; "title"; "task_type";
                "difficulty"; "estimated_duration_min"; "priority_score"; "status"]
               {| st_user_id := user;
                  st_course_id := course;
                  title := "Practice: " +:+ topic_name topic;
                  task_type := practice;
                  difficulty := diff;
                  estimated_duration_min := duration;
                  scheduled_start := None;
                  scheduled_end := None;
                  status := PENDING;
                  priority_score := Some priority |};
      Ok (Some task)
  end.

Definition create_study_tasks_from_topics (d : Database) (today now : Z)
    (user course : string) : Result (list StudyTask) :=
  prioritized_topics ← get_prioritized_topics d today now user 7;
  let course_topics :=
    filter (fun t => get_str t "course_id" = course) prioritized_topics in
  made ← mapM (create_study_task d user course) course_topics;
  Ok (omap id (made : list (option StudyTask))).

(** [available_blocks.remove(b)]: the first equal element goes. *)
Fixpoint remove_first (b : Z * Z) (l : list (Z * Z)) : list (Z * Z) :=
  match l with
  | [] => []
  | y :: l' => if decide (b = y) then l' else y :: remove_first b l'
  end.

(** The inner [for] loop of [schedule_tasks_greedy] up to its [break]:
    the first block the task fits in, within the daily limit. *)
Fixpoint find_block (max_hours_per_day : T) (daily_usage : gmap Z Z)
    (duration_min : Z) (available_blocks : list (Z * Z)) : option (Z * Z) :=
  match available_blocks with
  | [] => None
  | (block_start, block_end) :: rest =>
      if block_end - block_start <? duration_min * MINUTE then
        find_block max_hours_per_day daily_usage duration_min rest
      else
        let daily_minutes := default 0 (daily_usage !! date_of block_start) in
        let max_daily_minutes := fmul max_hours_per_day (of_int 60) in
        if flt_int max_daily_minutes (daily_minutes + duration_min) then
          find_block max_hours_per_day daily_usage duration_min rest
        else Some (block_start, block_end)
  end.

Record Greedy := {
  g_blocks : list (Z * Z);
  g_usage : gmap Z Z;
  g_scheduled : list StudyTask;
  g_unscheduled : list StudyTask
}.

Definition set_scheduled (start : Z) (task : StudyTask) : StudyTask :=
  {| st_user_id := st_user_id task;
     st_course_id := st_course_id task;
     title := title task;
     task_type := task_type task;
     difficulty := difficulty task;
     estimated_duration_min := estimated_duration_min task;
     scheduled_start := Some start;
     scheduled_end := Some (start + estimated_duration_min task * MINUTE);
     status := SCHEDULED;
     priority_score := priority_score task |}.

(** The body of the outer loop, for one task. *)
Definition place_task (max_hours_per_day : T) (g : Greedy) (task : StudyTask) : Greedy :=
  let duration := estimated_duration_min task in
  match find_block max_hours_per_day (g_usage g) duration (g_blocks g) with
  | None =>
      {| g_blocks := g_blocks g; g_usage := g_usage g;
         g_scheduled := g_scheduled g;
         g_unscheduled := g_unscheduled g ++ [task] |}
  | Some (block_start, block_end) =>
      let block_date := date_of block_start in
      let daily_minutes := default 0 (g_usage g !! block_date) in
      let remaining_start := block_start + duration * MINUTE in
      {| g_blocks :=
           remove_first (block_start, block_end) (g_blocks g)
           ++ (if remaining_start <? block_end then [(remaining_start, block_end)] else []);
         g_usage := <[block_date := daily_minutes + duration]> (g_usage g);
         g_scheduled := g_scheduled g ++ [set_scheduled block_start task];
         g_unscheduled := g_unscheduled g |}
  end.

(** [t.priority_score or 0] *)
Definition sort_key (t : StudyTask) : T := default (of_int 0) (priority_score t).

Definition greedy_run (tasks : list StudyTask) (available_blocks : list (Z * Z))
    (max_hours_per_day : T) : Greedy :=
  let sorted_tasks := snd <$> sort_desc ((fun t => (sort_key t, t)) <$> tasks) in
  foldl (place_task max_hours_per_day)
    {| g_blocks := available_blocks; g_usage := ∅;
       g_scheduled := []; g_unscheduled := [] |}
    sorted_tasks.

Definition schedule_tasks_greedy (tasks : list StudyTask)
    (available_blocks : list (Z * Z)) (max_hours_per_day : T)
    : list StudyTask * list StudyTask :=
  let g := greedy_run tasks available_blocks max_hours_per_day in
  (g_scheduled g, g_unscheduled g).

Record ScheduleResult := {
  r_scheduled : list StudyTask;
  r_unscheduled : list StudyTask;
  r_total_hours : T;
  r_daily_breakdown : gmap Z (T * Z)
}.

(** The review task of one upcoming assessment. *)
Definition create_review_task (user : string) (start_date : Z) (a : Assessment)
    : Result StudyTask :=
  let days_until := date_of (due_date a) - start_date in
  q ← fdiv (of_int days_until) (of_int 7);
  let priority := fsub (of_int 10) q in
  let duration :=
    match a_estimated_duration_min a with
    | Some n => if n =? 0 then 60 else n
    | None => 60
    end in
  StudyTask_new
    ["user_id"; "course_id"; "assessment_id"; "title"; "task_type";
     "difficulty"; "estimated_duration_min"; "priority_score"; "status"]
    {| st_user_id := user;
       st_course_id := a_course_id a;
       title := "Review for " +:+ a_name a;
       task_type := REVIEW;
       difficulty := MEDIUM;
       estimated_duration_min := duration;
       scheduled_start := None;
       scheduled_end := None;
       status := PENDING;
       priority_score := Some priority |}.

(** The per-day statistics of the result. *)
Fixpoint daily_breakdown_of (acc : gmap Z (T * Z)) (scheduled : list StudyTask)
    : Result (gmap Z (T * Z)) :=
  match scheduled with
  | [] => Ok acc
  | task :: rest =>
      start ← of_option (AttributeError "date") (scheduled_start task);
      let task_date := date_of start in
      let '(hours, blocks) := default (of_int 0, 0) (acc !! task_date) in
      h ← fdiv (of_int (estimated_duration_min task)) (of_int 60);
      daily_breakdown_of (<[task_date := (fadd hours h, blocks + 1)]> acc) rest
  end.

(** Everything [generate_schedule] computes before it writes. *)
Definition plan_schedule (fuel : nat) (d : Database) (today now utcnow : Z)
    (user : string) (start_date end_date : Z)
    : option (Result (list StudyTask * list StudyTask)) :=
  match user_preferences d user with
  | Raise e => Some (Raise e)
  | Ok prefs =>
      blocks ← get_available_time_blocks fuel d user start_date end_date;
      Some (
        available_blocks ← blocks;
        let active := filter (fun c => course_user_id c = user /\ is_archived c = false)
                        (courses d) in
        per_course ← mapM (fun c => create_study_tasks_from_topics d today now user (course_id c))
                       active;
        let upcoming_assessments :=
          filter (fun a => Exists (fun c => course_id c = a_course_id a
                                             /\ course_user_id c = user) (courses d)
                           /\ utcnow <= due_date a
                           /\ due_date a <= combine end_date time_max
                           /\ is_completed a = false)
                 (assessments d) in
        review_tasks ← mapM (create_review_task user start_date) upcoming_assessments;
        let all_tasks := concat per_course ++ review_tasks in
        p ← of_option (AttributeError "max_hours_per_day") prefs;
        Ok (schedule_tasks_greedy all_tasks available_blocks (max_hours_per_day p)))
  end.

(** [None]: the iteration bound of the availability planner was
    reached.  The [db.add] calls and the [db.commit()] come after the
    whole plan is computed; an exception before them leaves the session
    as it was. *)
Definition generate_schedule (fuel : nat) (s : Session) (today now utcnow : Z)
    (user : string) (start_date end_date : Z)
    : option (Session * Result ScheduleResult) :=
  plan ← plan_schedule fuel (working s) today now utcnow user start_date end_date;
  Some
    match plan with
    | Raise e => (s, Raise e)
    | Ok (scheduled, unscheduled) =>
        let d := working s in
        let s' := db_commit (set_working (with_study_tasks (study_tasks d ++ scheduled) d) s) in
        (s',
         total ← fdiv (of_int (foldr (fun t n => estimated_duration_min t + n) 0 scheduled))
                   (of_int 60);
         breakdown ← daily_breakdown_of ∅ scheduled;
         Ok {| r_scheduled := scheduled; r_unscheduled := unscheduled;
               r_total_hours := total; r_daily_breakdown := breakdown |})
    end.

(** The rows the bulk delete of [replan_schedule] removes. *)
Definition replan_deletes (user : string) (today : Z) (t : StudyTask) : bool :=
  bool_decide (st_user_id t = user)
  && match scheduled_start t with
     | Some start =>
         (combine today time_min <=? start) && (start <=? combine (today + 7) time_max)
     | None => false
     end
  && bool_decide (status t = PENDING \/ status t = SCHEDULED).

Record ReplanResult := {
  trigger : string;
  replanned_at : Z;
  schedule : ScheduleResult
}.

Definition replan_schedule (fuel : nat) (s : Session) (today now utcnow : Z)
    (user trigger_event : string) : option (Session * Result ReplanResult) :=
  let horizon_days := 7 in
  let end_date := today + horizon_days in
  let d := working s in
  let s1 := set_working
              (with_study_tasks
                 (filter (fun t => replan_deletes user today t = false) (study_tasks d)) d) s in
  let s2 := db_commit s1 in
  '(s3, result) ← generate_schedule fuel s2 today now utcnow user today end_date;
  Some (s3,
        r ← result;
        Ok {| trigger := trigger_event; replanned_at := utcnow; schedule := r |}).

(** [x] lies in the closed interval between [a] and [b]. *)
Definition between (a b x : T) : bool :=
  (fleb a x && fleb x b) || (fleb b x && fleb x a).

(** Successive requests updating the mastery of one [(user, topic)]:
    each call [(today, now, quiz_score, question_count, alpha)] opens a
    session on the committed database.  The result lists the records
    the calls returned, in order (a call that raised returns none). *)
Fixpoint update_calls (d : Database) (user topic : string)
    (calls : list (Z * Z * T * Z * T)) : list MasteryRecord :=
  match calls with
  | [] => []
  | (today, now, quiz_score, question_count, alpha) :: rest =>
      let '(s', r) := update_mastery_ewma {| committed := d; working := d |}
                        today now user topic quiz_score question_count alpha in
      match r with
      | Ok m => m :: update_calls (committed s') user topic rest
      | Raise _ => update_calls (committed s') user topic rest
      end
  end.

End Model.

Arguments MasteryRecord T : clear implicits.
Arguments Assessment T : clear implicits.
Arguments UserPreferences T : clear implicits.
Arguments User T : clear implicits.
Arguments StudyTask T : clear implicits.
Arguments Database T : clear implicits.
Arguments Session T : clear implicits.
Arguments PyVal T : clear implicits.
Arguments Greedy T : clear implicits.
Arguments ScheduleResult T : clear implicits.
Arguments ReplanResult T : clear implicits.

(** ** Sample data *)

Module Sample.
Import B64.

Definition f64 (n : Z) : spec_float := b64_of_Z n.

(** The exact instance with a square root defined on the squares
    [0, 1, 4, 9, 16] only. *)
Definition small_sqrt (x : Q) : Result Q :=
  if Qeq_bool x 0 then Ok 0%Q
  else if Qeq_bool x 1 then Ok 1%Q
  else if Qeq_bool x 4 then Ok 2%Q
  else if Qeq_bool x 9 then Ok 3%Q
  else if Qeq_bool x 16 then Ok 4%Q
  else Raise ValueError.

Definition QS : PyFloat Q := Exact.QFloat small_sqrt.

Definition empty_db {T} `{PyFloat T} : Database T :=
  {| users := []; courses := []; topics := []; assessments := [];
     mastery_records := []; calendar_blocks := []; study_tasks := [] |}.

Definition record_with {T} `{PyFloat T} (mastery : T) : MasteryRecord T :=
  {| mr_user_id := "u1"; mr_topic_id := "t1";
     mastery_score := mastery;
     confidence_interval := of_int 20;
     trend := NEW;
     last_practiced_at := Some 0;
     next_review_date := Some 1;
     review_interval_days := 1;
     easiness_factor := fdec 25 10;
     practice_count := 1;
     quiz_count := 0 |}.

Definition session_with {T} `{PyFloat T} (mastery : T) : Session T :=
  let d := with_mastery_records [record_with mastery] empty_db in
  {| committed := d; working := d |}.

(** One user with one course, one topic and its mastery record, and
    one assessment covering the topic, due on day 10 (the sessions
    below run on day 0). *)
Definition assessment_due (completed : bool) : Assessment spec_float :=
  {| assessment_id := "a1"; a_course_id := "c1"; a_name := "Midterm";
     weight_percent := f64 20;
     due_date := 10 * DAY;
     a_estimated_duration_min := Some 90;
     is_completed := completed;
     a_topics := ["t1"] |}.

Definition default_preferences : UserPreferences spec_float :=
  {| max_hours_per_day := f64 4;
     preferred_block_length_min := 50;
     break_length_min := 10;
     earliest_start_time := 8 * 60 * MINUTE;
     latest_end_time := 22 * 60 * MINUTE;
     weekly_availability := ∅ |}.

Definition course_db (completed : bool) (tasks : list (StudyTask spec_float))
    : Database spec_float :=
  {| users := [{| user_id := "u1"; preferences := Some default_preferences |}];
     courses := [{| course_id := "c1"; course_user_id := "u1"; is_archived := false |}];
     topics := [{| topic_id := "t1"; topic_name := "Limits"; topic_course_id := "c1" |}];
     assessments := [assessment_due completed];
     mastery_records := [record_with (f64 60)];
     calendar_blocks := [];
     study_tasks := tasks |}.

(** The same user with a calendar block from 08:00 to 08:30 on day 0. *)
Definition busy_db : Database spec_float :=
  {| users := [{| user_id := "u1"; preferences := Some default_preferences |}];
     courses := []; topics := []; assessments := []; mastery_records := [];
     calendar_blocks :=
       [{| cb_user_id := "u1";
           start_time := 8 * 60 * MINUTE;
           end_time := 8 * 60 * MINUTE + 30 * MINUTE |}];
     study_tasks := [] |}.

(** A pending task of [minutes] minutes with priority [priority]. *)
Definition pending_task (name : string) (minutes priority : Z) : StudyTask spec_float :=
  {| st_user_id := "u1"; st_course_id := "c1"; title := name;
     task_type := REVIEW; difficulty := MEDIUM;
     estimated_duration_min := minutes;
     scheduled_start := None; scheduled_end := None;
     status := PENDING;
     priority_score := Some (f64 priority) |}.

(** [hh:mm] on day 0. *)
Definition at_time (hh mm : Z) : Z := (hh * 60 + mm) * MINUTE.

(** A calendar block of the user from 23:00 on the day before day 0 to
    09:00 on day 0, and the user with that one block. *)
Definition overnight_block : CalendarBlock :=
  {| cb_user_id := "u1";
     start_time := combine (-1) (at_time 23 0);
     end_time := at_time 9 0 |}.

Definition overnight_db : Database spec_float :=
  {| users := [{| user_id := "u1"; preferences := Some default_preferences |}];
     courses := []; topics := []; assessments := []; mastery_records := [];
     calendar_blocks := [overnight_block];
     study_tasks := [] |}.

(** A stored task, scheduled on day 0 from 09:00 to 10:00. *)
Definition stored_task : StudyTask spec_float :=
  set_scheduled (at_time 9 0) (pending_task "Stored" 60 3).

(** A fresh session on a database. *)
Definition open_session {T} (d : Database T) : Session T :=
  {| committed := d; working := d |}.

(** The dictionary the engine returns for the topic: the priority is
    [0.2 * 0.4 * 0.1 * (1/1.2) / 1], rounded. *)
Definition prioritized_t1 : gmap string (PyVal spec_float) :=
  list_to_map
    [("topic_id", VStr "t1");
     ("topic_name", VStr "Limits");
     ("course_id", VStr "c1");
     ("priority", VFloat (S754_finite false 7686143364045649 (-60)));
     ("mastery", VFloat (f64 60));
     ("trend", VStr "new");
     ("recommended_difficulty", VStr "hard");
     ("assessment_name", VStr "Midterm");
     ("days_until_exam", VInt 10)].

(** A dictionary with the keys [create_study_tasks_from_topics] reads. *)
Definition expected_topic_data : gmap string (PyVal spec_float) :=
  list_to_map [("topic_id", VStr "t1"); ("course_id", VStr "c1");
               ("mastery_score", VFloat (f64 60));
               ("priority_score", VFloat (f64 1))].

End Sample.

(** ** Orders used in the statements *)

(** Of two records returned one after the other, the later confidence
    interval is no larger. *)
Definition ci_shrinks (a b : MasteryRecord Q) : Prop :=
  (confidence_interval b <= confidence_interval a)%Q.

(** ** Time blocks *)

(** A busy interval overlaps a block:
    [busy.start < block.end AND busy.end > block.start]. *)
Definition overlaps (busy : CalendarBlock) (block : Z * Z) : Prop :=
  start_time busy < block.2 /\ end_time busy > block.1.

(** The table of calendar blocks with one more row. *)
Definition add_calendar_block {T} (b : CalendarBlock) (d : Database T) : Database T :=
  {| users := users d; courses := courses d; topics := topics d;
     assessments := assessments d; mastery_records := mastery_records d;
     calendar_blocks := b :: calendar_blocks d; study_tasks := study_tasks d |}.

(** A calendar block that starts before the first day of the range or
    ends after its last day. *)
Definition outside_range (start_date end_date : Z) (b : CalendarBlock) : Prop :=
  start_time b < combine start_date time_min \/ combine end_date time_max < end_time b.

(** Chronological order of a list of blocks: every block starts, and
    ends, before any later block starts. *)
Definition chronological (l : list (Z * Z)) : Prop :=
  StronglySorted (fun a b => a.1 < b.1 /\ a.2 <= b.1) l.

(** Two half-open intervals [[a.1, a.2)] and [[b.1, b.2)] do not
    overlap. *)
Definition disjoint (a b : Z * Z) : Prop := ~ (a.1 < b.2 /\ b.1 < a.2).

(** No two members of the list overlap. *)
Definition pairwise_disjoint (l : list (Z * Z)) : Prop := StronglySorted disjoint l.

(** The interval [[scheduled_start, scheduled_end)] of a task. *)
Definition task_interval {T} (t : StudyTask T) : option (Z * Z) :=
  match scheduled_start t, scheduled_end t with
  | Some s, Some e => Some (s, e)
  | _, _ => None
  end.

(** [scheduled_start.date() == day] *)
Definition scheduled_on {T} (day : Z) (t : StudyTask T) : bool :=
  match scheduled_start t with
  | Some s => date_of s =? day
  | None => false
  end.

(** The sum of [estimated_duration_min] over the tasks of the list
    scheduled on [day]. *)
Definition day_minutes {T} (day : Z) (l : list (StudyTask T)) : Z :=
  foldr (fun t n => (if scheduled_on day t then estimated_duration_min t else 0) + n) 0 l.

(** The invariant of the loop of [schedule_tasks_greedy] after [n]
    tasks: the free blocks do not overlap each other nor a scheduled
    task, the scheduled tasks carry their interval and do not overlap,
    and [daily_usage] holds the minutes scheduled on each day, within
    the limit. *)
Definition greedy_inv {T} `{PyFloat T} (max_hours_per_day : T) (n : nat) (g : Greedy T)
    : Prop :=
  pairwise_disjoint (g_blocks g)
  /\ Forall (fun t => exists s,
                scheduled_start t = Some s
                /\ scheduled_end t = Some (s + estimated_duration_min t * MINUTE)
                /\ 0 < estimated_duration_min t
                /\ is_Some (g_usage g !! date_of s)
                /\ Forall (disjoint (s, s + estimated_duration_min t * MINUTE)) (g_blocks g))
       (g_scheduled g)
  /\ pairwise_disjoint (omap task_interval (g_scheduled g))
  /\ (forall day, default 0 (g_usage g !! day) = day_minutes day (g_scheduled g))
  /\ (forall day u, g_usage g !! day = Some u ->
                    flt_int (fmul max_hours_per_day (of_int 60)) u = false)
  /\ (length (g_scheduled g) + length (g_unscheduled g) = n)%nat.

(** The invariant of the planner's loops on the blocks gathered so
    far: free, in order, of positive length and ended by [cur] and by
    [hi]. *)
Definition planned (busy : list CalendarBlock) (cur hi : Z) (acc : list (Z * Z)) : Prop :=
  chronological acc
  /\ Forall (fun blk => (forall b, b ∈ busy -> ~ overlaps b blk)
                        /\ blk.1 < blk.2 /\ blk.2 <= cur /\ blk.2 <= hi) acc.

(** Preferences the planner's loops end on: a block length that is
    positive, a break that is not negative, and start and end times
    that are times of day. *)
Definition sane_preferences {T} (prefs : UserPreferences T) : Prop :=
  0 < preferred_block_length_min prefs
  /\ 0 <= break_length_min prefs
  /\ 0 <= earliest_start_time prefs < DAY
  /\ 0 <= latest_end_time prefs < DAY.

(** ** Completion flags *)

(** The assessment with its [is_completed] flag set to [b]. *)
Definition mark_completed {T} (b : bool) (a : Assessment T) : Assessment T :=
  {| assessment_id := assessment_id a;
     a_course_id := a_course_id a;
     a_name := a_name a;
     weight_percent := weight_percent a;
     due_date := due_date a;
     a_estimated_duration_min := a_estimated_duration_min a;
     is_completed := b;
     a_topics := a_topics a |}.

(** The database with every assessment's flag rewritten by [flag]. *)
Definition reflag {T} (flag : Assessment T -> bool) (d : Database T) : Database T :=
  {| users := users d; courses := courses d; topics := topics d;
     assessments := (fun a => mark_completed (flag a) a) <$> assessments d;
     mastery_records := mastery_records d;
     calendar_blocks := calendar_blocks d; study_tasks := study_tasks d |}.

(** ** Replanning *)

(** The tasks of [d] that the bulk delete of [replan_schedule] keeps. *)
Definition kept_tasks {T} (user : string) (today : Z) (d : Database T) : list (StudyTask T) :=
  filter (fun t => replan_deletes user today t = false) (study_tasks d).

(** The tasks the regeneration adds to the store: the scheduled
    partition of the plan computed on the database after the delete,
    none when the planning raises. *)
Definition regenerated_tasks {T} `{PyFloat T} (fuel : nat) (d : Database T)
    (today now utcnow : Z) (user : string) : list (StudyTask T) :=
  match plan_schedule fuel (with_study_tasks (kept_tasks user today d) d)
          today now utcnow user today (today + 7) with
  | Some (Ok (scheduled, _)) => scheduled
  | _ => []
  end.

(** ** The priority formula of the design document *)

Definition priority_formula (weight_percent mastery ci : Q)
    (days_until_exam days_since_practice : Z) : Q :=
  ((weight_percent / 100) * (1 - mastery / 100)
   * (1 / inject_Z (Z.max 1 days_until_exam))
   * (1 / (1 + ci / 100))
   / (1 / (1 + inject_Z days_since_practice)))%Q.

(** The inputs of [calculate_priority] as the data model bounds them:
    a weight that is not negative, a mastery in [[0, 100]], a
    confidence interval that is not negative and a last practice that
    is not in the future. *)
Definition priority_domain (weight_percent mastery ci : Q)
    (today : Z) (last_practiced : option Z) : Prop :=
  (0 <= weight_percent)%Q /\ (0 <= mastery <= 100)%Q /\ (0 <= ci)%Q
  /\ 0 <= days_since today last_practiced.


(** The priority as the product of its factors: weight, gap, urgency,
    confidence factor and the inverse of the recency factor. *)
Definition priority_product (W G U C R : Q) : Q := (W * G * U * C * R)%Q.

(** ** Floor of a double *)

(** [math.floor(x)] on a double. *)
Definition b64_floor (x : spec_float) : Result Z :=
  match x with
  | S754_zero _ => Ok 0
  | S754_finite s m e =>
      let v := if s then Zneg m else Zpos m in
      match e with
      | Zneg p => Ok (v / 2 ^ Zpos p)
      | _ => Ok (v * 2 ^ e)
      end
  | S754_infinity _ => Raise OverflowError
  | S754_nan => Raise ValueError
  end.

(** Not a negative number. *)
Definition not_negative (x : spec_float) : Prop :=
  match x with
  | S754_finite true _ _ | S754_infinity true => False
  | _ => True
  end.

(** ** Confidence intervals in double precision *)

Definition b64_valid (x : spec_float) : bool := valid_binary B64.prec B64.emax x.

(** The doubles a confidence interval takes: well-formed and at least
    5.0 (plus infinity included). *)
Definition ci_value (x : spec_float) : Prop :=
  b64_valid x = true /\ SFleb (B64.b64_of_Z 5) x = true.

(** [ci_shrinks] for doubles. *)
Definition ci_shrinks64 (a b : MasteryRecord spec_float) : Prop :=
  SFleb (confidence_interval b) (confidence_interval a) = true.

(** The confidence interval [initialize_mastery] computes for
    [question_count] is such a double. *)
Definition initial_ci_ok (question_count : Z) : bool :=
  match @calculate_confidence_interval _ B64.binary64 question_count with
  | Ok c => b64_valid c && SFleb (B64.b64_of_Z 5) c
  | Raise _ => false
  end.

(** ** The order of doubles *)

(** A key on which [SFcompare] is the order of [Z * Z * Z]: class, then
    exponent, then mantissa, mirrored for negative numbers.  A NaN has
    no key. *)
Definition sf_key (x : spec_float) : option (Z * Z * Z) :=
  match x with
  | S754_nan => None
  | S754_zero _ => Some (0, 0, 0)
  | S754_infinity s => Some (if s then -2 else 2, 0, 0)
  | S754_finite s m e => if s then Some (-1, - e, - Zpos m) else Some (1, e, Zpos m)
  end.

Definition key_compare (a b : Z * Z * Z) : comparison :=
  match a.1.1 ?= b.1.1 with
  | Eq => match a.1.2 ?= b.1.2 with
          | Eq => a.2 ?= b.2
          | c => c
          end
  | c => c
  end.

(** ** Ranges of the data model *)

(** A mastery record within the ranges the engine works in: a mastery
    score in [[0, 100]], a confidence interval of at least 5, an
    easiness factor of at least 1.3 and a review interval of at least
    one day. *)
Definition record_in_range (r : MasteryRecord Q) : Prop :=
  (0 <= mastery_score r <= 100)%Q
  /\ (5 <= confidence_interval r)%Q
  /\ (13 # 10 <= easiness_factor r)%Q
  /\ 1 <= review_interval_days r.

(** ** Prioritized topics *)

(** The sort key [x['priority']] of a dictionary of the engine. *)
Definition priority_key {T} `{PyFloat T} (x : gmap string (PyVal T)) : Result T :=
  v ← getitem x "priority"; as_float v.

(** [a] is an assessment of the table that covers [topic], is due at
    [now] or later, and is due no later than any other such one. *)
Definition earliest_upcoming {T} (d : Database T) (now : Z) (topic : string)
    (a : Assessment T) : Prop :=
  a ∈ assessments d /\ topic ∈ a_topics a /\ now <= due_date a
  /\ forall a', a' ∈ assessments d -> topic ∈ a_topics a' -> now <= due_date a' ->
                due_date a <= due_date a'.

(** Sample data in exact arithmetic: one user with two topics of one
    course, practiced on day 0, a midterm on day 10 covering the first
    topic and a final on day 20 covering both. *)
Module SampleExact.

Definition record_for (topic : string) (mastery : Q) : MasteryRecord Q :=
  {| mr_user_id := "u1"; mr_topic_id := topic;
     mastery_score := mastery;
     confidence_interval := 20%Q;
     trend := NEW;
     last_practiced_at := Some 0;
     next_review_date := Some 1;
     review_interval_days := 1;
     easiness_factor := (25 # 10)%Q;
     practice_count := 1;
     quiz_count := 0 |}.

Definition assessment (name : string) (due_day : Z) (weight : Q) (covers : list string)
    : Assessment Q :=
  {| assessment_id := name; a_course_id := "c1"; a_name := name;
     weight_percent := weight;
     due_date := due_day * DAY;
     a_estimated_duration_min := Some 90;
     is_completed := false;
     a_topics := covers |}.

Definition course_db : Database Q :=
  {| users := [];
     courses := [{| course_id := "c1"; course_user_id := "u1"; is_archived := false |}];
     topics := [{| topic_id := "t1"; topic_name := "Limits"; topic_course_id := "c1" |};
                {| topic_id := "t2"; topic_name := "Series"; topic_course_id := "c1" |}];
     assessments := [assessment "Final" 20 40%Q ["t1"; "t2"];
                     assessment "Midterm" 10 20%Q ["t1"]];
     mastery_records := [record_for "t1" 60%Q; record_for "t2" 30%Q];
     calendar_blocks := [];
     study_tasks := [] |}.

End SampleExact.

(** ** The grid of the availability planner *)

(** [prefs.weekly_availability.get(day_of_week, True)] is truthy. *)
Definition day_enabled {T} (prefs : UserPreferences T) (day : Z) : bool :=
  truthy (default (JBool true) (weekly_availability prefs !! day_of_week day)).

(** The [k]-th slot of a day: slots of the preferred block length, one
    block and one break apart, from the earliest start time on. *)
Definition grid_slot {T} (prefs : UserPreferences T) (day k : Z) : Z * Z :=
  let s := combine day (earliest_start_time prefs)
           + k * ((preferred_block_length_min prefs + break_length_min prefs) * MINUTE) in
  (s, s + preferred_block_length_min prefs * MINUTE).

(** A slot of an enabled day of the range that ends by the latest end
    time. *)
Definition on_grid {T} (prefs : UserPreferences T) (start_date end_date : Z)
    (blk : Z * Z) : Prop :=
  exists day k,
    start_date <= day <= end_date
    /\ day_enabled prefs day = true
    /\ 0 <= k
    /\ blk = grid_slot prefs day k
    /\ blk.2 <= combine day (latest_end_time prefs).

(** ** Free time *)

(** The interval [inner] lies inside [outer]. *)
Definition within (inner outer : Z * Z) : Prop :=
  outer.1 <= inner.1 /\ inner.2 <= outer.2.

(** The total length of a list of blocks, in microseconds. *)
Definition free_time (l : list (Z * Z)) : Z :=
  foldr (fun b n => (b.2 - b.1) + n) 0 l.

(** [sum(t.estimated_duration_min for t in l)] *)
Definition scheduled_minutes {T} (l : list (StudyTask T)) : Z :=
  foldr (fun t n => estimated_duration_min t + n) 0 l.

(** Descending order of the sort key [t.priority_score or 0], without
    rounding. *)
Definition by_priority (qsqrt : Q -> Result Q) (l : list (StudyTask Q)) : Prop :=
  StronglySorted
    (fun a b => (@sort_key Q (Exact.QFloat qsqrt) b <= @sort_key Q (Exact.QFloat qsqrt) a)%Q) l.

(** ** Review candidates *)

(** The assessments [generate_schedule] fetches to make review tasks
    for: the upcoming incomplete assessments of the user's courses, due
    between [utcnow] and the end of the range. *)
Definition upcoming_incomplete {T} (d : Database T) (utcnow : Z) (user : string)
    (end_date : Z) : list (Assessment T) :=
  filter (fun a => Exists (fun c => course_id c = a_course_id a
                                     /\ course_user_id c = user) (courses d)
                   /\ utcnow <= due_date a
                   /\ due_date a <= combine end_date time_max
                   /\ is_completed a = false)
         (assessments d).

(** ** The rows a replanning deletes *)

(** The filter of the bulk delete of [replan_schedule], as a
    proposition: a task of the user, scheduled to start within
    [[today 00:00, today + 7 23:59:59.999999]], pending or scheduled. *)
Definition in_replan_window {T} (user : string) (today : Z) (t : StudyTask T) : Prop :=
  st_user_id t = user
  /\ match scheduled_start t with
     | Some start => combine today time_min <= start <= combine (today + 7) time_max
     | None => False
     end
  /\ (status t = PENDING \/ status t = SCHEDULED).

#[export] Instance in_replan_window_dec {T} user today (t : StudyTask T) :
  Decision (in_replan_window user today t).
Proof. unfold in_replan_window. destruct (scheduled_start t); apply _. Defined.

(** ** Mastery overview ([api/routes/mastery.py]) *)

(** The dictionary [get_mastery_overview] returns. *)
Record MasteryOverview (T : Type) := {
  total_topics : Z;
  average_mastery : T;
  mastered_count : Z;
  proficient_count : Z;
  learning_count : Z;
  needs_review : Z;
  total_practice_sessions : Z
}.
Arguments total_topics {T} _.
Arguments average_mastery {T} _.
Arguments mastered_count {T} _.
Arguments proficient_count {T} _.
Arguments learning_count {T} _.
Arguments needs_review {T} _.
Arguments total_practice_sessions {T} _.

(** [sum(1 for r in records if cond(r))] *)
Definition count_if {A} (cond : A -> bool) (records : list A) : Z :=
  foldr (fun r n => (if cond r then 1 else 0) + n) 0 records.

(** The body of the route, for the mastery records of [user].  A score
    is compared with an integer bound as with the bound converted to a
    float (the bounds 50, 70 and 90 are exactly representable);
    [sum(...)] of the scores starts from the integer 0. *)
Definition get_mastery_overview {T} `{PyFloat T} (d : Database T) (user : string)
    : Result (MasteryOverview T) :=
  let records := filter (fun r => mr_user_id r = user) (mastery_records d) in
  match records with
  | [] =>
      Ok {| total_topics := 0; average_mastery := fdec 0 10; mastered_count := 0;
            proficient_count := 0; learning_count := 0; needs_review := 0;
            total_practice_sessions := 0 |}
  | _ =>
      let mastered := count_if (fun r => fleb (of_int 90) (mastery_score r)) records in
      let proficient :=
        count_if (fun r => fleb (of_int 70) (mastery_score r)
                           && fltb (mastery_score r) (of_int 90)) records in
      let learning :=
        count_if (fun r => fleb (of_int 50) (mastery_score r)
                           && fltb (mastery_score r) (of_int 70)) records in
      let needs := count_if (fun r => fltb (mastery_score r) (of_int 50)) records in
      average ← fdiv (foldl fadd (of_int 0) (mastery_score <$> records))
                  (of_int (Z.of_nat (length records)));
      Ok {| total_topics := Z.of_nat (length records);
            average_mastery := average;
            mastered_count := mastered;
            proficient_count := proficient;
            learning_count := learning;
            needs_review := needs;
            total_practice_sessions := foldl Z.add 0 (practice_count <$> records) |}
  end.

(** * Properties *)

(** ** Exact arithmetic: the comparisons and the division *)

Lemma Qltb_true x y : Exact.Qltb x y = true <-> (x < y)%Q.
Proof.
  unfold Exact.Qltb. rewrite negb_true_iff. split.
  - intros E. apply Qnot_le_lt. intros Hle. apply Qle_bool_iff in Hle. congruence.
  - intros Hlt. destruct (Qle_bool y x) eqn:E; [|reflexivity].
    apply Qle_bool_iff in E. exfalso. apply (Qlt_not_le _ _ Hlt E).
Qed.

Lemma Qltb_false x y : Exact.Qltb x y = false <-> (y <= x)%Q.
Proof. unfold Exact.Qltb. rewrite negb_false_iff. apply Qle_bool_iff. Qed.

Lemma q_div_ok x y : ~ (y == 0)%Q -> Exact.q_div x y = Ok (x / y)%Q.
Proof.
  intros Hy. unfold Exact.q_div. destruct (Qeq_bool y 0) eqn:E; [|reflexivity].
  apply Qeq_bool_iff in E. contradiction.
Qed.

(** ** Binary64: the comparisons *)

Lemma SFltb_SFleb x y : SFltb x y = true -> SFleb x y = true.
Proof. unfold SFltb, SFleb. destruct (SFcompare x y) as [[]|]; congruence. Qed.

Lemma b64_py_max_lower (a x : spec_float) :
  SFleb a a = true -> SFleb a (@py_max _ B64.binary64 a x) = true.
Proof.
  intros Ha. unfold py_max. cbn [fltb B64.binary64].
  destruct (SFltb a x) eqn:E; [apply SFltb_SFleb, E | exact Ha].
Qed.

(** ** Dates *)

Lemma date_add_days_ok d n x : date_add_days d n = Ok x -> x = d + n.
Proof.
  unfold date_add_days. destruct (_ && _); [intros [= <-]; reflexivity|discriminate].
Qed.

Lemma date_add_days_raises d n e : date_add_days d n = Raise e -> e = OverflowError.
Proof.
  unfold date_add_days. destruct (_ && _); [discriminate|intros [= <-]; reflexivity].
Qed.

Lemma date_add_days_in_range d n :
  Z.abs n <= TIMEDELTA_MAX_DAYS -> DATE_MIN <= d + n <= DATE_MAX ->
  date_add_days d n = Ok (d + n).
Proof.
  intros Hn [Hlo Hhi]. unfold date_add_days.
  apply Z.leb_le in Hn, Hlo, Hhi. rewrite Hn, Hlo, Hhi. reflexivity.
Qed.

(** The two ways a call on an existing record ends once the schedule is
    computed. *)
Ltac update_outcome :=
  match goal with
  | |- context [match date_add_days ?d ?n with Ok _ => _ | Raise _ => _ end] =>
      let E := fresh "Edate" in
      let x := fresh "next" in
      let e := fresh "e" in
      destruct (date_add_days d n) as [x|e] eqn:E;
      [apply date_add_days_ok in E as ?; subst x
      |apply date_add_days_raises in E as ?; subst e]
  end.

Section ExactEngine.
Variable qsqrt : Q -> Result Q.
Abbreviation QF := (Exact.QFloat qsqrt).

Lemma q_py_max (a x : Q) : (@py_max Q QF a x == Qmax a x)%Q.
Proof.
  unfold py_max. cbn [fltb Exact.QFloat].
  destruct (Exact.Qltb a x) eqn:E.
  - apply Qltb_true in E. symmetry. apply Q.max_r. apply Qlt_le_weak, E.
  - apply Qltb_false in E. symmetry. apply Q.max_l. exact E.
Qed.

Lemma ewma_exact (alpha q m : Q) :
  (@ewma Q QF alpha q m == alpha * q + (1 - alpha) * m)%Q.
Proof. unfold ewma. simpl. reflexivity. Qed.

Lemma ewma_between (alpha q m : Q) :
  (0 <= alpha <= 1)%Q -> @between Q QF m q (@ewma Q QF alpha q m) = true.
Proof.
  intros [Ha0 Ha1]. unfold between. cbn [fleb Exact.QFloat].
  apply orb_true_iff. rewrite !andb_true_iff, !Qle_bool_iff, !ewma_exact.
  destruct (Qlt_le_dec q m) as [Hlt|Hle]; [right | left]; split; nra.
Qed.

(** On an existing record the update computes its schedule without
    raising.  It then returns, having stored and committed the row it
    returns, whose mastery is the EWMA of the old one; or the new
    review date is no date, and it raises with the row pending and
    nothing committed. *)
Lemma update_exact_cases s today now user topic q n alpha i m :
  find_mastery user topic (mastery_records (working s)) = Some (i, m) ->
  (exists r,
     @update_mastery_ewma Q QF s today now user topic q n alpha
     = (db_commit (set_working
                     (with_mastery_records (<[i := r]> (mastery_records (working s)))
                        (working s)) s),
        Ok r)
     /\ mr_user_id r = mr_user_id m
     /\ mr_topic_id r = mr_topic_id m
     /\ mastery_score r = @ewma Q QF alpha q (mastery_score m)
     /\ (confidence_interval r
         == Qmax 5 (confidence_interval m * (9 # 10)))%Q
     /\ next_review_date r = Some (today + review_interval_days r))
  \/ (exists m',
        @update_mastery_ewma Q QF s today now user topic q n alpha
        = (set_working
             (with_mastery_records (<[i := m']> (mastery_records (working s)))
                (working s)) s,
           Raise OverflowError)
        /\ date_add_days today (review_interval_days m') = Raise OverflowError).
Proof.
  intros Hf. unfold update_mastery_ewma. rewrite Hf.
  destruct (fleb (of_int 70) (ewma alpha q (mastery_score m))) eqn:E.
  - cbn [mbind result_bind fdiv to_int Exact.QFloat of_int].
    rewrite q_div_ok by (intros A; discriminate A).
    cbn [mbind result_bind Exact.q_to_int]. unfold calculate_next_review.
    repeat match goal with
           | |- context [if ?b then _ else _] => destruct b
           end;
      cbn [mbind result_bind to_int Exact.QFloat Exact.q_to_int];
      (update_outcome;
       [left; eexists; (split; [reflexivity|repeat split; apply q_py_max])
       |right; eexists; split; [reflexivity|exact Edate]]).
  - update_outcome;
      [left; eexists; (split; [reflexivity|repeat split; apply q_py_max])
      |right; eexists; split; [reflexivity|exact Edate]].
Qed.

End ExactEngine.

(** A row found by [find_mastery] is at its position in the table. *)
Lemma find_mastery_lookup {T} user topic (l : list (MasteryRecord T)) i m :
  find_mastery user topic l = Some (i, m) -> l !! i = Some m.
Proof. unfold find_mastery. intros Hf. apply list_find_Some in Hf as (Hl & _). exact Hl. Qed.

(** What a call on an existing record leaves in any arithmetic: the
    row of the record rewritten in place, committed when the call
    returns and pending when it raises. *)
Lemma update_rows {T} `{PyFloat T} (s : Session T) today now user topic q n alpha i m s' res :
  find_mastery user topic (mastery_records (working s)) = Some (i, m) ->
  update_mastery_ewma s today now user topic q n alpha = (s', res) ->
  exists m',
    mastery_records (working s') = <[i := m']> (mastery_records (working s))
    /\ mastery_records (working s') !! i = Some m'
    /\ practice_count m' = practice_count m
    /\ match res with
       | Ok r =>
           r = m' /\ committed s' = working s'
           /\ mastery_score r = ewma alpha q (mastery_score m)
           /\ quiz_count r = quiz_count m + 1
           /\ next_review_date r = Some (today + review_interval_days r)
       | Raise _ =>
           committed s' = committed s
           /\ mastery_score m' = mastery_score m
           /\ quiz_count m' = quiz_count m
       end.
Proof.
  intros Hf Hu. pose proof (find_mastery_lookup _ _ _ _ _ Hf) as Hl.
  apply lookup_lt_Some in Hl.
  unfold update_mastery_ewma in Hu. rewrite Hf in Hu. revert Hu.
  match goal with
  | |- context [match ?sch with Ok _ => _ | Raise _ => _ end] => destruct sch as [[iv ef]|e]
  end; [update_outcome|]; intros [= <- <-];
    (eexists; split; [reflexivity|]; split; [apply list_lookup_insert_eq, Hl|]);
    cbn; repeat split; reflexivity.
Qed.

(** C6, as the code has it.  On an existing record, for a quiz score
    in [[0, 100]] and an [alpha] in [[0, 1]], and without rounding:
    [update_mastery_ewma] returns a record whose mastery is
    [alpha*q + (1-alpha)*m], a value in the closed interval between [m]
    and [q]; the one way it does not return is that today plus the new
    review interval is no date, and then it raises [OverflowError] with
    nothing committed.  In any arithmetic a call that returns has
    computed that same expression, and in double precision the call
    with [old=60], [quiz_score=90], [alpha=0.3] returns exactly
    [69.0]. *)
Theorem ewma_update_convex :
  (forall qsqrt s today now user topic (q : Q) n (alpha : Q) i m,
     find_mastery user topic (mastery_records (working s)) = Some (i, m) ->
     (0 <= q <= 100)%Q ->
     (0 <= alpha <= 1)%Q ->
     (exists s' r,
        @update_mastery_ewma Q (Exact.QFloat qsqrt) s today now user topic q n alpha
        = (s', Ok r)
        /\ (mastery_score r == alpha * q + (1 - alpha) * mastery_score m)%Q
        /\ @between Q (Exact.QFloat qsqrt) (mastery_score m) q (mastery_score r) = true)
     \/ (exists s' m',
           @update_mastery_ewma Q (Exact.QFloat qsqrt) s today now user topic q n alpha
           = (s', Raise OverflowError)
           /\ committed s' = committed s
           /\ mastery_records (working s') !! i = Some m'
           /\ date_add_days today (review_interval_days m') = Raise OverflowError))
  /\ (forall T (H : PyFloat T) (s : Session T) today now user topic q n alpha i m s' r,
        find_mastery user topic (mastery_records (working s)) = Some (i, m) ->
        update_mastery_ewma s today now user topic q n alpha = (s', Ok r) ->
        mastery_score r
        = fadd (fmul alpha q) (fmul (fsub (of_int 1) alpha) (mastery_score m)))
  /\ (exists s' r,
        update_mastery_ewma (Sample.session_with (Sample.f64 60)) 0 0 "u1" "t1"
          (Sample.f64 90) 10 (fdec 3 10) = (s', Ok r)
        /\ mastery_score r = Sample.f64 69).
Proof.
  split; [|split].
  - intros qsqrt s today now user topic q n alpha i m Hf Hq Ha.
    destruct (update_exact_cases qsqrt s today now user topic q n alpha i m Hf)
      as [(r & Hu & _ & _ & Hm & _)|(m' & Hu & Hd)].
    + left. eexists _, r. split; [exact Hu|]. rewrite Hm. split.
      * apply ewma_exact.
      * apply ewma_between, Ha.
    + right. eexists _, m'. split; [exact Hu|]. split; [reflexivity|].
      split; [|exact Hd]. cbn. apply list_lookup_insert_eq.
      eapply lookup_lt_Some, find_mastery_lookup, Hf.
  - intros T H s today now user topic q n alpha i m s' r Hf Hu.
    destruct (update_rows s today now user topic q n alpha i m s' (Ok r) Hf Hu)
      as (m' & _ & _ & _ & _ & _ & Hm & _).
    exact Hm.
  - eexists _, _. split; [vm_compute; reflexivity | vm_compute; reflexivity].
Qed.

Lemma ewma_update_convex_witness :
  exists s' r,
    @update_mastery_ewma Q Sample.QS
      (@Sample.session_with Q Sample.QS 60%Q) 0 0 "u1" "t1" 90%Q 10 (3 # 10)%Q = (s', Ok r)
    /\ (mastery_score r == (3 # 10) * 90 + (1 - (3 # 10)) * 60)%Q
    /\ @between Q Sample.QS 60%Q 90%Q (mastery_score r) = true.
Proof.
  destruct (proj1 ewma_update_convex Sample.small_sqrt
              (@Sample.session_with Q Sample.QS 60%Q)
              0 0 "u1" "t1" 90%Q 10 (3 # 10)%Q 0%nat (@Sample.record_with Q Sample.QS 60%Q))
    as [Hok|(s' & m' & Hu & _)].
  - reflexivity.
  - split; unfold Qle; simpl; lia.
  - split; unfold Qle; simpl; lia.
  - exact Hok.
  - exfalso.
    assert (Hret : match (@update_mastery_ewma Q (Exact.QFloat Sample.small_sqrt)
                            (@Sample.session_with Q Sample.QS 60%Q)
                            0 0 "u1" "t1" 90%Q 10 (3 # 10)%Q).2 with
                   | Ok _ => true
                   | Raise _ => false
                   end = true) by (vm_compute; reflexivity).
    rewrite Hu in Hret. discriminate Hret.
Defined.

(** C6 as stated fails in double precision: with [old = quiz_score = 3]
    and [alpha = 0.3] the products round to [0.8999999999999999] and
    [2.0999999999999996], and their sum [2.9999999999999996] is below
    both ends of the interval [[3, 3]]. *)
Lemma ewma_update_rounding :
  exists s' r,
    update_mastery_ewma (Sample.session_with (Sample.f64 3)) 0 0 "u1" "t1"
      (Sample.f64 3) 10 (fdec 3 10) = (s', Ok r)
    /\ SFltb (mastery_score r) (Sample.f64 3) = true
    /\ between (Sample.f64 3) (Sample.f64 3) (mastery_score r) = false.
Proof.
  eexists _, _. split; [vm_compute; reflexivity|]. split; vm_compute; reflexivity.
Qed.

(** ** Counters *)

(** C10.  On an existing record [update_mastery_ewma] rewrites the row
    in place with [practice_count] as it was; a call that returns has
    added exactly one to [quiz_count] (a call that raises leaves it as
    it was).  [initialize_mastery] is the one place that sets
    [practice_count], to 1, with [quiz_count] at 0.  In exact
    arithmetic the update of an existing record returns unless today
    plus the new review interval is no date; then it raises
    [OverflowError] and commits nothing. *)
Theorem update_keeps_practice_count :
  (forall T (H : PyFloat T) (s : Session T) today now user topic q n alpha i m s' res,
     find_mastery user topic (mastery_records (working s)) = Some (i, m) ->
     update_mastery_ewma s today now user topic q n alpha = (s', res) ->
     exists m',
       mastery_records (working s') = <[i := m']> (mastery_records (working s))
       /\ practice_count m' = practice_count m
       /\ match res with
          | Ok r => r = m' /\ quiz_count r = quiz_count m + 1
          | Raise _ => quiz_count m' = quiz_count m
          end)
  /\ (forall T (H : PyFloat T) (s : Session T) today now user topic score n s' r,
        initialize_mastery s today now user topic score n = (s', Ok r) ->
        practice_count r = 1 /\ quiz_count r = 0)
  /\ (forall qsqrt (s : Session Q) today now user topic q n alpha i m,
        find_mastery user topic (mastery_records (working s)) = Some (i, m) ->
        (exists s' r,
           @update_mastery_ewma Q (Exact.QFloat qsqrt) s today now user topic q n alpha
           = (s', Ok r)
           /\ next_review_date r = Some (today + review_interval_days r))
        \/ (exists s' m',
              @update_mastery_ewma Q (Exact.QFloat qsqrt) s today now user topic q n alpha
              = (s', Raise OverflowError)
              /\ committed s' = committed s
              /\ mastery_records (working s') !! i = Some m'
              /\ date_add_days today (review_interval_days m') = Raise OverflowError)).
Proof.
  split; [|split].
  - intros T H s today now user topic q n alpha i m s' res Hf Hu.
    destruct (update_rows s today now user topic q n alpha i m s' res Hf Hu)
      as (m' & Hrows & _ & Hp & Hres).
    exists m'. split; [exact Hrows|]. split; [exact Hp|].
    destruct res as [r|e].
    + destruct Hres as (Hr & _ & _ & Hq & _). split; assumption.
    + destruct Hres as (_ & _ & Hq). exact Hq.
  - intros T H s today now user topic score n s' r Hi.
    unfold initialize_mastery in Hi.
    destruct (calculate_confidence_interval n); [|inversion Hi].
    destruct (date_add_days today 1); inversion Hi; subst. split; reflexivity.
  - intros qsqrt s today now user topic q n alpha i m Hf.
    destruct (update_exact_cases qsqrt s today now user topic q n alpha i m Hf)
      as [(r & Hu & _ & _ & _ & _ & Hd)|(m' & Hu & Hd)].
    + left. eexists _, r. split; [exact Hu|exact Hd].
    + right. eexists _, m'. split; [exact Hu|]. split; [reflexivity|].
      split; [|exact Hd]. cbn. apply list_lookup_insert_eq.
      eapply lookup_lt_Some, find_mastery_lookup, Hf.
Qed.

Lemma update_keeps_practice_count_witness :
  exists m',
    mastery_records (working (update_mastery_ewma (Sample.session_with (Sample.f64 60))
                                0 0 "u1" "t1" (Sample.f64 90) 10 (fdec 3 10)).1)
    = <[0%nat := m']> [Sample.record_with (Sample.f64 60)]
    /\ practice_count m' = 1
    /\ quiz_count m' = 1.
Proof.
  destruct (proj1 update_keeps_practice_count spec_float B64.binary64
              (Sample.session_with (Sample.f64 60)) 0 0 "u1" "t1"
              (Sample.f64 90) 10 (fdec 3 10) 0%nat (Sample.record_with (Sample.f64 60))
              (update_mastery_ewma (Sample.session_with (Sample.f64 60))
                 0 0 "u1" "t1" (Sample.f64 90) 10 (fdec 3 10)).1
              (update_mastery_ewma (Sample.session_with (Sample.f64 60))
                 0 0 "u1" "t1" (Sample.f64 90) 10 (fdec 3 10)).2
              eq_refl (surjective_pairing _))
    as (m' & Hrows & Hp & Hq).
  exists m'. split; [exact Hrows|]. split; [exact Hp|].
  vm_compute in Hq. destruct Hq as [<- _]. reflexivity.
Defined.

(** ** Spaced repetition (SM-2) *)

Lemma q_trunc_floor (x : Q) : (0 <= x)%Q -> Exact.q_to_int x = Ok (Qfloor x).
Proof.
  intros Hx. unfold Exact.q_to_int, Qfloor. destruct x as [a b].
  unfold Qle in Hx. simpl in *. f_equal. apply Z.quot_div_nonneg; lia.
Qed.

(** Whatever it returns, the factor is the floored one. *)
Lemma next_review_factor {T} `{PyFloat T} (ef : T) current_interval quality n ef' :
  calculate_next_review ef current_interval quality = Ok (n, ef') ->
  ef' = py_max (fdec 13 10)
          (fadd ef
             (fsub (fdec 1 10)
                (fmul (of_int (5 - quality))
                   (fadd (fdec 8 100) (fmul (of_int (5 - quality)) (fdec 2 100)))))).
Proof.
  unfold calculate_next_review.
  destruct (quality <? 3); [intros [= _ <-]; reflexivity|].
  destruct (current_interval =? 0); [intros [= _ <-]; reflexivity|].
  destruct (current_interval =? 1); [intros [= _ <-]; reflexivity|].
  cbn [mbind result_bind].
  match goal with |- context [to_int ?x] => destruct (to_int x) end;
    [intros [= _ <-]; reflexivity|discriminate].
Qed.

(** The sign of what the interval is truncated from. *)

Lemma b64_to_int_floor x : not_negative x -> B64.b64_to_int x = b64_floor x.
Proof.
  destruct x as [s|s| |s m e]; cbn; try reflexivity.
  destruct s; [contradiction|]. intros _.
  destruct e as [|p|p]; f_equal.
  - rewrite Z.shiftl_mul_pow2 by lia. reflexivity.
  - rewrite Z.shiftl_mul_pow2 by lia. reflexivity.
  - rewrite Z.shiftr_div_pow2 by lia. reflexivity.
Qed.

Lemma binary_round_aux_not_negative m e l :
  not_negative (binary_round_aux B64.prec B64.emax false m e l).
Proof.
  unfold binary_round_aux.
  destruct (shr_fexp _ _ m e l) as [mrs' e'].
  destruct (shr_fexp _ _ _ e' loc_Exact) as [mrs'' e''].
  destruct (shr_m mrs''); cbn; [trivial| |trivial].
  destruct (e'' <=? B64.emax - B64.prec); cbn; trivial.
Qed.

Lemma b64_of_Z_not_negative n : 0 <= n -> not_negative (B64.b64_of_Z n).
Proof.
  intros Hn. unfold B64.b64_of_Z, binary_normalize.
  destruct n as [|p|p]; [cbn; trivial| |lia].
  unfold binary_round. destruct (shl_align _ _ _) as [mz ez].
  apply binary_round_aux_not_negative.
Qed.

Lemma SFleb_not_negative a x :
  not_negative a -> SFleb a x = true -> not_negative x.
Proof.
  unfold SFleb, SFcompare.
  destruct a as [sa|sa| |sa ma ea], x as [s|s| |s m e]; cbn; try trivial; try discriminate;
    destruct sa, s; cbn; try trivial; try discriminate; try contradiction.
Qed.

Lemma b64_mul_not_negative x y :
  not_negative x -> not_negative y -> not_negative (SFmul B64.prec B64.emax x y).
Proof.
  destruct x as [sx|sx| |sx mx ex], y as [sy|sy| |sy my ey]; cbn [SFmul not_negative];
    try trivial; try (destruct sx; try contradiction; destruct sy; try contradiction; cbn; trivial).
  all: intros _ _; apply binary_round_aux_not_negative.
Qed.

(** C7.  In exact arithmetic [calculate_next_review] returns
    [ef' = max(1.3, ef + 0.1 - (5-quality)*(0.08 + (5-quality)*0.02))],
    never below 1.3, and the interval 1 when [quality < 3], else 1 for a
    current interval of 0, 6 for a current interval of 1 and
    [floor(current_interval * ef')] otherwise (the current interval is a
    number of days, not negative).  In double precision the call with
    [ef = 2.5], interval 6 and quality 4 returns [(15, 2.5)], the
    returned factor is at least 1.3 on every input, and the intervals
    are the same four cases, the last one the floor of the double
    [current_interval * ef'].  In any arithmetic, double precision
    included, the factor returned is the code's expression
    [max(1.3, ef + (0.1 - (5-quality)*(0.08 + (5-quality)*0.02)))]
    with each operation of that arithmetic; in double precision
    [ef = 2.5], interval 6 and quality 3 give [(14, 2.36)]. *)
Theorem sm2_next_review :
  (forall qsqrt (ef : Q) (current_interval quality : Z),
     0 <= current_interval ->
     exists n ef',
       @calculate_next_review Q (Exact.QFloat qsqrt) ef current_interval quality
       = Ok (n, ef')
       /\ (ef' == Qmax (13 # 10)
                    (ef + (1 # 10)
                     - inject_Z (5 - quality)
                       * ((8 # 100) + inject_Z (5 - quality) * (2 # 100))))%Q
       /\ (13 # 10 <= ef')%Q
       /\ n = (if quality <? 3 then 1
               else if current_interval =? 0 then 1
               else if current_interval =? 1 then 6
               else Qfloor (inject_Z current_interval * ef')))
  /\ calculate_next_review (fdec 25 10) 6 4 = Ok (15, (fdec 25 10 : spec_float))
  /\ (forall (ef : spec_float) current_interval quality n ef',
        calculate_next_review ef current_interval quality = Ok (n, ef') ->
        SFleb (fdec 13 10) ef' = true)
  /\ (forall (ef : spec_float) current_interval quality n ef',
        0 <= current_interval ->
        calculate_next_review ef current_interval quality = Ok (n, ef') ->
        if quality <? 3 then n = 1
        else if current_interval =? 0 then n = 1
        else if current_interval =? 1 then n = 6
        else b64_floor (fmul (of_int current_interval) ef') = Ok n)
  /\ (forall T (H : PyFloat T) (ef : T) current_interval quality n ef',
        calculate_next_review ef current_interval quality = Ok (n, ef') ->
        ef' = py_max (fdec 13 10)
                (fadd ef
                   (fsub (fdec 1 10)
                      (fmul (of_int (5 - quality))
                         (fadd (fdec 8 100) (fmul (of_int (5 - quality)) (fdec 2 100)))))))
  /\ calculate_next_review (fdec 25 10) 6 3 = Ok (14, (fdec 236 100 : spec_float)).
Proof.
  split; [|split; [|split; [|split; [|split]]]];
    [| | | |intros T H ef ci quality n ef'; apply next_review_factor
     |vm_compute; reflexivity].
  - intros qsqrt ef ci quality Hci.
    unfold calculate_next_review.
    cbn [fadd fsub fmul of_int fdec Exact.QFloat].
    set (raw := (ef + ((1 # 10) - inject_Z (5 - quality)
                   * ((8 # 100) + inject_Z (5 - quality) * (2 # 100))))%Q).
    assert (Hmax : (@py_max Q (Exact.QFloat qsqrt) (13 # 10) raw
                    == Qmax (13 # 10)
                         (ef + (1 # 10)
                          - inject_Z (5 - quality)
                            * ((8 # 100) + inject_Z (5 - quality) * (2 # 100))))%Q).
    { rewrite q_py_max. apply Q.max_compat; [reflexivity|]. unfold raw. ring. }
    assert (Hlow : (13 # 10 <= @py_max Q (Exact.QFloat qsqrt) (13 # 10) raw)%Q).
    { rewrite q_py_max. apply Q.le_max_l. }
    set (ef' := @py_max Q (Exact.QFloat qsqrt) (13 # 10) raw) in *.
    destruct (quality <? 3); [eexists _, _; repeat split; eauto|].
    destruct (ci =? 0); [eexists _, _; repeat split; eauto|].
    destruct (ci =? 1); [eexists _, _; repeat split; eauto|].
    cbn [mbind result_bind to_int Exact.QFloat].
    rewrite q_trunc_floor.
    + eexists _, _; repeat split; eauto.
    + apply Qmult_le_0_compat.
      * unfold Qle; simpl; lia.
      * apply Qle_trans with (13 # 10)%Q; [unfold Qle; simpl; lia|exact Hlow].
  - vm_compute. reflexivity.
  - intros ef ci quality n ef' Hc.
    rewrite (next_review_factor ef ci quality n ef' Hc).
    apply b64_py_max_lower. vm_compute. reflexivity.
  - intros ef ci quality n ef' Hci Hc.
    pose proof (next_review_factor ef ci quality n ef' Hc) as Hfac.
    assert (Hlow : SFleb (fdec 13 10) ef' = true).
    { rewrite Hfac. apply b64_py_max_lower. vm_compute. reflexivity. }
    unfold calculate_next_review in Hc. cbv zeta in Hc. rewrite <- Hfac in Hc.
    revert Hc.
    destruct (quality <? 3); [intros Hc; inversion Hc; reflexivity|].
    destruct (ci =? 0); [intros Hc; inversion Hc; reflexivity|].
    destruct (ci =? 1); [intros Hc; inversion Hc; reflexivity|].
    intros Hc. cbn [mbind result_bind] in Hc.
    destruct (to_int (fmul (of_int ci) ef')) as [n'|e] eqn:Hi;
      cbn [mbind result_bind] in Hc; [|discriminate Hc].
    assert (n' = n) by (inversion Hc; reflexivity). subst n'.
    rewrite <- Hi. symmetry. apply b64_to_int_floor.
    apply b64_mul_not_negative.
    + apply b64_of_Z_not_negative, Hci.
    + apply (SFleb_not_negative (fdec 13 10)); [vm_compute; trivial|exact Hlow].
Qed.

Lemma sm2_next_review_witness :
  exists n ef',
    @calculate_next_review Q Sample.QS (5 # 2)%Q 6 4 = Ok (n, ef')
    /\ (ef' == 5 # 2)%Q /\ n = 15.
Proof.
  destruct (proj1 sm2_next_review Sample.small_sqrt (5 # 2)%Q 6 4 ltac:(lia))
    as (n & ef' & Hc & He & _ & Hn).
  exists n, ef'. split; [exact Hc|].
  vm_compute in Hc. inversion Hc; subst. split; reflexivity.
Defined.

(** ** Confidence interval *)

Section ConfidenceExact.
Variable qsqrt : Q -> Result Q.
Abbreviation QE := (Exact.QFloat qsqrt).

(** Calls on a record that exists and sits at 5 or above. *)
Lemma update_calls_existing calls : forall (d : Database Q) user topic i m,
  find_mastery user topic (mastery_records d) = Some (i, m) ->
  (5 <= confidence_interval m)%Q ->
  let rs := @update_calls Q QE d user topic calls in
  Sorted ci_shrinks rs
  /\ Forall (fun r => (5 <= confidence_interval r <= confidence_interval m)%Q) rs.
Proof.
  induction calls as [|[[[[today now] q] n] alpha] rest IH]; intros d user topic i m Hf Hm.
  - cbn. repeat split; constructor.
  - cbn [update_calls].
    destruct (update_exact_cases qsqrt {| committed := d; working := d |}
                today now user topic q n alpha i m Hf)
      as [(r & Hu & Hru & Hrt & _ & Hci & _)|(m' & Hu & _)]; rewrite Hu.
    + cbn [db_commit set_working committed working].
      assert (Hr5 : (5 <= confidence_interval r)%Q) by (rewrite Hci; apply Q.le_max_l).
      assert (Hrm : (confidence_interval r <= confidence_interval m)%Q).
      { rewrite Hci. apply Q.max_lub; [exact Hm|]. nra. }
      assert (Hf' : find_mastery user topic
                      (mastery_records (with_mastery_records (<[i := r]> (mastery_records d)) d))
                    = Some (i, r)).
      { cbn. unfold find_mastery in *. apply list_find_Some in Hf as (Hl & [Hu1 Ht1] & Hleast).
        apply list_find_Some. split; [|split].
        - apply list_lookup_insert_eq. eapply lookup_lt_Some, Hl.
        - split; congruence.
        - intros j y Hj Hlt. rewrite list_lookup_insert_ne in Hj by lia. eauto. }
      destruct (IH _ user topic i r Hf' Hr5) as (Hs & Hall).
      split.
      * constructor; [exact Hs|].
        destruct (update_calls _ user topic rest) as [|r1 rs1]; constructor.
        apply Forall_cons in Hall as [[_ H1] _]. exact H1.
      * constructor; [split; [exact Hr5|exact Hrm]|].
        eapply Forall_impl; [exact Hall|]. cbn. intros x [Hx1 Hx2]. split; [exact Hx1|].
        eapply Qle_trans; eauto.
    + cbn [set_working committed]. apply (IH d user topic i m Hf Hm).
Qed.

(** Calls from a database that has no record for the pair yet: the
    first call that returns is the [initialize_mastery] one. *)
Lemma update_calls_fresh calls : forall (d : Database Q) user topic,
  find_mastery user topic (mastery_records d) = None ->
  let rs := @update_calls Q QE d user topic calls in
  Sorted ci_shrinks rs /\ Forall (fun r => (5 <= confidence_interval r)%Q) rs.
Proof.
  induction calls as [|[[[[today now] q] n] alpha] rest IH]; intros d user topic Hf.
  - cbn. split; constructor.
  - cbn [update_calls]. unfold update_mastery_ewma. cbn [working]. rewrite Hf.
    unfold initialize_mastery.
    destruct (calculate_confidence_interval n) as [c|e] eqn:Hc;
      [destruct (date_add_days today 1) as [next|e] eqn:Hd|].
    + cbn [db_commit set_working committed working].
      set (r0 := {| mr_user_id := user; mr_topic_id := topic; mastery_score := q;
                    confidence_interval := c |}).
      assert (Hc5 : (5 <= c)%Q).
      { unfold calculate_confidence_interval in Hc.
        destruct (fsqrt (of_int n)) as [x|]; [|discriminate Hc]. cbn in Hc.
        destruct (Exact.q_div (inject_Z 20) x) as [y|]; [|discriminate Hc].
        cbn in Hc. inversion Hc; subst. rewrite q_py_max. apply Q.le_max_l. }
      assert (Hf' : find_mastery user topic
                      (mastery_records
                         (with_mastery_records (mastery_records d ++ [r0]) d))
                    = Some (length (mastery_records d), r0)).
      { cbn. unfold find_mastery in *. rewrite list_find_app_r by exact Hf.
        cbn. rewrite decide_True by (split; reflexivity). reflexivity. }
      destruct (update_calls_existing rest _ user topic _ r0 Hf' Hc5) as (Hs & Hall).
      split.
      * constructor; [exact Hs|].
        destruct (update_calls _ user topic rest) as [|r1 rs1]; constructor.
        apply Forall_cons in Hall as [[_ H1] _]. exact H1.
      * constructor; [exact Hc5|].
        eapply Forall_impl; [exact Hall|]. cbn. intros x [Hx1 _]. exact Hx1.
    + cbn [committed]. apply IH. exact Hf.
    + cbn [committed]. apply IH. exact Hf.
Qed.

End ConfidenceExact.

(** In double precision every record a call returns has a confidence
    interval of at least 5.0. *)
Lemma b64_update_floor (s : Session spec_float) today now user topic q n alpha s' r :
  update_mastery_ewma s today now user topic q n alpha = (s', Ok r) ->
  SFleb (of_int 5) (confidence_interval r) = true.
Proof.
  assert (Hpm : forall x, SFleb (of_int 5) (@py_max _ B64.binary64 (of_int 5) x) = true).
  { intros x. apply b64_py_max_lower. vm_compute. reflexivity. }
  unfold update_mastery_ewma.
  destruct (find_mastery user topic (mastery_records (working s))) as [[i m]|].
  - match goal with
    | |- context [match ?sch with Ok _ => _ | Raise _ => _ end] =>
        destruct sch as [[iv ef]|e]
    end; [update_outcome|]; intros Hu; inversion Hu; subst. apply Hpm.
  - unfold initialize_mastery, calculate_confidence_interval.
    destruct (fsqrt (of_int n)) as [x|]; [|intros Hu; inversion Hu]. cbn [mbind result_bind].
    destruct (fdiv (of_int 20) x) as [y|]; cbn [mbind result_bind];
      [|intros Hu; inversion Hu].
    destruct (date_add_days today 1); intros Hu; inversion Hu; subst. apply Hpm.
Qed.

(** ** Binary64: a product with a factor below one *)

Lemma digits2_log2 p : Zpos (digits2_pos p) = Z.log2 (Zpos p) + 1.
Proof.
  induction p as [p IH|p IH|]; cbn [digits2_pos]; [| |reflexivity].
  - rewrite Pos2Z.inj_succ, IH. destruct p; cbn; lia.
  - rewrite Pos2Z.inj_succ, IH. destruct p; cbn; lia.
Qed.

Lemma digits2_bounds p : 2 ^ (Zpos (digits2_pos p) - 1) <= Zpos p < 2 ^ Zpos (digits2_pos p).
Proof.
  rewrite digits2_log2. replace (Z.log2 (Zpos p) + 1 - 1) with (Z.log2 (Zpos p)) by lia.
  replace (Z.log2 (Zpos p) + 1) with (Z.succ (Z.log2 (Zpos p))) by lia.
  apply Z.log2_spec. lia.
Qed.

Lemma digits2_unique p d :
  2 ^ (d - 1) <= Zpos p < 2 ^ d -> Zpos (digits2_pos p) = d.
Proof.
  intros [Hlo Hhi]. rewrite digits2_log2.
  assert (0 < d).
  { destruct (Z_lt_le_dec 0 d) as [|Hd]; [assumption|].
    assert (2 ^ d <= 1) by (destruct d; [cbn; lia| lia | rewrite Z.pow_neg_r; lia]). lia. }
  assert (Z.log2 (Zpos p) = d - 1); [|lia].
  apply Z.log2_unique; [lia|]. replace (Z.succ (d - 1)) with d by lia. lia.
Qed.

Lemma shr_1_m mrs : 0 <= shr_m mrs -> shr_m (shr_1 mrs) = shr_m mrs / 2.
Proof.
  destruct mrs as [m r s]. cbn [shr_m]. intros Hm.
  destruct m as [|p|p]; [reflexivity| |lia].
  destruct p as [p|p|]; cbn [shr_1 shr_m].
  - apply Z.div_unique with 1; lia.
  - apply Z.div_unique with 0; lia.
  - reflexivity.
Qed.

Lemma pow2_xO p : 2 ^ Zpos p~0 = 2 ^ Zpos p * 2 ^ Zpos p.
Proof.
  replace (Zpos p~0) with (Zpos p + Zpos p) by lia.
  apply Z.pow_add_r; lia.
Qed.

Lemma pow2_xI p : 2 ^ Zpos p~1 = 2 * (2 ^ Zpos p * 2 ^ Zpos p).
Proof.
  replace (Zpos p~1) with (1 + (Zpos p + Zpos p)) by lia.
  rewrite Z.pow_add_r by lia. rewrite Z.pow_add_r by lia. reflexivity.
Qed.

Lemma iter_shr_1_m p : forall mrs,
  0 <= shr_m mrs -> shr_m (SpecFloat.iter_pos shr_1 p mrs) = shr_m mrs / 2 ^ Zpos p.
Proof.
  induction p as [p IH|p IH|]; intros mrs Hm; cbn [SpecFloat.iter_pos].
  - assert (H1 : 0 <= shr_m (shr_1 mrs)) by (rewrite shr_1_m by exact Hm; apply Z.div_pos; lia).
    assert (H2 : 0 <= shr_m (SpecFloat.iter_pos shr_1 p (shr_1 mrs)))
      by (rewrite IH by exact H1; apply Z.div_pos; lia).
    rewrite IH by exact H2. rewrite IH by exact H1. rewrite shr_1_m by exact Hm.
    rewrite !Z.div_div by lia. rewrite pow2_xI. reflexivity.
  - assert (H2 : 0 <= shr_m (SpecFloat.iter_pos shr_1 p mrs))
      by (rewrite IH by exact Hm; apply Z.div_pos; lia).
    rewrite IH by exact H2. rewrite IH by exact Hm.
    rewrite Z.div_div by lia. rewrite pow2_xO. reflexivity.
  - rewrite shr_1_m by exact Hm. rewrite Z.pow_1_r. reflexivity.
Qed.

Lemma round_nearest_even_bounds m l :
  m <= round_nearest_even m l <= m + 1.
Proof.
  unfold round_nearest_even. destruct l as [|[| |]]; try lia.
  destruct (Z.even m); lia.
Qed.

(** A double in [[2^52, 2^53) * 2^ex], times a double in [[1/2, 1)]. *)
Lemma b64_mul_below_one (mx mc : positive) (ex : Z) :
  2 ^ 52 <= Zpos mx < 2 ^ 53 ->
  2 ^ 52 <= Zpos mc < 2 ^ 53 ->
  -1000 <= ex <= 971 ->
  exists m' e',
    SFmul B64.prec B64.emax (S754_finite false mx ex) (S754_finite false mc (-53))
    = S754_finite false m' e'
    /\ 2 ^ 52 <= Zpos m' < 2 ^ 53
    /\ ex - 1 <= e' <= ex
    /\ (e' = ex -> Zpos m' <= Zpos mx).
Proof.
  intros Hmx Hmc Hex.
  cbn [SFmul xorb]. unfold binary_round_aux.
  set (P := (mx * mc)%positive).
  assert (HP : 2 ^ 104 <= Zpos P < 2 ^ 106 /\ Zpos P < Zpos mx * 2 ^ 53).
  { unfold P. rewrite Pos2Z.inj_mul. change (2 ^ 104) with (2 ^ 52 * 2 ^ 52).
    change (2 ^ 106) with (2 ^ 53 * 2 ^ 53). nia. }
  destruct HP as [HP HPx].
  unfold shr_fexp at 1. cbn [Zdigits2 shr_record_of_loc].
  destruct (Z_lt_le_dec (Zpos P) (2 ^ 105)) as [Hlt|Hge].
  - (* 105 digits: shift by 52 *)
    rewrite (digits2_unique P 105) by (change (105 - 1) with 104; lia).
    unfold fexp, emin, B64.prec, B64.emax.
    replace (Z.max (105 + (ex + -53) - 53) (3 - 1024 - 53) - (ex + -53)) with 52 by lia.
    cbn [shr].
    set (mrs := SpecFloat.iter_pos shr_1 52 {| shr_m := Zpos P; shr_r := false; shr_s := false |}).
    assert (Hm1 : shr_m mrs = Zpos P / 2 ^ 52)
      by (unfold mrs; rewrite iter_shr_1_m; [reflexivity|cbn; lia]).
    assert (Hm1b : 2 ^ 52 <= shr_m mrs < 2 ^ 53).
    { rewrite Hm1. split.
      - apply Z.div_le_lower_bound; [lia|]. change (2 ^ 52 * 2 ^ 52) with (2 ^ 104). lia.
      - apply Z.div_lt_upper_bound; [lia|]. change (2 ^ 52 * 2 ^ 53) with (2 ^ 105). lia. }
    pose proof (round_nearest_even_bounds (shr_m mrs) (loc_of_shr_record mrs)) as Hr.
    set (m2 := round_nearest_even (shr_m mrs) (loc_of_shr_record mrs)) in *.
    destruct m2 as [|p2|p2] eqn:E2; [lia| |lia].
    unfold shr_fexp. cbn [Zdigits2 shr_record_of_loc].
    destruct (Z_lt_le_dec (Zpos p2) (2 ^ 53)) as [Hn|Hc].
    + rewrite (digits2_unique p2 53) by (change (53 - 1) with 52; lia).
      unfold fexp, emin.
      replace (Z.max (53 + (ex + -53 + 52) - 53) (3 - 1024 - 53) - (ex + -53 + 52)) with 0 by lia.
      cbn [shr shr_m].
      replace (ex + -53 + 52 <=? 1024 - 53) with true by (symmetry; apply Z.leb_le; lia).
      exists p2, (ex + -53 + 52). split; [reflexivity|]. repeat split; lia.
    + assert (Hp2 : Zpos p2 = 2 ^ 53) by lia.
      rewrite (digits2_unique p2 54) by (change (54 - 1) with 53; change (2 ^ 54) with (2 * 2 ^ 53); lia).
      unfold fexp, emin.
      replace (Z.max (54 + (ex + -53 + 52) - 53) (3 - 1024 - 53) - (ex + -53 + 52)) with 1 by lia.
      cbn [shr SpecFloat.iter_pos].
      assert (Hs : shr_m (shr_1 {| shr_m := Zpos p2; shr_r := false; shr_s := false |}) = 2 ^ 52).
      { rewrite shr_1_m by (cbn; lia). cbn [shr_m]. rewrite Hp2. reflexivity. }
      destruct (shr_m (shr_1 _)) as [|p3|p3] eqn:E3; try (exfalso; cbn in Hs; lia).
      replace (ex + -53 + 52 + 1 <=? 1024 - 53) with true by (symmetry; apply Z.leb_le; lia).
      exists p3, (ex + -53 + 52 + 1). split; [reflexivity|]. rewrite Hs.
      repeat split; try lia.
  - (* 106 digits: shift by 53 *)
    rewrite (digits2_unique P 106) by (change (106 - 1) with 105; lia).
    unfold fexp, emin, B64.prec, B64.emax.
    replace (Z.max (106 + (ex + -53) - 53) (3 - 1024 - 53) - (ex + -53)) with 53 by lia.
    cbn [shr].
    set (mrs := SpecFloat.iter_pos shr_1 53 {| shr_m := Zpos P; shr_r := false; shr_s := false |}).
    assert (Hm1 : shr_m mrs = Zpos P / 2 ^ 53)
      by (unfold mrs; rewrite iter_shr_1_m; [reflexivity|cbn; lia]).
    assert (Hm1b : 2 ^ 52 <= shr_m mrs < Zpos mx).
    { rewrite Hm1. split.
      - apply Z.div_le_lower_bound; [lia|]. change (2 ^ 53 * 2 ^ 52) with (2 ^ 105). lia.
      - apply Z.div_lt_upper_bound; [lia|]. lia. }
    pose proof (round_nearest_even_bounds (shr_m mrs) (loc_of_shr_record mrs)) as Hr.
    set (m2 := round_nearest_even (shr_m mrs) (loc_of_shr_record mrs)) in *.
    destruct m2 as [|p2|p2] eqn:E2; [lia| |lia].
    unfold shr_fexp. cbn [Zdigits2 shr_record_of_loc].
    rewrite (digits2_unique p2 53) by (change (53 - 1) with 52; lia).
    unfold fexp, emin.
    replace (Z.max (53 + (ex + -53 + 53) - 53) (3 - 1024 - 53) - (ex + -53 + 53)) with 0 by lia.
    cbn [shr shr_m].
    replace (ex + -53 + 53 <=? 1024 - 53) with true by (symmetry; apply Z.leb_le; lia).
    exists p2, (ex + -53 + 53). split; [reflexivity|]. repeat split; lia.
Qed.


Lemma ci_value_cases x :
  ci_value x ->
  x = S754_infinity false
  \/ exists m e, x = S754_finite false m e
                 /\ 2 ^ 52 <= Zpos m < 2 ^ 53 /\ -50 <= e <= 971.
Proof.
  intros [Hv H5]. destruct x as [s|s| |s m e]; try discriminate H5.
  - destruct s; [discriminate H5|]. left. reflexivity.
  - right. destruct s; [discriminate H5|]. exists m, e. split; [reflexivity|].
    unfold b64_valid, valid_binary, bounded, canonical_mantissa in Hv.
    apply andb_true_iff in Hv as [Hc Hb].
    apply Z.eqb_eq in Hc. apply Z.leb_le in Hb.
    unfold fexp, emin, B64.prec, B64.emax in *.
    assert (He : -50 <= e).
    { change (B64.b64_of_Z 5) with (S754_finite false 5629499534213120 (-50)) in H5.
      unfold SFleb, SFcompare in H5. revert H5.
      destruct (Z.compare_spec (-50) e) as [E|E|E]; intros H5; [lia|lia|discriminate H5]. }
    pose proof (digits2_bounds m) as Hd.
    assert (Hdig : Zpos (digits2_pos m) = 53) by lia.
    rewrite Hdig in Hd. change (53 - 1) with 52 in Hd. lia.
Qed.

Lemma b64_shrink_step x :
  ci_value x ->
  let z := @py_max _ B64.binary64 (of_int 5) (fmul x (fdec 9 10)) in
  ci_value z /\ SFleb z x = true.
Proof.
  intros Hx z.
  assert (H5 : ci_value (B64.b64_of_Z 5)) by (split; vm_compute; reflexivity).
  assert (Hz : z = of_int 5 \/ (z = fmul x (fdec 9 10) /\ SFltb (of_int 5) z = true)).
  { unfold z, py_max. cbn [fltb B64.binary64].
    destruct (SFltb (of_int 5) (fmul x (fdec 9 10))) eqn:E; [right|left]; auto. }
  destruct Hz as [->|[Hz Hlt]].
  - split; [exact H5|]. apply Hx.
  - destruct (ci_value_cases x Hx) as [->|(m & e & -> & Hm & He)].
    + rewrite Hz. vm_compute. repeat split; reflexivity.
    + destruct (b64_mul_below_one m 8106479329266893 e Hm) as (m' & e' & Hmul & Hm' & He' & Hle);
        [vm_compute; split; [discriminate|reflexivity] | lia |].
      assert (Hzv : z = S754_finite false m' e') by (rewrite Hz; exact Hmul).
      rewrite Hzv in *. split; [split|].
      * unfold b64_valid, valid_binary, bounded, canonical_mantissa.
        rewrite (digits2_unique m' 53) by (change (53 - 1) with 52; lia).
        unfold fexp, emin, B64.prec, B64.emax.
        apply andb_true_iff. split; [apply Z.eqb_eq|apply Z.leb_le]; lia.
      * apply SFltb_SFleb, Hlt.
      * unfold SFleb, SFcompare.
        destruct (Z.compare_spec e' e) as [E|E|E]; [|reflexivity|lia].
        change (Pos.compare_cont Eq m' m) with (Pos.compare m' m).
        specialize (Hle E).
        destruct (Pos.compare_spec m' m) as [E'|E'|E']; try reflexivity. lia.
Qed.

(** What a call on an existing record does, in any arithmetic: it
    returns the row it stored and committed, with the confidence
    interval shrunk, or it raises with nothing committed. *)
Lemma update_existing {T} `{PyFloat T} (s : Session T) today now user topic q n alpha i m :
  find_mastery user topic (mastery_records (working s)) = Some (i, m) ->
  (exists r,
     update_mastery_ewma s today now user topic q n alpha
     = (db_commit (set_working
                     (with_mastery_records (<[i := r]> (mastery_records (working s)))
                        (working s)) s),
        Ok r)
     /\ mr_user_id r = mr_user_id m
     /\ mr_topic_id r = mr_topic_id m
     /\ confidence_interval r
        = py_max (of_int 5) (fmul (confidence_interval m) (fdec 9 10)))
  \/ (exists s' e,
        update_mastery_ewma s today now user topic q n alpha = (s', Raise e)
        /\ committed s' = committed s).
Proof.
  intros Hf. unfold update_mastery_ewma. rewrite Hf.
  match goal with
  | |- context [match ?sch with Ok _ => _ | Raise _ => _ end] =>
      destruct sch as [[iv ef]|e]
  end; [update_outcome|].
  - left. eexists. split; [reflexivity|]. repeat split.
  - right. eexists _, _. split; reflexivity.
  - right. eexists _, e. split; reflexivity.
Qed.

Lemma find_mastery_insert {T} user topic (l : list (MasteryRecord T)) i m r :
  find_mastery user topic l = Some (i, m) ->
  mr_user_id r = mr_user_id m -> mr_topic_id r = mr_topic_id m ->
  find_mastery user topic (<[i := r]> l) = Some (i, r).
Proof.
  unfold find_mastery. intros Hf Hu Ht.
  apply list_find_Some in Hf as (Hl & [Hu1 Ht1] & Hleast).
  apply list_find_Some. split; [|split].
  - apply list_lookup_insert_eq. eapply lookup_lt_Some, Hl.
  - split; congruence.
  - intros j y Hj Hlt. rewrite list_lookup_insert_ne in Hj by lia. eauto.
Qed.

(** Calls in double precision on a record that exists with a
    well-formed confidence interval of 5.0 or more. *)
Lemma update_calls_existing64 calls : forall (d : Database spec_float) user topic i m,
  find_mastery user topic (mastery_records d) = Some (i, m) ->
  ci_value (confidence_interval m) ->
  let rs := update_calls d user topic calls in
  Sorted ci_shrinks64 rs /\ HdRel ci_shrinks64 m rs
  /\ Forall (fun r => ci_value (confidence_interval r)) rs.
Proof.
  induction calls as [|[[[[today now] q] n] alpha] rest IH]; intros d user topic i m Hf Hm.
  - cbn. repeat split; constructor.
  - cbn [update_calls].
    destruct (update_existing {| committed := d; working := d |}
                today now user topic q n alpha i m Hf)
      as [(r & Hu & Hru & Hrt & Hci)|(s' & e & Hu & Hc)]; rewrite Hu.
    + cbn [db_commit set_working committed working].
      destruct (b64_shrink_step (confidence_interval m) Hm) as [Hv Hle].
      cbn zeta in Hv, Hle. rewrite <- Hci in Hv, Hle.
      destruct (IH (with_mastery_records (<[i := r]> (mastery_records d)) d)
                  user topic i r) as (Hs & Hh & Hall).
      { cbn. apply (find_mastery_insert user topic _ i m r Hf Hru Hrt). }
      { exact Hv. }
      split; [constructor; assumption|]. split; [constructor; exact Hle|].
      constructor; assumption.
    + rewrite Hc. cbn [committed]. apply (IH d user topic i m Hf Hm).
Qed.

(** Calls in double precision from a database that has no record for
    the pair yet, with question counts from 1 to 1000. *)
Lemma update_calls_fresh64 calls : forall (d : Database spec_float) user topic,
  find_mastery user topic (mastery_records d) = None ->
  Forall (fun c => 1 <= c.1.2 <= 1000) calls ->
  Sorted ci_shrinks64 (update_calls d user topic calls).
Proof.
  induction calls as [|[[[[today now] q] n] alpha] rest IH]; intros d user topic Hf Hn;
    [constructor|].
  apply Forall_cons in Hn as [Hn Hrest]. cbn in Hn.
  assert (Hinit : initial_ci_ok n = true).
  { assert (Hall : forallb initial_ci_ok (seqZ 1 1000) = true) by (vm_compute; reflexivity).
    rewrite forallb_forall in Hall. apply Hall, list_elem_of_In, elem_of_seqZ. lia. }
  cbn [update_calls]. unfold update_mastery_ewma. cbn [working]. rewrite Hf.
  unfold initialize_mastery. unfold initial_ci_ok in Hinit.
  destruct (calculate_confidence_interval n) as [c|e]; [|discriminate Hinit].
  apply andb_true_iff in Hinit.
  destruct (date_add_days today 1) as [next|e].
  - cbn [db_commit set_working committed working].
    set (r0 := {| mr_user_id := user; mr_topic_id := topic; mastery_score := q;
                  confidence_interval := c |}).
    destruct (update_calls_existing64 rest
                (with_mastery_records (mastery_records d ++ [r0]) d) user topic
                (length (mastery_records d)) r0) as (Hs & Hh & _).
    + cbn. unfold find_mastery in *. rewrite list_find_app_r by exact Hf.
      cbn. rewrite decide_True by (split; reflexivity). reflexivity.
    + exact Hinit.
    + constructor; assumption.
  - cbn [committed]. apply IH; assumption.
Qed.

(** C8.  Over any sequence of [update_mastery_ewma] calls for a pair
    that has no record yet (the first call that returns creates it
    through [initialize_mastery]), the confidence intervals of the
    records returned are, in exact arithmetic, non-increasing from one
    call to the next and never below 5.  In double precision every
    record returned has a confidence interval of at least 5.0; from a
    record whose interval is a well-formed double of 5.0 or more the
    intervals are non-increasing and stay such doubles; and so they are
    from the creation of the record on, for question counts from 1 to
    1000. *)
Theorem confidence_interval_shrinks :
  (forall qsqrt (d : Database Q) user topic calls,
     find_mastery user topic (mastery_records d) = None ->
     let rs := @update_calls Q (Exact.QFloat qsqrt) d user topic calls in
     Sorted ci_shrinks rs /\ Forall (fun r => (5 <= confidence_interval r)%Q) rs)
  /\ (forall (d : Database spec_float) user topic calls,
        Forall (fun r => SFleb (of_int 5) (confidence_interval r) = true)
          (update_calls d user topic calls))
  /\ (forall (d : Database spec_float) user topic calls i m,
        find_mastery user topic (mastery_records d) = Some (i, m) ->
        ci_value (confidence_interval m) ->
        let rs := update_calls d user topic calls in
        Sorted ci_shrinks64 rs /\ HdRel ci_shrinks64 m rs
        /\ Forall (fun r => ci_value (confidence_interval r)) rs)
  /\ (forall (d : Database spec_float) user topic calls,
        find_mastery user topic (mastery_records d) = None ->
        Forall (fun c => 1 <= c.1.2 <= 1000) calls ->
        Sorted ci_shrinks64 (update_calls d user topic calls)).
Proof.
  split; [|split; [|split]].
  - intros qsqrt d user topic calls Hf. apply update_calls_fresh, Hf.
  - intros d user topic calls. revert d.
    induction calls as [|[[[[today now] q] n] alpha] rest IH]; intros d; cbn [update_calls].
    + constructor.
    + destruct (update_mastery_ewma _ today now user topic q n alpha) as [s' [r|e]] eqn:Hu.
      * constructor; [eapply b64_update_floor, Hu|apply IH].
      * apply IH.
  - intros d user topic calls i m Hf Hm. apply (update_calls_existing64 calls d user topic i m Hf Hm).
  - intros d user topic calls Hf Hn. apply update_calls_fresh64; assumption.
Qed.

Lemma confidence_interval_shrinks_witness :
  let rs := @update_calls Q Sample.QS (@Sample.empty_db Q Sample.QS) "u1" "t1"
              [(0, 0, 80%Q, 1, (3 # 10)%Q);
               (1, 86400000000, 90%Q, 10, (3 # 10)%Q);
               (2, 172800000000, 70%Q, 10, (3 # 10)%Q)] in
  length rs = 3%nat
  /\ Sorted ci_shrinks rs
  /\ Forall (fun r => (5 <= confidence_interval r)%Q) rs.
Proof.
  split; [vm_compute; reflexivity|].
  apply (proj1 confidence_interval_shrinks Sample.small_sqrt
           (@Sample.empty_db Q Sample.QS) "u1" "t1").
  reflexivity.
Defined.

(** ** Priority *)

Lemma inject_Z_pos z : 0 < z -> (0 < inject_Z z)%Q.
Proof. intros Hz. unfold Qlt. simpl. lia. Qed.

Lemma q_div_pos x y : (0 < y)%Q -> Exact.q_div x y = Ok (x / y)%Q.
Proof. intros Hy. apply q_div_ok. intros A. rewrite A in Hy. apply (Qlt_irrefl _ Hy). Qed.



Lemma priority_formula_product w m ci d s :
  (priority_formula w m ci d s
   == priority_product (w / 100) (1 - m / 100) (/ inject_Z (Z.max 1 d))
        (/ (1 + ci / 100)) (1 + inject_Z s))%Q.
Proof.
  unfold priority_formula, priority_product.
  unfold Qdiv. rewrite !Qmult_1_l. rewrite Qinv_involutive. reflexivity.
Qed.






Section PriorityExact.
Variable qsqrt : Q -> Result Q.
Abbreviation QP := (Exact.QFloat qsqrt).

(** Within the domain no division is by zero, and the value returned is
    the one of the formula. *)
Lemma priority_exact today w m ci exam lp :
  (0 <= ci)%Q -> 0 <= days_since today lp ->
  exists p, @calculate_priority Q QP today w m ci exam lp = Ok p
    /\ (p == priority_formula w m ci (exam - today) (days_since today lp))%Q.
Proof.
  intros Hci Hds. unfold calculate_priority.
  cbn [mbind result_bind fdiv fadd fsub fmul of_int Exact.QFloat].
  assert (HD : (0 < inject_Z (Z.max 1 (exam - today)))%Q) by (apply inject_Z_pos; lia).
  assert (HS : (0 <= inject_Z (days_since today lp))%Q) by (unfold Qle; simpl; lia).
  rewrite (q_div_pos w) by reflexivity. cbn [mbind result_bind].
  rewrite (q_div_pos m) by reflexivity. cbn [mbind result_bind].
  rewrite (q_div_pos (inject_Z 1) (inject_Z (Z.max 1 (exam - today)))) by exact HD.
  cbn [mbind result_bind].
  rewrite (q_div_pos ci) by reflexivity. cbn [mbind result_bind].
  assert (HC : (0 < inject_Z 1 + ci / inject_Z 100)%Q).
  { change (inject_Z 1) with 1%Q. change (inject_Z 100) with 100%Q.
    assert (0 <= ci / 100)%Q by (apply Qle_shift_div_l; lra). lra. }
  rewrite (q_div_pos (inject_Z 1) (inject_Z 1 + ci / inject_Z 100)) by exact HC.
  cbn [mbind result_bind].
  assert (HR : (0 < inject_Z 1 + inject_Z (days_since today lp))%Q).
  { change (inject_Z 1) with 1%Q. lra. }
  rewrite (q_div_pos (inject_Z 1) (inject_Z 1 + inject_Z _)) by exact HR.
  cbn [mbind result_bind].
  rewrite q_div_pos.
  - eexists. split; [reflexivity|]. unfold priority_formula. reflexivity.
  - unfold Qdiv. rewrite Qmult_1_l. apply Qinv_lt_0_compat, HR.
Qed.

End PriorityExact.

(** The factors of the product are not negative within the domain. *)
Lemma priority_factors w m ci d s :
  (0 <= w)%Q -> (m <= 100)%Q -> (0 <= ci)%Q -> 0 <= s ->
  (0 <= w / 100)%Q /\ (0 <= 1 - m / 100)%Q
  /\ (0 < / inject_Z (Z.max 1 d))%Q /\ (0 < / (1 + ci / 100))%Q
  /\ (0 < 1 + inject_Z s)%Q.
Proof.
  intros Hw Hm Hci Hs.
  assert (0 <= ci / 100)%Q by (apply Qle_shift_div_l; lra).
  assert (0 <= inject_Z s)%Q by (unfold Qle; simpl; lia).
  split; [apply Qle_shift_div_l; lra|].
  split; [assert (m / 100 <= 1)%Q by (apply Qle_shift_div_r; lra); lra|].
  split; [apply Qinv_lt_0_compat, inject_Z_pos; lia|].
  split; [apply Qinv_lt_0_compat; lra|lra].
Qed.

Ltac priority_value qsqrt H :=
  match type of H with
  | @calculate_priority _ _ ?today ?w ?m ?ci ?exam ?lp = Ok ?p =>
      let q := fresh "q" in
      let Hq := fresh "Hq" in
      let Eq := fresh "Eq" in
      destruct (priority_exact qsqrt today w m ci exam lp) as (q & Hq & Eq);
      [assumption|assumption|];
      rewrite Hq in H; inversion H; subst q; clear H Hq;
      rewrite priority_formula_product in Eq
  end.






(** ** Prioritized topics and the practice tasks made from them *)

Lemma insert_asc_fmap {A} (key : A -> Z) (g : A -> A) x l :
  (forall a, key (g a) = key a) ->
  insert_asc key (g x) (g <$> l) = g <$> insert_asc key x l.
Proof.
  intros Hk. induction l as [|y l IH]; cbn; [reflexivity|].
  rewrite !Hk. destruct (key y <? key x); cbn; [rewrite IH|]; reflexivity.
Qed.

Lemma sort_asc_fmap {A} (key : A -> Z) (g : A -> A) l :
  (forall a, key (g a) = key a) ->
  sort_asc key (g <$> l) = g <$> sort_asc key l.
Proof.
  intros Hk. induction l as [|x l IH]; cbn; [reflexivity|].
  rewrite IH. apply insert_asc_fmap, Hk.
Qed.

Lemma mapM_ext {A B} (f g : A -> Result B) l :
  (forall a, f a = g a) -> mapM f l = mapM g l.
Proof.
  intros Hfg. induction l as [|x l IH]; cbn; [reflexivity|]. rewrite Hfg, IH. reflexivity.
Qed.

(** The upcoming assessments of a topic are the same rows whatever the
    completion flags are. *)
Lemma upcoming_assessments_reflag {T} (flag : Assessment T -> bool) now topic l :
  upcoming_assessments_of now topic ((fun a => mark_completed (flag a) a) <$> l)
  = (fun a => mark_completed (flag a) a) <$> upcoming_assessments_of now topic l.
Proof.
  unfold upcoming_assessments_of.
  rewrite <- sort_asc_fmap by reflexivity. f_equal.
  induction l as [|a l IH]; [reflexivity|].
  rewrite fmap_cons, !filter_cons. cbn [mark_completed a_topics due_date].
  destruct (decide (topic ∈ a_topics a /\ now <= due_date a)); rewrite IH; reflexivity.
Qed.

(** [get_prioritized_topics] never reads [is_completed]: rewriting the
    flags of the assessments leaves its result as it is. *)
Lemma prioritized_topics_reflag {T} `{PyFloat T} (flag : Assessment T -> bool)
    (d : Database T) today now user horizon_days :
  get_prioritized_topics (reflag flag d) today now user horizon_days
  = get_prioritized_topics d today now user horizon_days.
Proof.
  unfold get_prioritized_topics. cbn [reflag mastery_records].
  rewrite (mapM_ext (prioritize_record (reflag flag d) today now)
             (prioritize_record d today now)); [reflexivity|].
  intros record. unfold prioritize_record. cbn [reflag topics assessments].
  destruct (list_find _ (topics d)) as [[i topic]|]; [|reflexivity].
  rewrite upcoming_assessments_reflag.
  destruct (upcoming_assessments_of now (mr_topic_id record) (assessments d)) as [|a l];
    reflexivity.
Qed.

(** C5 at an input where the code and the claim part: the one
    assessment covering the topic is due in ten days and already
    completed.  [get_prioritized_topics] returns the topic, prioritized
    against the completed assessment; on every database its result is
    the same whatever the [is_completed] flags are. *)
Theorem prioritized_topics_ignore_completion :
  (is_completed (Sample.assessment_due true) = true
   /\ assessments (Sample.course_db true []) = [Sample.assessment_due true]
   /\ get_prioritized_topics (Sample.course_db true []) 0 0 "u1" 7
      = Ok [Sample.prioritized_t1])
  /\ (forall T (H : PyFloat T) (flag : Assessment T -> bool) (d : Database T)
             today now user horizon_days,
        get_prioritized_topics (reflag flag d) today now user horizon_days
        = get_prioritized_topics d today now user horizon_days).
Proof.
  split.
  - split; [reflexivity|]. split; [reflexivity|]. vm_compute. reflexivity.
  - intros. apply prioritized_topics_reflag.
Qed.

(** The loop body of [create_study_tasks_from_topics] makes no task,
    whatever dictionary it is given: [TaskType] has no member
    [PRACTICE]. *)
Lemma create_study_task_never {T} `{PyFloat T} (d : Database T) user course topic_data task :
  create_study_task d user course topic_data <> Ok (Some task).
Proof.
  unfold create_study_task.
  destruct (getitem topic_data "topic_id") as [tid|]; [|discriminate].
  cbn [mbind result_bind].
  destruct (list_find _ (topics d)) as [[i topic]|]; [|discriminate].
  destruct (getitem topic_data "mastery_score") as [v|]; [|discriminate].
  cbn [mbind result_bind].
  destruct (as_float v) as [mastery|]; [|discriminate].
  cbn [mbind result_bind].
  destruct (if fltb mastery (of_int 40) then (EASY, 30)
            else if fltb mastery (of_int 70) then (MEDIUM, 45) else (HARD, 60)) as [diff dur].
  discriminate.
Qed.

(** C3 at an input where the code and the claim part: one prioritized
    topic of the course.  The engine's dictionary has the keys
    [mastery] and [priority], the generator reads [mastery_score] and
    [priority_score], and the call raises [KeyError]; with the keys it
    expects it raises [AttributeError] at [TaskType.PRACTICE].  On no
    input does the loop body return a task. *)
Theorem practice_tasks_raise :
  create_study_tasks_from_topics (Sample.course_db false []) 0 0 "u1" "c1"
  = Raise (KeyError "mastery_score")
  /\ create_study_task (Sample.course_db false []) "u1" "c1" Sample.expected_topic_data
     = Raise (AttributeError "PRACTICE")
  /\ (forall T (H : PyFloat T) (d : Database T) user course topic_data task,
        create_study_task d user course topic_data <> Ok (Some task)).
Proof.
  split; [vm_compute; reflexivity|].
  split; [vm_compute; reflexivity|].
  intros T H d user course topic_data task. apply create_study_task_never.
Qed.

(** ** Availability planner *)

Lemma is_busy_false busy s e :
  is_busy busy s e = false ->
  forall b, b ∈ busy -> ~ overlaps b (s, e).
Proof.
  unfold is_busy, overlaps. intros Hb b Hin [H1 H2]. cbn in *.
  assert (existsb (fun b => (start_time b <? e) && (s <? end_time b)) busy = true) as Ht.
  { apply existsb_exists. exists b. split; [apply list_elem_of_In, Hin|].
    apply andb_true_iff. split; apply Z.ltb_lt; lia. }
  congruence.
Qed.

Lemma planned_weaken busy cur cur' hi hi' acc :
  cur <= cur' -> hi <= hi' -> planned busy cur hi acc -> planned busy cur' hi' acc.
Proof.
  intros Hc Hh [Hs Ha]. split; [exact Hs|].
  eapply Forall_impl; [exact Ha|]. cbn. intros blk (H1 & H2 & H3 & H4).
  repeat split; try assumption; lia.
Qed.

(** One day: with a block length that is positive and a break that is
    not negative, a fuel of one per minute left in the day is enough,
    and the blocks stay free and in order. *)
Lemma tile_day_planned busy L B day_end hi : 
  MINUTE <= L -> 0 <= B -> day_end <= hi ->
  forall fuel cur acc,
    day_end - cur < Z.of_nat fuel * MINUTE ->
    planned busy cur hi acc ->
    exists acc', tile_day fuel busy L B day_end cur acc = Some acc'
                 /\ planned busy hi hi acc'.
Proof.
  intros HL HB Hhi. unfold MINUTE in *.
  induction fuel as [|fuel IH]; intros cur acc Hfuel Hp.
  - cbn. destruct (cur + L <=? day_end) eqn:E; [apply Z.leb_le in E; lia|].
    exists acc. split; [reflexivity|].
    destruct Hp as [Hs Ha]. split; [exact Hs|].
    eapply Forall_impl; [exact Ha|]. cbn. intros blk (H1 & H2 & H3 & H4).
    repeat split; try assumption.
  - cbn [tile_day]. destruct (cur + L <=? day_end) eqn:E.
    + apply Z.leb_le in E. apply IH; [lia|].
      destruct (is_busy busy cur (cur + L)) eqn:Eb.
      * eapply planned_weaken; [| |exact Hp]; lia.
      * destruct Hp as [Hs Ha]. split.
        -- apply StronglySorted_app. split; [|split; [exact Hs|]].
           ++ intros x1 x2 Hx1 Hx2. apply list_elem_of_singleton in Hx2. subst x2.
              rewrite Forall_forall in Ha. destruct (Ha x1 Hx1) as (_ & H2 & H3 & _).
              cbn. lia.
           ++ repeat constructor.
        -- apply Forall_app. split.
           ++ eapply Forall_impl; [exact Ha|]. cbn. intros blk (H1 & H2 & H3 & H4).
              repeat split; try assumption; lia.
           ++ constructor; [|constructor]. cbn.
              split; [apply is_busy_false, Eb|]. lia.
    + exists acc. split; [reflexivity|].
      destruct Hp as [Hs Ha]. split; [exact Hs|].
      eapply Forall_impl; [exact Ha|]. cbn. intros blk (H1 & H2 & H3 & H4).
      repeat split; try assumption.
Qed.

Lemma tile_days_planned {T} (prefs : UserPreferences T) busy fuel :
  0 < preferred_block_length_min prefs -> 0 <= break_length_min prefs ->
  0 <= earliest_start_time prefs < DAY -> 0 <= latest_end_time prefs < DAY ->
  (1440 <= fuel)%nat ->
  forall n current_date acc,
    planned busy (combine current_date 0) (combine current_date 0) acc ->
    exists acc', tile_days fuel prefs busy n current_date acc = Some acc'
                 /\ chronological acc'
                 /\ Forall (fun blk => forall b, b ∈ busy -> ~ overlaps b blk) acc'.
Proof.
  intros HL HB He Hl Hfuel. induction n as [|n IH]; intros cd acc Hp.
  - cbn. exists acc. destruct Hp as [Hs Ha]. split; [reflexivity|]. split; [exact Hs|].
    eapply Forall_impl; [exact Ha|]. cbn. intros blk (H1 & _). exact H1.
  - cbn [tile_days].
    assert (Hnext : combine cd 0 <= combine (cd + 1) 0) by (unfold combine, DAY; lia).
    destruct (negb _).
    + apply IH. eapply planned_weaken; [| |exact Hp]; exact Hnext.
    + destruct (tile_day_planned busy (preferred_block_length_min prefs * MINUTE)
                  (break_length_min prefs * MINUTE)
                  (combine cd (latest_end_time prefs)) (combine (cd + 1) 0))
        with (fuel := fuel) (cur := combine cd (earliest_start_time prefs)) (acc := acc)
        as (acc' & Ht & Hp').
      * unfold MINUTE. lia.
      * unfold MINUTE. lia.
      * unfold combine, DAY in *. lia.
      * unfold combine, DAY, MINUTE in *. lia.
      * eapply planned_weaken; [| |exact Hp]; unfold combine, DAY in *; lia.
      * rewrite Ht. cbn. apply IH. exact Hp'.
Qed.

(** X21.  With a block length that is positive, a break that is not
    negative and start and end times that are times of day, the planner
    returns (1440 iterations per day, one per minute, are enough), no
    block it returns overlaps a calendar block its query fetched (a
    block of the user that starts and ends within the range), and the
    list is in chronological order across the whole range. *)
Theorem available_blocks_free_and_ordered :
  forall T (H : PyFloat T) (d : Database T) user start_date end_date prefs fuel,
    user_preferences d user = Ok (Some prefs) ->
    sane_preferences prefs ->
    (1440 <= fuel)%nat ->
    exists blocks,
      get_available_time_blocks fuel d user start_date end_date = Some (Ok blocks)
      /\ (forall blk busy,
            blk ∈ blocks -> busy ∈ busy_blocks d user start_date end_date ->
            ~ overlaps busy blk)
      /\ chronological blocks.
Proof.
  intros T H d user start_date end_date prefs fuel Hu (HL & HB & He & Hl) Hfuel.
  unfold get_available_time_blocks. rewrite Hu.
  destruct (tile_days_planned prefs (busy_blocks d user start_date end_date) fuel
              HL HB He Hl Hfuel (Z.to_nat (end_date - start_date + 1)) start_date [])
    as (acc & Ht & Hs & Hfree).
  - split; constructor.
  - exists acc. rewrite Ht. split; [reflexivity|]. split; [|exact Hs].
    intros blk busy Hblk Hbusy. rewrite Forall_forall in Hfree. exact (Hfree blk Hblk busy Hbusy).
Qed.

Lemma available_blocks_free_and_ordered_witness :
  exists blocks,
    get_available_time_blocks 1440 Sample.busy_db "u1" 0 1 = Some (Ok blocks)
    /\ length blocks = 27%nat
    /\ (forall blk busy,
          blk ∈ blocks -> busy ∈ busy_blocks Sample.busy_db "u1" 0 1 -> ~ overlaps busy blk)
    /\ chronological blocks.
Proof.
  destruct (available_blocks_free_and_ordered spec_float B64.binary64
              Sample.busy_db "u1" 0 1 Sample.default_preferences 1440%nat)
    as (blocks & Hg & Hfree & Hs).
  - reflexivity.
  - unfold sane_preferences. cbn. unfold DAY, MINUTE. lia.
  - lia.
  - exists blocks. split; [exact Hg|]. split; [|split; assumption].
    vm_compute in Hg. inversion Hg. reflexivity.
Defined.

(** A calendar block outside the range is not among the fetched ones. *)
Lemma busy_blocks_outside {T} (d : Database T) user start_date end_date b :
  outside_range start_date end_date b ->
  busy_blocks (add_calendar_block b d) user start_date end_date
  = busy_blocks d user start_date end_date.
Proof.
  intros Hout. unfold busy_blocks. cbn [add_calendar_block calendar_blocks].
  rewrite filter_cons. rewrite decide_False; [reflexivity|].
  intros (_ & Hs & He). destruct Hout; lia.
Qed.

(** C4 at an input where the code and the claim part: the user has a
    calendar block from 23:00 on the day before the range to 09:00 on
    its first day.  The query fetches only the blocks that start and
    end within the range, so this one is not compared with anything,
    and the planner returns the block 08:00-08:50, which overlaps it.
    On every database a calendar block that starts before the range or
    ends after it leaves the result as it is without that block. *)
Theorem straddling_block_is_overlapped :
  (cb_user_id Sample.overnight_block = "u1"
   /\ busy_blocks Sample.overnight_db "u1" 0 0 = []
   /\ exists blocks,
        get_available_time_blocks 1440 Sample.overnight_db "u1" 0 0 = Some (Ok blocks)
        /\ (Sample.at_time 8 0, Sample.at_time 8 50) ∈ blocks
        /\ overlaps Sample.overnight_block (Sample.at_time 8 0, Sample.at_time 8 50))
  /\ (forall T (H : PyFloat T) fuel (d : Database T) user start_date end_date b,
        outside_range start_date end_date b ->
        get_available_time_blocks fuel (add_calendar_block b d) user start_date end_date
        = get_available_time_blocks fuel d user start_date end_date).
Proof.
  split.
  - split; [reflexivity|]. split; [vm_compute; reflexivity|].
    eexists. split; [vm_compute; reflexivity|]. split.
    + apply list_elem_of_here.
    + unfold overlaps. vm_compute. split; reflexivity.
  - intros T H fuel d user start_date end_date b Hout.
    unfold get_available_time_blocks. rewrite busy_blocks_outside by exact Hout.
    reflexivity.
Qed.

(** ** Greedy scheduler *)

Lemma insert_desc_perm {T} `{PyFloat T} {A} (x : T * A) l : insert_desc x l ≡ₚ x :: l.
Proof.
  induction l as [|y l IH]; cbn; [reflexivity|].
  destruct (fltb x.1 y.1); [|reflexivity].
  rewrite IH. apply Permutation_swap.
Qed.

Lemma sort_desc_perm {T} `{PyFloat T} {A} (l : list (T * A)) : sort_desc l ≡ₚ l.
Proof.
  induction l as [|x l IH]; cbn; [reflexivity|].
  rewrite insert_desc_perm, IH. reflexivity.
Qed.

Lemma sorted_tasks_perm {T} `{PyFloat T} (tasks : list (StudyTask T)) :
  snd <$> sort_desc ((fun t => (sort_key t, t)) <$> tasks) ≡ₚ tasks.
Proof.
  rewrite sort_desc_perm, <- list_fmap_compose.
  induction tasks as [|t tasks IH]; cbn; [reflexivity|]. rewrite IH. reflexivity.
Qed.

Lemma disjoint_sym a b : disjoint a b -> disjoint b a.
Proof. unfold disjoint. tauto. Qed.

Lemma remove_first_subset b l x : x ∈ remove_first b l -> x ∈ l.
Proof.
  induction l as [|y l IH]; cbn; [intros Hx; exact Hx|].
  destruct (decide (b = y)).
  - intros Hx. right. exact Hx.
  - intros Hx. apply elem_of_cons in Hx as [->|Hx]; [left|right; apply IH, Hx].
Qed.

Lemma remove_first_pairwise b l :
  pairwise_disjoint l -> b ∈ l ->
  pairwise_disjoint (remove_first b l) /\ Forall (disjoint b) (remove_first b l).
Proof.
  unfold pairwise_disjoint. induction l as [|y l IH]; intros Hs Hb.
  - inversion Hb.
  - apply StronglySorted_cons in Hs as [Hy Hs]. cbn.
    destruct (decide (b = y)) as [->|Hne].
    + split; assumption.
    + apply elem_of_cons in Hb as [->|Hb]; [congruence|].
      destruct (IH Hs Hb) as [IH1 IH2]. split.
      * apply StronglySorted_cons. split; [|exact IH1].
        rewrite Forall_forall in *. intros x Hx. apply Hy, (remove_first_subset b), Hx.
      * constructor; [|exact IH2].
        rewrite Forall_forall in Hy. apply disjoint_sym, Hy, Hb.
Qed.

Lemma find_block_spec {T} `{PyFloat T} (max_hours : T) usage dur blocks bs be :
  find_block max_hours usage dur blocks = Some (bs, be) ->
  (bs, be) ∈ blocks
  /\ dur * MINUTE <= be - bs
  /\ flt_int (fmul max_hours (of_int 60)) (default 0 (usage !! date_of bs) + dur) = false.
Proof.
  induction blocks as [|[s e] rest IH]; cbn; [discriminate|].
  destruct (e - s <? dur * MINUTE) eqn:E1.
  - intros Hf. destruct (IH Hf) as (H1 & H2 & H3). split; [right; exact H1|]. split; assumption.
  - destruct (flt_int (fmul max_hours (of_int 60))
                (default 0 (usage !! date_of s) + dur)) eqn:E2.
    + intros Hf. destruct (IH Hf) as (H1 & H2 & H3). split; [right; exact H1|]. split; assumption.
    + intros Hf. inversion Hf; subst. split; [left|]. apply Z.ltb_ge in E1. split; assumption.
Qed.

Lemma day_minutes_app {T} day (l1 l2 : list (StudyTask T)) :
  day_minutes day (l1 ++ l2) = day_minutes day l1 + day_minutes day l2.
Proof.
  unfold day_minutes. induction l1 as [|t l1 IH]; cbn; [reflexivity|]. rewrite IH. lia.
Qed.

Lemma omap_snoc {A B} (f : A -> option B) l x :
  omap f (l ++ [x]) = omap f l ++ match f x with Some y => [y] | None => [] end.
Proof.
  induction l as [|a l IH]; cbn; [destruct (f x); reflexivity|].
  rewrite IH. destruct (f a); reflexivity.
Qed.

Lemma task_interval_set_scheduled {T} bs (task : StudyTask T) :
  task_interval (set_scheduled bs task)
  = Some (bs, bs + estimated_duration_min task * MINUTE).
Proof. reflexivity. Qed.

(** One task more keeps the invariant. *)
Lemma place_task_inv {T} `{PyFloat T} (max_hours : T) n g task :
  0 < estimated_duration_min task ->
  greedy_inv max_hours n g ->
  greedy_inv max_hours (S n) (place_task max_hours g task).
Proof.
  intros Hd (Hb & Hs & Hi & Hu & Hlim & Hlen). unfold place_task.
  destruct (find_block max_hours (g_usage g) (estimated_duration_min task) (g_blocks g))
    as [[bs be]|] eqn:Hf.
  - apply find_block_spec in Hf as (Hin & Hfit & Hok).
    destruct (remove_first_pairwise (bs, be) _ Hb Hin) as [Hrp Hrd].
    set (d := estimated_duration_min task) in *.
    assert (HM : 0 < d * MINUTE) by (unfold MINUTE; lia).
    assert (Hrest : Forall (disjoint (bs, bs + d * MINUTE))
                      (remove_first (bs, be) (g_blocks g)
                       ++ (if bs + d * MINUTE <? be then [(bs + d * MINUTE, be)] else []))).
    { apply Forall_app. split.
      - eapply Forall_impl; [exact Hrd|]. unfold disjoint. cbn. intros x Hx. lia.
      - destruct (bs + d * MINUTE <? be); repeat constructor.
        unfold disjoint. cbn. lia. }
    unfold greedy_inv. cbn [g_blocks g_usage g_scheduled g_unscheduled].
    split; [|split; [|split; [|split; [|split]]]].
    + destruct (bs + d * MINUTE <? be) eqn:E; [|rewrite app_nil_r; exact Hrp].
      apply StronglySorted_app. split; [|split; [exact Hrp|repeat constructor]].
      intros x1 x2 Hx1 Hx2. apply list_elem_of_singleton in Hx2. subst x2.
      rewrite Forall_forall in Hrd. specialize (Hrd x1 Hx1).
      unfold disjoint in *. cbn in *. lia.
    + apply Forall_app. split.
      * rewrite Forall_forall in Hs. apply Forall_forall. intros t Ht.
        destruct (Hs t Ht) as (s & Hs1 & Hs2 & Hs3 & Hs4 & Hs5).
        exists s. repeat split; try assumption.
        -- destruct (decide (date_of bs = date_of s)) as [->|Hne].
           ++ rewrite lookup_insert_eq. eauto.
           ++ rewrite lookup_insert_ne by exact Hne. exact Hs4.
        -- rewrite Forall_forall in Hs5. apply Forall_app. split.
           ++ apply Forall_forall. intros x Hx. apply Hs5, (remove_first_subset (bs, be)), Hx.
           ++ destruct (bs + d * MINUTE <? be); repeat constructor.
              specialize (Hs5 _ Hin). unfold disjoint in *. cbn in *. lia.
      * constructor; [|constructor]. exists bs. cbn [set_scheduled scheduled_start
          scheduled_end estimated_duration_min].
        repeat split; try assumption; try reflexivity.
        rewrite lookup_insert_eq. eauto.
    + rewrite omap_snoc, task_interval_set_scheduled. fold d.
      apply StronglySorted_app. split; [|split; [exact Hi|repeat constructor]].
      intros x1 x2 Hx1 Hx2. apply list_elem_of_singleton in Hx2. subst x2.
      apply list_elem_of_omap in Hx1 as (t & Ht & Hti).
      rewrite Forall_forall in Hs. destruct (Hs t Ht) as (s & Hs1 & Hs2 & Hs3 & _ & Hs5).
      unfold task_interval in Hti. rewrite Hs1, Hs2 in Hti. inversion Hti; subst x1.
      rewrite Forall_forall in Hs5. specialize (Hs5 _ Hin).
      unfold disjoint in *. cbn in *. lia.
    + intros day. rewrite day_minutes_app. cbn [day_minutes foldr].
      unfold scheduled_on. cbn [set_scheduled scheduled_start estimated_duration_min].
      fold d. destruct (date_of bs =? day) eqn:E.
      * apply Z.eqb_eq in E. subst day. rewrite lookup_insert_eq. cbn.
        rewrite (Hu (date_of bs)). lia.
      * apply Z.eqb_neq in E. rewrite lookup_insert_ne by exact E.
        rewrite (Hu day). lia.
    + intros day u. destruct (decide (date_of bs = day)) as [<-|Hne].
      * rewrite lookup_insert_eq. intros Hu'. inversion Hu'; subst u. exact Hok.
      * rewrite lookup_insert_ne by exact Hne. apply Hlim.
    + rewrite length_app. cbn. lia.
  - unfold greedy_inv. cbn [g_blocks g_usage g_scheduled g_unscheduled].
    repeat split; try assumption. rewrite length_app. cbn. lia.
Qed.

Lemma greedy_fold_inv {T} `{PyFloat T} (max_hours : T) (tasks : list (StudyTask T)) :
  Forall (fun t => 0 < estimated_duration_min t) tasks ->
  forall n g,
    greedy_inv max_hours n g ->
    greedy_inv max_hours (n + length tasks) (foldl (place_task max_hours) g tasks).
Proof.
  induction 1 as [|t tasks Ht Hts IH]; intros n g Hg; cbn.
  - rewrite Nat.add_0_r. exact Hg.
  - replace (n + S (length tasks))%nat with (S n + length tasks)%nat by lia.
    apply IH, place_task_inv; assumption.
Qed.

Lemma greedy_run_inv {T} `{PyFloat T} (tasks : list (StudyTask T)) blocks (max_hours : T) :
  Forall (fun t => 0 < estimated_duration_min t) tasks ->
  pairwise_disjoint blocks ->
  greedy_inv max_hours (length tasks) (greedy_run tasks blocks max_hours).
Proof.
  intros Hpos Hb. unfold greedy_run.
  pose proof (sorted_tasks_perm tasks) as Hperm.
  set (sorted_tasks := snd <$> sort_desc ((fun t => (sort_key t, t)) <$> tasks)) in *.
  rewrite <- (Permutation_length Hperm).
  apply (greedy_fold_inv max_hours sorted_tasks) with (n := 0%nat).
  - rewrite Hperm. exact Hpos.
  - unfold greedy_inv. cbn [g_blocks g_usage g_scheduled g_unscheduled].
    split; [exact Hb|]. split; [constructor|]. split; [constructor|].
    split; [intros day; rewrite lookup_empty; reflexivity|].
    split; [|reflexivity].
    intros day u Hu. rewrite lookup_empty in Hu. discriminate.
Qed.

(** The blocks the availability planner returns do not overlap one
    another. *)
Lemma chronological_pairwise_disjoint l : chronological l -> pairwise_disjoint l.
Proof.
  unfold chronological, pairwise_disjoint.
  induction 1 as [|a l Hs IH Ha]; constructor; [exact IH|].
  eapply Forall_impl; [exact Ha|]. unfold disjoint. cbn. intros b Hb. lia.
Qed.

(** C1, as the code has it.  Every run splits the candidates:
    [len(scheduled) + len(unscheduled) == len(candidates)].  When the
    tasks have positive durations and the free blocks handed in do not
    overlap one another, every scheduled task carries the interval
    [[start, start + duration)], no two of these intervals overlap, and
    on every day the minutes scheduled are none or not above
    [max_hours_per_day * 60]. *)
Theorem greedy_schedule_invariants :
  (forall T (H : PyFloat T) (tasks : list (StudyTask T)) blocks max_hours,
     (length (schedule_tasks_greedy tasks blocks max_hours).1
      + length (schedule_tasks_greedy tasks blocks max_hours).2
      = length tasks)%nat)
  /\ (forall T (H : PyFloat T) (tasks : list (StudyTask T)) blocks max_hours,
        Forall (fun t => 0 < estimated_duration_min t) tasks ->
        pairwise_disjoint blocks ->
        let scheduled := (schedule_tasks_greedy tasks blocks max_hours).1 in
        Forall (fun t => exists s,
                  scheduled_start t = Some s
                  /\ scheduled_end t = Some (s + estimated_duration_min t * MINUTE))
          scheduled
        /\ pairwise_disjoint (omap task_interval scheduled)
        /\ (forall day,
              day_minutes day scheduled = 0
              \/ flt_int (fmul max_hours (of_int 60)) (day_minutes day scheduled) = false)).
Proof.
  split.
  - intros T H tasks blocks max_hours. unfold schedule_tasks_greedy, greedy_run. cbn [fst snd].
    pose proof (sorted_tasks_perm tasks) as Hperm.
    set (sorted_tasks := snd <$> sort_desc ((fun t => (sort_key t, t)) <$> tasks)) in *.
    rewrite <- (Permutation_length Hperm). clear Hperm.
    assert (Hgen : forall l (g : Greedy T),
               (length (g_scheduled (foldl (place_task max_hours) g l))
                + length (g_unscheduled (foldl (place_task max_hours) g l))
                = length (g_scheduled g) + length (g_unscheduled g) + length l)%nat).
    { induction l as [|t l IH]; intros g; cbn; [lia|]. rewrite IH.
      unfold place_task. destruct (find_block _ _ _ _) as [[bs be]|]; cbn;
        rewrite length_app; cbn; lia. }
    rewrite Hgen. cbn. reflexivity.
  - intros T H tasks blocks max_hours Hpos Hb.
    destruct (greedy_run_inv tasks blocks max_hours Hpos Hb)
      as (_ & Hs & Hi & Hu & Hlim & _).
    unfold schedule_tasks_greedy. cbn [fst]. split; [|split].
    + eapply Forall_impl; [exact Hs|]. cbn. intros t (s & H1 & H2 & _). eauto.
    + exact Hi.
    + intros day. specialize (Hu day). specialize (Hlim day).
      destruct (g_usage (greedy_run tasks blocks max_hours) !! day) as [u|].
      * right. cbn in Hu. rewrite <- Hu. apply Hlim. reflexivity.
      * left. cbn in Hu. symmetry. exact Hu.
Qed.

(** The scenario of the design document: one free block 08:00-10:00,
    a 90-minute task of priority 10 and a 60-minute task of priority 5,
    four hours a day. *)
Lemma greedy_schedule_invariants_witness :
  let run := schedule_tasks_greedy
               [Sample.pending_task "A" 90 10; Sample.pending_task "B" 60 5]
               [(Sample.at_time 8 0, Sample.at_time 10 0)] (Sample.f64 4) in
  omap task_interval run.1 = [(Sample.at_time 8 0, Sample.at_time 9 30)]
  /\ run.2 = [Sample.pending_task "B" 60 5]
  /\ pairwise_disjoint (omap task_interval run.1)
  /\ (forall day,
        day_minutes day run.1 = 0
        \/ flt_int (fmul (Sample.f64 4) (of_int 60)) (day_minutes day run.1) = false).
Proof.
  split; [vm_compute; reflexivity|]. split; [vm_compute; reflexivity|].
  destruct (proj2 greedy_schedule_invariants spec_float B64.binary64
           [Sample.pending_task "A" 90 10; Sample.pending_task "B" 60 5]
           [(Sample.at_time 8 0, Sample.at_time 10 0)] (Sample.f64 4)) as (_ & Hp & Hd).
  - repeat constructor.
  - repeat constructor.
  - split; [exact Hp | exact Hd].
Defined.

(** C1 as stated fails for free blocks that overlap one another: with
    the blocks 08:00-10:00 and 09:00-11:00 of one day and two tasks of
    two hours, the first task takes 08:00-10:00 and the second
    09:00-11:00. *)
Lemma greedy_schedule_overlapping_blocks :
  let run := schedule_tasks_greedy
               [Sample.pending_task "A" 120 10; Sample.pending_task "B" 120 5]
               [(Sample.at_time 8 0, Sample.at_time 10 0);
                (Sample.at_time 9 0, Sample.at_time 11 0)] (Sample.f64 4) in
  omap task_interval run.1
  = [(Sample.at_time 8 0, Sample.at_time 10 0); (Sample.at_time 9 0, Sample.at_time 11 0)]
  /\ date_of (Sample.at_time 8 0) = date_of (Sample.at_time 11 0 - 1)
  /\ ~ pairwise_disjoint (omap task_interval run.1).
Proof.
  intros run.
  assert (E : omap task_interval run.1
              = [(Sample.at_time 8 0, Sample.at_time 10 0);
                 (Sample.at_time 9 0, Sample.at_time 11 0)]) by (vm_compute; reflexivity).
  split; [exact E|]. split; [vm_compute; reflexivity|].
  rewrite E. intros Hp.
  apply StronglySorted_cons in Hp as [Hall _].
  apply Forall_cons in Hall as [Hd _]. apply Hd.
  split; vm_compute; reflexivity.
Qed.

(** ** Replanning *)

(** With sane preferences the planner returns within 1440 iterations a
    day. *)
Lemma get_available_time_blocks_returns {T} `{PyFloat T} fuel (d : Database T) user
    start_date end_date :
  (forall prefs, user_preferences d user = Ok (Some prefs) -> sane_preferences prefs) ->
  (1440 <= fuel)%nat ->
  exists r, get_available_time_blocks fuel d user start_date end_date = Some r.
Proof.
  intros Hsane Hfuel. unfold get_available_time_blocks.
  destruct (user_preferences d user) as [[prefs|]|e] eqn:Hu.
  - destruct (Hsane prefs eq_refl) as (HL & HB & He & Hl).
    destruct (tile_days_planned prefs (busy_blocks d user start_date end_date) fuel
                HL HB He Hl Hfuel (Z.to_nat (end_date - start_date + 1)) start_date [])
      as (acc & Ht & _).
    + split; constructor.
    + rewrite Ht. eexists. reflexivity.
  - destruct (start_date <=? end_date); eexists; reflexivity.
  - eexists. reflexivity.
Qed.

(** C2, as the code has it.  With sane preferences [replan_schedule]
    ends, and it commits the delete on its own, before the regeneration
    starts.  Whenever it ends, with a result or with an exception, the
    committed tasks are the ones the delete kept followed by the ones
    the regeneration scheduled, and these are none when the planning
    raised: the deleted tasks are not restored. *)
Theorem replan_commits_delete_first :
  (forall T (H : PyFloat T) fuel (s : Session T) today now utcnow user trigger_event,
     (forall prefs, user_preferences (working s) user = Ok (Some prefs) ->
                    sane_preferences prefs) ->
     (1440 <= fuel)%nat ->
     exists s' res,
       replan_schedule fuel s today now utcnow user trigger_event = Some (s', res))
  /\ (forall T (H : PyFloat T) fuel (s : Session T) today now utcnow user trigger_event
             s' res,
        replan_schedule fuel s today now utcnow user trigger_event = Some (s', res) ->
        study_tasks (committed s')
        = kept_tasks user today (working s)
          ++ regenerated_tasks fuel (working s) today now utcnow user
        /\ (forall e,
              plan_schedule fuel
                (with_study_tasks (kept_tasks user today (working s)) (working s))
                today now utcnow user today (today + 7) = Some (Raise e) ->
              res = Raise e
              /\ study_tasks (committed s') = kept_tasks user today (working s))).
Proof.
  split.
  - intros T H fuel s today now utcnow user trigger_event Hsane Hfuel.
    unfold replan_schedule, generate_schedule, plan_schedule.
    cbn [db_commit set_working working committed].
    destruct (get_available_time_blocks_returns fuel
                (with_study_tasks
                   (filter (fun t => replan_deletes user today t = false)
                      (study_tasks (working s))) (working s))
                user today (today + 7)) as [r Hr]; [exact Hsane|exact Hfuel|].
    rewrite Hr.
    destruct (user_preferences _ user) as [prefs|e].
    + cbn.
      match goal with
      | |- context [match ?plan with Ok _ => _ | Raise _ => _ end] =>
          destruct plan as [[scheduled unscheduled]|e']
      end; eexists _, _; reflexivity.
    + cbn. eexists _, _. reflexivity.
  - intros T H fuel s today now utcnow user trigger_event s' res.
    unfold replan_schedule, generate_schedule, regenerated_tasks, kept_tasks.
    cbn [db_commit set_working working committed].
    destruct (plan_schedule fuel _ today now utcnow user today (today + 7))
      as [[[scheduled unscheduled]|e]|]; cbn; [| |discriminate].
    + intros [= <- <-]. cbn. split; [reflexivity|]. intros e He. discriminate He.
    + intros [= <- <-]. cbn. rewrite app_nil_r. split; [reflexivity|].
      intros e' [= <-]. split; reflexivity.
Qed.

Lemma replan_commits_delete_first_witness :
  study_tasks (committed (Sample.open_session (Sample.course_db false [])))
  = kept_tasks "u1" 0 (Sample.course_db false [Sample.stored_task])
    ++ regenerated_tasks 1440 (Sample.course_db false [Sample.stored_task]) 0 0 0 "u1".
Proof.
  apply (proj2 replan_commits_delete_first spec_float B64.binary64 1440%nat
           (Sample.open_session (Sample.course_db false [Sample.stored_task]))
           0 0 0 "u1" "manual_replan"
           (Sample.open_session (Sample.course_db false []))
           (Raise (KeyError "mastery_score"))).
  vm_compute. reflexivity.
Defined.

(** C2 as stated fails.  The user has one task stored for today and one
    prioritized topic; the delete is committed, the regeneration raises
    ([KeyError] in [create_study_tasks_from_topics]), and the stored
    schedule of the horizon is gone. *)
Lemma replan_loses_schedule :
  study_tasks (committed (Sample.open_session (Sample.course_db false [Sample.stored_task])))
  = [Sample.stored_task]
  /\ replan_deletes "u1" 0 Sample.stored_task = true
  /\ exists s',
       replan_schedule 1440
         (Sample.open_session (Sample.course_db false [Sample.stored_task]))
         0 0 0 "u1" "manual_replan"
       = Some (s', Raise (KeyError "mastery_score"))
       /\ study_tasks (committed s') = [].
Proof.
  split; [reflexivity|]. split; [vm_compute; reflexivity|].
  exists (Sample.open_session (Sample.course_db false [])).
  split; [vm_compute; reflexivity | reflexivity].
Qed.

(** * Further properties of the code *)

(** ** Binary64: the order of the comparisons *)

(** [SFcompare] compares the keys. *)
Lemma SFcompare_key a b :
  SFcompare a b = ka ← sf_key a; kb ← sf_key b; Some (key_compare ka kb).
Proof.
  destruct a as [sa|sa| |sa ma ea], b as [sb|sb| |sb mb eb]; cbn;
    try reflexivity; try (destruct sa; reflexivity); try (destruct sb; reflexivity);
    try (destruct sa, sb; reflexivity).
  destruct sa, sb; cbn; try reflexivity; unfold key_compare; cbn [fst snd].
  - rewrite Z.compare_opp, (Z.compare_antisym ea eb).
    change (Pos.compare_cont Eq ma mb) with (Pos.compare ma mb).
    destruct (ea ?= eb); cbn; reflexivity.
Qed.

(** [key_compare] is the lexicographic order. *)
Lemma key_compare_lex a b :
  key_compare a b = Lt
  <-> (a.1.1 < b.1.1
       \/ (a.1.1 = b.1.1 /\ (a.1.2 < b.1.2 \/ (a.1.2 = b.1.2 /\ a.2 < b.2)))).
Proof.
  unfold key_compare.
  destruct (Z.compare_spec a.1.1 b.1.1), (Z.compare_spec a.1.2 b.1.2),
    (Z.compare_spec a.2 b.2);
    split; intros; try discriminate; try reflexivity; lia.
Qed.

Lemma key_compare_gt a b :
  key_compare a b = Gt <-> key_compare b a = Lt.
Proof.
  unfold key_compare.
  destruct (Z.compare_spec a.1.1 b.1.1), (Z.compare_spec a.1.2 b.1.2),
    (Z.compare_spec a.2 b.2), (Z.compare_spec b.1.1 a.1.1), (Z.compare_spec b.1.2 a.1.2),
    (Z.compare_spec b.2 a.2);
    split; intros; try discriminate; try reflexivity; lia.
Qed.

(** [x < y] and [x <= y] on doubles, through the keys. *)
Lemma SFltb_key a b :
  SFltb a b = true
  <-> exists ka kb, sf_key a = Some ka /\ sf_key b = Some kb /\ key_compare ka kb = Lt.
Proof.
  unfold SFltb. rewrite SFcompare_key.
  destruct (sf_key a) as [ka|], (sf_key b) as [kb|]; cbn.
  - destruct (key_compare ka kb) eqn:E;
      (split; [first [discriminate | intros _; eauto 10]
              | intros (x & y & [= <-] & [= <-] & H); first [reflexivity | congruence]]).
  - split; [discriminate|]. intros (x & y & _ & H & _). discriminate.
  - split; [discriminate|]. intros (x & y & H & _). discriminate.
  - split; [discriminate|]. intros (x & y & H & _). discriminate.
Qed.

Lemma SFleb_key a b :
  SFleb a b = true
  <-> exists ka kb, sf_key a = Some ka /\ sf_key b = Some kb /\ key_compare ka kb <> Gt.
Proof.
  unfold SFleb. rewrite SFcompare_key.
  destruct (sf_key a) as [ka|], (sf_key b) as [kb|]; cbn.
  - destruct (key_compare ka kb) eqn:E;
      (split; [first [discriminate
                     | intros _; exists ka, kb; rewrite E; repeat split; discriminate]
              | intros (x & y & [= <-] & [= <-] & H); first [reflexivity | congruence]]).
  - split; [discriminate|]. intros (x & y & _ & H & _). discriminate.
  - split; [discriminate|]. intros (x & y & H & _). discriminate.
  - split; [discriminate|]. intros (x & y & H & _). discriminate.
Qed.

Lemma sf_key_number a : a <> S754_nan -> exists ka, sf_key a = Some ka.
Proof. destruct a as [s|s| |s m e]; try congruence; cbn; try destruct s; eauto. Qed.

(** For numbers, [not (x <= y)] is [y < x]. *)
Lemma SFleb_false a b :
  a <> S754_nan -> b <> S754_nan -> SFleb a b = false -> SFltb b a = true.
Proof.
  intros Ha Hb. unfold SFleb, SFltb. rewrite !SFcompare_key.
  destruct (sf_key_number a Ha) as [ka ->], (sf_key_number b Hb) as [kb ->]. cbn.
  pose proof (key_compare_gt ka kb) as Hg.
  destruct (key_compare ka kb); try discriminate.
  intros _. rewrite (proj1 Hg eq_refl). reflexivity.
Qed.

Lemma SFleb_SFltb_trans a b c :
  SFleb a b = true -> SFltb b c = true -> SFltb a c = true.
Proof.
  rewrite SFleb_key, !SFltb_key.
  intros (ka & kb & Ha & Hb & H1) (kb' & kc & Hb' & Hc & H2).
  rewrite Hb in Hb'. inversion Hb'; subst kb'. exists ka, kc. repeat split; try assumption.
  apply key_compare_lex. apply key_compare_lex in H2.
  assert (H1' : ~ key_compare kb ka = Lt) by (rewrite <- key_compare_gt; exact H1).
  rewrite key_compare_lex in H1'. lia.
Qed.

Lemma SFleb_trans a b c :
  SFleb a b = true -> SFleb b c = true -> SFleb a c = true.
Proof.
  rewrite !SFleb_key.
  intros (ka & kb & Ha & Hb & H1) (kb' & kc & Hb' & Hc & H2).
  rewrite Hb in Hb'. inversion Hb'; subst kb'. exists ka, kc. repeat split; try assumption.
  rewrite key_compare_gt, key_compare_lex.
  assert (H1' : ~ key_compare kb ka = Lt) by (rewrite <- key_compare_gt; exact H1).
  assert (H2' : ~ key_compare kc kb = Lt) by (rewrite <- key_compare_gt; exact H2).
  rewrite key_compare_lex in H1', H2'. lia.
Qed.

Lemma SFltb_not_SFleb a b : SFltb a b = true -> SFleb b a = false.
Proof.
  rewrite SFltb_key. intros (ka & kb & Ha & Hb & Hlt).
  destruct (SFleb b a) eqn:E; [|reflexivity].
  apply SFleb_key in E as (kb' & ka' & Hb' & Ha' & Hle).
  rewrite Ha in Ha'. rewrite Hb in Hb'. inversion Ha'; inversion Hb'; subst.
  exfalso. apply Hle. apply key_compare_gt. exact Hlt.
Qed.

(** ** Difficulty selection *)

(** X1.  [select_difficulty_by_mastery] is monotone: a mastery that is
    not lower never gets an easier level, in double precision (where
    [a <= b] holds for numbers only) and in exact arithmetic. *)
Theorem select_difficulty_monotone :
  (forall a b : spec_float,
     SFleb a b = true ->
     diff_index (select_difficulty_by_mastery a)
     <= diff_index (select_difficulty_by_mastery b))
  /\ (forall qsqrt (a b : Q),
        (a <= b)%Q ->
        diff_index (@select_difficulty_by_mastery Q (Exact.QFloat qsqrt) a)
        <= diff_index (@select_difficulty_by_mastery Q (Exact.QFloat qsqrt) b)).
Proof.
  split.
  - intros a b Hab.
    assert (Hlt : forall c, SFltb b c = true -> SFltb a c = true)
      by (intros c; apply SFleb_SFltb_trans, Hab).
    unfold select_difficulty_by_mastery. cbn [fltb B64.binary64].
    destruct (SFltb b (of_int 40)) eqn:E40; [rewrite (Hlt _ E40); cbn; lia|].
    destruct (SFltb b (of_int 60)) eqn:E60;
      [rewrite (Hlt _ E60); destruct (SFltb a (of_int 40)); cbn; lia|].
    destruct (SFltb b (of_int 80)) eqn:E80;
      [rewrite (Hlt _ E80); destruct (SFltb a (of_int 40)), (SFltb a (of_int 60)); cbn; lia|].
    destruct (SFltb a (of_int 40)), (SFltb a (of_int 60)), (SFltb a (of_int 80)); cbn; lia.
  - intros qsqrt a b Hab.
    assert (Hlt : forall c, Exact.Qltb b c = true -> Exact.Qltb a c = true).
    { intros c Hc. apply Qltb_true. apply Qltb_true in Hc. lra. }
    unfold select_difficulty_by_mastery. cbn [fltb of_int Exact.QFloat].
    destruct (Exact.Qltb b (inject_Z 40)) eqn:E40; [rewrite (Hlt _ E40); cbn; lia|].
    destruct (Exact.Qltb b (inject_Z 60)) eqn:E60;
      [rewrite (Hlt _ E60); destruct (Exact.Qltb a (inject_Z 40)); cbn; lia|].
    destruct (Exact.Qltb b (inject_Z 80)) eqn:E80;
      [rewrite (Hlt _ E80);
       destruct (Exact.Qltb a (inject_Z 40)), (Exact.Qltb a (inject_Z 60)); cbn; lia|].
    destruct (Exact.Qltb a (inject_Z 40)), (Exact.Qltb a (inject_Z 60)),
      (Exact.Qltb a (inject_Z 80)); cbn; lia.
Qed.

Lemma select_difficulty_monotone_witness :
  SFleb (Sample.f64 59) (Sample.f64 60) = true
  /\ diff_index (select_difficulty_by_mastery (Sample.f64 59))
     <= diff_index (select_difficulty_by_mastery (Sample.f64 60)).
Proof.
  assert (Hle : SFleb (Sample.f64 59) (Sample.f64 60) = true) by (vm_compute; reflexivity).
  split; [exact Hle|].
  exact (proj1 select_difficulty_monotone (Sample.f64 59) (Sample.f64 60) Hle).
Defined.

(** X2.  Close to the exam [select_difficulty_adaptive] ignores the
    trend and the difficulty curve.  Within 7 days a mastery of 60 or
    more gets the exam level; within 3 days a mastery below 60 gets the
    medium level, also where the mastery alone gives the easy one.  In
    double precision, for a mastery that is a number, and in exact
    arithmetic these are the only two results within 3 days of the
    exam. *)
Theorem exam_proximity_overrides :
  (forall T (H : PyFloat T) (mastery : T) tr days curve,
     (days <= 7 -> fleb (of_int 60) mastery = true ->
      select_difficulty_adaptive mastery tr days curve = EXAM_LEVEL)
     /\ (days <= 3 -> fleb (of_int 60) mastery = false -> fltb mastery (of_int 60) = true ->
         select_difficulty_adaptive mastery tr days curve = MEDIUM))
  /\ (forall (mastery : spec_float) tr days curve,
        mastery <> S754_nan -> days <= 3 ->
        select_difficulty_adaptive mastery tr days curve
        = if SFleb (of_int 60) mastery then EXAM_LEVEL else MEDIUM)
  /\ (forall qsqrt (mastery : Q) tr days curve,
        days <= 3 ->
        @select_difficulty_adaptive Q (Exact.QFloat qsqrt) mastery tr days curve
        = if Qle_bool 60 mastery then EXAM_LEVEL else MEDIUM).
Proof.
  assert (Hgen : forall T (H : PyFloat T) (mastery : T) tr days curve,
     (days <= 7 -> fleb (of_int 60) mastery = true ->
      select_difficulty_adaptive mastery tr days curve = EXAM_LEVEL)
     /\ (days <= 3 -> fleb (of_int 60) mastery = false -> fltb mastery (of_int 60) = true ->
         select_difficulty_adaptive mastery tr days curve = MEDIUM)).
  { intros T H mastery tr days curve. unfold select_difficulty_adaptive. split.
    - intros Hd Hm. rewrite Hm. apply Z.leb_le in Hd. rewrite Hd. reflexivity.
    - intros Hd Hm Hlt. rewrite Hm, Hlt, andb_false_r.
      assert (Hd3 : (days <=? 3) = true) by (apply Z.leb_le; lia). rewrite Hd3. reflexivity. }
  split; [exact Hgen|]. split.
  - intros mastery tr days curve Hnan Hd.
    destruct (Hgen spec_float B64.binary64 mastery tr days curve) as [H7 H3].
    cbn [fleb fltb B64.binary64] in H7, H3.
    destruct (SFleb (of_int 60) mastery) eqn:E.
    + apply H7; [lia|reflexivity].
    + apply H3; [exact Hd|reflexivity|].
      apply SFleb_false; [|exact Hnan|exact E]. vm_compute. discriminate.
  - intros qsqrt mastery tr days curve Hd.
    destruct (Hgen Q (Exact.QFloat qsqrt) mastery tr days curve) as [H7 H3].
    cbn [fleb fltb of_int Exact.QFloat] in H7, H3.
    change (inject_Z 60) with 60%Q in *.
    destruct (Qle_bool 60 mastery) eqn:E.
    + apply H7; [lia|reflexivity].
    + apply H3; [exact Hd|reflexivity|].
      unfold Exact.Qltb. rewrite E. reflexivity.
Qed.

Lemma exam_proximity_overrides_witness :
  select_difficulty_adaptive (Sample.f64 10) DECLINING 2 "balanced" = MEDIUM.
Proof.
  apply (proj1 (proj2 exam_proximity_overrides) (Sample.f64 10) DECLINING 2 "balanced").
  - vm_compute. discriminate.
  - lia.
Defined.

(** X3.  Away from the exam (more than 7 days, or more than 3 days
    with a mastery not known to reach 60) the adaptive level is the
    level of the mastery moved by at most one step: one down, not below
    the easy level, for a declining trend; one up, not above the exam
    level, for an improving trend with the aggressive curve; the level
    of the mastery itself otherwise.  With the balanced curve an
    improving trend never raises the level. *)
Theorem adaptive_within_one_level :
  forall T (H : PyFloat T) (mastery : T) tr days curve,
    7 < days \/ (3 < days /\ fleb (of_int 60) mastery = false) ->
    let base := diff_index (select_difficulty_by_mastery mastery) in
    let got := diff_index (select_difficulty_adaptive mastery tr days curve) in
    (tr = DECLINING -> got = Z.max 0 (base - 1))
    /\ (tr = IMPROVING -> curve = "aggressive" -> got = Z.min 3 (base + 1))
    /\ (tr <> DECLINING -> (tr = IMPROVING -> curve <> "aggressive") -> got = base)
    /\ base - 1 <= got <= base + 1.
Proof.
  intros T H mastery tr days curve Hd. cbn zeta.
  assert (Hcases :
    (tr = DECLINING ->
     diff_index (select_difficulty_adaptive mastery tr days curve)
     = Z.max 0 (diff_index (select_difficulty_by_mastery mastery) - 1))
    /\ (tr = IMPROVING -> curve = "aggressive" ->
        diff_index (select_difficulty_adaptive mastery tr days curve)
        = Z.min 3 (diff_index (select_difficulty_by_mastery mastery) + 1))
    /\ (tr <> DECLINING -> (tr = IMPROVING -> curve <> "aggressive") ->
        diff_index (select_difficulty_adaptive mastery tr days curve)
        = diff_index (select_difficulty_by_mastery mastery))).
  { unfold select_difficulty_adaptive.
    assert (E : ((days <=? 7) && fleb (of_int 60) mastery) = false).
    { destruct Hd as [Hd|[_ Hm]]; [|rewrite Hm; apply andb_false_r].
      apply andb_false_iff. left. apply Z.leb_gt. exact Hd. }
    assert (E3 : ((days <=? 3) && fltb mastery (of_int 60)) = false).
    { apply andb_false_iff. left. apply Z.leb_gt. lia. }
    rewrite E, E3. clear E E3.
    destruct (select_difficulty_by_mastery mastery); (split; [|split]).
    all: first
      [ intros ->; vm_compute; reflexivity
      | intros -> ->; vm_compute; reflexivity
      | intros H1 H2; destruct (decide (tr = DECLINING)); [contradiction|];
        destruct (decide (tr = IMPROVING /\ curve = "aggressive")) as [[Hi Hc]|];
        [exfalso; exact (H2 Hi Hc)|reflexivity] ]. }
  destruct Hcases as (Hdec & Himp & Hsame).
  split; [exact Hdec|]. split; [exact Himp|]. split; [exact Hsame|].
  assert (Hb : 0 <= diff_index (select_difficulty_by_mastery mastery) <= 3)
    by (destruct (select_difficulty_by_mastery mastery); cbn; lia).
  destruct (decide (tr = DECLINING)) as [Ed|Ed]; [rewrite (Hdec Ed); lia|].
  destruct (decide (tr = IMPROVING /\ curve = "aggressive")) as [[Ei Ec]|En];
    [rewrite (Himp Ei Ec); lia|].
  rewrite (Hsame Ed); [lia|]. intros Ei Ec. apply En. split; assumption.
Qed.

Lemma adaptive_within_one_level_witness :
  diff_index (select_difficulty_adaptive (Sample.f64 75) IMPROVING 10 "balanced")
  = diff_index (select_difficulty_by_mastery (Sample.f64 75)).
Proof.
  apply (adaptive_within_one_level spec_float B64.binary64 (Sample.f64 75) IMPROVING 10
           "balanced").
  - left. lia.
  - discriminate.
  - intros _. discriminate.
Defined.

(** ** Ranges and trend of an update *)

Section RangesExact.
Variable qsqrt : Q -> Result Q.
Abbreviation QR := (Exact.QFloat qsqrt).

Lemma py_max_lower_exact (a x : Q) : (a <= @py_max Q QR a x)%Q.
Proof. rewrite q_py_max. apply Q.le_max_l. Qed.

Lemma next_review_in_range (ef : Q) iv quality :
  1 <= iv ->
  exists n ef',
    @calculate_next_review Q QR ef iv quality = Ok (n, ef')
    /\ (13 # 10 <= ef')%Q /\ 1 <= n.
Proof.
  intros Hiv. unfold calculate_next_review.
  set (ef' := py_max (fdec 13 10) _).
  assert (Hef : (13 # 10 <= ef')%Q) by apply py_max_lower_exact.
  destruct (quality <? 3); [exists 1, ef'; repeat split; [exact Hef|lia]|].
  destruct (iv =? 0) eqn:E0; [exists 1, ef'; repeat split; [exact Hef|lia]|].
  destruct (iv =? 1) eqn:E1; [exists 6, ef'; repeat split; [exact Hef|lia]|].
  apply Z.eqb_neq in E0, E1.
  cbn [mbind result_bind to_int fmul of_int Exact.QFloat].
  assert (Hx : (2 <= inject_Z iv * ef')%Q).
  { assert (2 <= inject_Z iv)%Q by (unfold Qle; cbn; lia). nra. }
  rewrite q_trunc_floor by lra. cbn [mbind result_bind].
  exists (Qfloor (inject_Z iv * ef')), ef'. repeat split; [exact Hef|].
  assert (Hf : Qfloor 2 <= Qfloor (inject_Z iv * ef')) by (apply Qfloor_resp_le, Hx).
  change (Qfloor 2) with 2 in Hf. lia.
Qed.

Lemma update_in_range (s : Session Q) today now user topic (q : Q) n (alpha : Q) s' r :
  (0 <= q <= 100)%Q -> (0 <= alpha <= 1)%Q ->
  (forall i m, find_mastery user topic (mastery_records (working s)) = Some (i, m) ->
               record_in_range m) ->
  @update_mastery_ewma Q QR s today now user topic q n alpha = (s', Ok r) ->
  record_in_range r
  /\ next_review_date r = Some (today + review_interval_days r)
  /\ last_practiced_at r = Some now.
Proof.
  intros Hq Ha Hm. unfold update_mastery_ewma.
  destruct (find_mastery user topic (mastery_records (working s))) as [[i m]|] eqn:Hf.
  - destruct (Hm i m eq_refl) as (Hm1 & Hm2 & Hm3 & Hm4).
    assert (Hnew : (0 <= @ewma Q QR alpha q (mastery_score m) <= 100)%Q).
    { rewrite ewma_exact. split; nra. }
    destruct (fleb (of_int 70) (ewma alpha q (mastery_score m))).
    + cbn [mbind result_bind fdiv to_int Exact.QFloat of_int].
      rewrite q_div_ok by (intros A; discriminate A). cbn [mbind result_bind Exact.q_to_int].
      destruct (next_review_in_range (easiness_factor m) (review_interval_days m)
                  (Qnum (q / inject_Z 100 * inject_Z 5)
                   ÷ Z.pos (Qden (q / inject_Z 100 * inject_Z 5))) Hm4)
        as (iv & ef' & Hc & Hef & Hiv).
      cbn [fmul Exact.QFloat]. rewrite Hc. cbn [mbind result_bind].
      update_outcome; [|intros [= _ H']; discriminate H'].
      intros [= _ <-]. unfold record_in_range. cbn.
      repeat split; try apply Hnew; try assumption. apply py_max_lower_exact.
    + update_outcome; [|intros [= _ H']; discriminate H'].
      intros [= _ <-]. unfold record_in_range. cbn.
      repeat split; try apply Hnew; try assumption; try lia. apply py_max_lower_exact.
  - unfold initialize_mastery, calculate_confidence_interval.
    destruct (fsqrt (of_int n)) as [x|]; cbn [mbind result_bind];
      [|intros [= _ H']; discriminate H'].
    destruct (fdiv (of_int 20) x) as [y|]; cbn [mbind result_bind];
      [|intros [= _ H']; discriminate H'].
    update_outcome; [|intros [= _ H']; discriminate H'].
    intros [= _ <-]. unfold record_in_range. cbn.
    repeat split; try apply Hq; try lia; try reflexivity.
    + apply py_max_lower_exact.
    + unfold Qle. cbn. lia.
Qed.

Lemma update_trend_exact (s : Session Q) today now user topic (q : Q) n (alpha : Q) i m s' r :
  find_mastery user topic (mastery_records (working s)) = Some (i, m) ->
  @update_mastery_ewma Q QR s today now user topic q n alpha = (s', Ok r) ->
  trend r = @detect_trend Q QR (mastery_score m) (@ewma Q QR alpha q (mastery_score m))
              (inject_Z 5).
Proof.
  intros Hf. unfold update_mastery_ewma. rewrite Hf.
  match goal with
  | |- context [match ?sch with Ok _ => _ | Raise _ => _ end] =>
      destruct sch as [[iv ef]|e]
  end; [update_outcome|]; intros Hu; inversion Hu; subst. reflexivity.
Qed.

Lemma detect_trend_exact (old new threshold : Q) :
  (@detect_trend Q QR old new threshold = IMPROVING <-> (threshold < new - old)%Q)
  /\ (0 <= threshold ->
      (@detect_trend Q QR old new threshold = DECLINING <-> new - old < - threshold))%Q
  /\ @detect_trend Q QR old new threshold <> NEW.
Proof.
  unfold detect_trend. cbn [fltb fsub fopp Exact.QFloat].
  destruct (Exact.Qltb threshold (new - old)) eqn:E1.
  - apply Qltb_true in E1. split; [tauto|]. split; [|discriminate].
    intros Ht. split; [discriminate|]. intros Hlt. lra.
  - apply Qltb_false in E1.
    destruct (Exact.Qltb (new - old) (- threshold)) eqn:E2.
    + apply Qltb_true in E2. split; [split; [discriminate|intros; lra]|].
      split; [tauto|discriminate].
    + apply Qltb_false in E2. split; [split; [discriminate|intros; lra]|].
      split; [|discriminate]. intros _. split; [discriminate|intros; lra].
Qed.

End RangesExact.

(** X4.  In exact arithmetic, for a quiz score in [[0, 100]] and an
    [alpha] in [[0, 1]] (the API schema admits these scores), a record
    [update_mastery_ewma] returns is within the ranges of the data
    model as long as the stored one was: mastery in [[0, 100]],
    confidence interval at least 5, easiness factor at least 1.3,
    review interval at least one day.  Its next review date is today
    plus the review interval and its last practice is now.  This holds
    on both paths, the update of a stored record and the creation of a
    new one. *)
Theorem update_keeps_ranges :
  forall qsqrt (s : Session Q) today now user topic (q : Q) n (alpha : Q) s' r,
    (0 <= q <= 100)%Q -> (0 <= alpha <= 1)%Q ->
    (forall i m, find_mastery user topic (mastery_records (working s)) = Some (i, m) ->
                 record_in_range m) ->
    @update_mastery_ewma Q (Exact.QFloat qsqrt) s today now user topic q n alpha
    = (s', Ok r) ->
    record_in_range r
    /\ next_review_date r = Some (today + review_interval_days r)
    /\ last_practiced_at r = Some now.
Proof. intros qsqrt. apply update_in_range. Qed.

Lemma update_keeps_ranges_witness :
  exists s' r,
    @update_mastery_ewma Q Sample.QS (@Sample.session_with Q Sample.QS 60%Q)
      0 0 "u1" "t1" 90%Q 10 (3 # 10)%Q = (s', Ok r)
    /\ record_in_range r.
Proof.
  assert (Hok : match (@update_mastery_ewma Q Sample.QS
                         (@Sample.session_with Q Sample.QS 60%Q)
                         0 0 "u1" "t1" 90%Q 10 (3 # 10)%Q).2 with
                | Ok _ => true
                | Raise _ => false
                end = true) by (vm_compute; reflexivity).
  destruct (@update_mastery_ewma Q Sample.QS (@Sample.session_with Q Sample.QS 60%Q)
              0 0 "u1" "t1" 90%Q 10 (3 # 10)%Q) as [s' [r|e]] eqn:Hu; [|discriminate Hok].
  exists s', r. split; [reflexivity|].
  apply (update_keeps_ranges Sample.small_sqrt (@Sample.session_with Q Sample.QS 60%Q)
           0 0 "u1" "t1" 90%Q 10 (3 # 10)%Q s' r).
  - unfold Qle. cbn. lia.
  - unfold Qle. cbn. lia.
  - intros i m Hf.
    assert (Hfind : find_mastery "u1" "t1"
                      (mastery_records (working (@Sample.session_with Q Sample.QS 60%Q)))
                    = Some (0%nat, @Sample.record_with Q Sample.QS 60%Q)) by reflexivity.
    rewrite Hfind in Hf. injection Hf as _ <-.
    unfold record_in_range, Qle. cbn. lia.
  - exact Hu.
Defined.

(** X5.  The trend an update of a stored record leaves, in exact
    arithmetic: the change of the mastery is [alpha * (quiz_score -
    old_mastery)], and the trend is improving exactly when this is
    above 5, declining exactly when it is below -5 and stable in
    between; it is never [NEW] again. *)
Theorem update_trend_threshold :
  forall qsqrt (s : Session Q) today now user topic (q : Q) n (alpha : Q) i m s' r,
    find_mastery user topic (mastery_records (working s)) = Some (i, m) ->
    @update_mastery_ewma Q (Exact.QFloat qsqrt) s today now user topic q n alpha
    = (s', Ok r) ->
    (trend r = IMPROVING <-> (5 < alpha * (q - mastery_score m))%Q)
    /\ (trend r = DECLINING <-> (alpha * (q - mastery_score m) < -5)%Q)
    /\ (trend r = STABLE <-> (-5 <= alpha * (q - mastery_score m) <= 5)%Q)
    /\ trend r <> NEW.
Proof.
  intros qsqrt s today now user topic q n alpha i m s' r Hf Hu.
  rewrite (update_trend_exact qsqrt _ _ _ _ _ _ _ _ _ _ _ _ Hf Hu).
  destruct (detect_trend_exact qsqrt (mastery_score m)
              (@ewma Q (Exact.QFloat qsqrt) alpha q (mastery_score m)) (inject_Z 5))
    as (Hi & Hd & Hn).
  specialize (Hd ltac:(unfold Qle; cbn; lia)).
  assert (E : (@ewma Q (Exact.QFloat qsqrt) alpha q (mastery_score m) - mastery_score m
               == alpha * (q - mastery_score m))%Q) by (rewrite ewma_exact; ring).
  change (inject_Z 5) with 5%Q in *. rewrite E in Hi, Hd.
  cbn [of_int Exact.QFloat]. change (inject_Z 5) with 5%Q.
  split; [exact Hi|]. split; [exact Hd|]. split; [|exact Hn].
  destruct (detect_trend _ _ _) eqn:Et.
  - split; [discriminate|]. intros [_ Hle]. pose proof (proj1 Hi eq_refl). lra.
  - split; [intros _|reflexivity].
    split.
    + apply Qnot_lt_le. intros Hlt. apply Hd in Hlt. discriminate Hlt.
    + apply Qnot_lt_le. intros Hlt. apply Hi in Hlt. discriminate Hlt.
  - split; [discriminate|]. intros [Hle _]. pose proof (proj1 Hd eq_refl). lra.
  - exfalso. apply Hn. reflexivity.
Qed.

Lemma update_trend_threshold_witness :
  exists s' r,
    @update_mastery_ewma Q Sample.QS (@Sample.session_with Q Sample.QS 60%Q)
      0 0 "u1" "t1" 90%Q 10 (3 # 10)%Q = (s', Ok r)
    /\ trend r = IMPROVING.
Proof.
  assert (Hok : match (@update_mastery_ewma Q Sample.QS
                         (@Sample.session_with Q Sample.QS 60%Q)
                         0 0 "u1" "t1" 90%Q 10 (3 # 10)%Q).2 with
                | Ok _ => true
                | Raise _ => false
                end = true) by (vm_compute; reflexivity).
  destruct (@update_mastery_ewma Q Sample.QS (@Sample.session_with Q Sample.QS 60%Q)
              0 0 "u1" "t1" 90%Q 10 (3 # 10)%Q) as [s' [r|e]] eqn:Hu; [|discriminate Hok].
  exists s', r. split; [reflexivity|].
  apply (update_trend_threshold Sample.small_sqrt (@Sample.session_with Q Sample.QS 60%Q)
           0 0 "u1" "t1" 90%Q 10 (3 # 10)%Q
           0%nat (@Sample.record_with Q Sample.QS 60%Q) s' r eq_refl Hu).
  unfold Qlt. cbn. lia.
Defined.

(** ** Priority: divisions by zero and recency *)

Section PriorityEdges.
Variable qsqrt : Q -> Result Q.
Abbreviation QPE := (Exact.QFloat qsqrt).

Lemma priority_general today (w m ci : Q) exam lp :
  ~ (ci == -100)%Q -> days_since today lp <> -1 ->
  exists p, @calculate_priority Q QPE today w m ci exam lp = Ok p
    /\ (p == priority_formula w m ci (exam - today) (days_since today lp))%Q.
Proof.
  intros Hci Hds. unfold calculate_priority.
  cbn [mbind result_bind fdiv fadd fsub fmul of_int Exact.QFloat].
  assert (HD : (0 < inject_Z (Z.max 1 (exam - today)))%Q) by (apply inject_Z_pos; lia).
  rewrite (q_div_pos w) by reflexivity. cbn [mbind result_bind].
  rewrite (q_div_pos m) by reflexivity. cbn [mbind result_bind].
  rewrite (q_div_pos (inject_Z 1) (inject_Z (Z.max 1 (exam - today)))) by exact HD.
  cbn [mbind result_bind].
  rewrite (q_div_pos ci) by reflexivity. cbn [mbind result_bind].
  assert (HC : ~ (inject_Z 1 + ci / inject_Z 100 == 0)%Q).
  { change (inject_Z 1) with 1%Q. change (inject_Z 100) with 100%Q.
    intros A. apply Hci. assert (E : (ci == (1 + ci / 100 - 1) * 100)%Q) by (field).
    rewrite E, A. reflexivity. }
  rewrite (q_div_ok (inject_Z 1) (inject_Z 1 + ci / inject_Z 100)) by exact HC.
  cbn [mbind result_bind].
  assert (HR : ~ (inject_Z 1 + inject_Z (days_since today lp) == 0)%Q).
  { rewrite <- inject_Z_plus. change 0%Q with (inject_Z 0). rewrite inject_Z_injective. lia. }
  rewrite (q_div_ok (inject_Z 1) (inject_Z 1 + inject_Z _)) by exact HR.
  cbn [mbind result_bind].
  rewrite q_div_ok.
  - eexists. split; [reflexivity|]. unfold priority_formula. reflexivity.
  - intros A. apply HR.
    assert (E : (inject_Z 1 + inject_Z (days_since today lp)
                 == / (inject_Z 1 / (inject_Z 1 + inject_Z (days_since today lp))))%Q).
    { unfold Qdiv. rewrite Qmult_1_l, Qinv_involutive. reflexivity. }
    rewrite E, A. reflexivity.
Qed.

Lemma priority_raises today (w m ci : Q) exam lp :
  (ci == -100)%Q \/ days_since today lp = -1 ->
  @calculate_priority Q QPE today w m ci exam lp = Raise ZeroDivisionError.
Proof.
  intros Hz. unfold calculate_priority.
  cbn [mbind result_bind fdiv fadd fsub fmul of_int Exact.QFloat].
  assert (HD : (0 < inject_Z (Z.max 1 (exam - today)))%Q) by (apply inject_Z_pos; lia).
  rewrite (q_div_pos w) by reflexivity. cbn [mbind result_bind].
  rewrite (q_div_pos m) by reflexivity. cbn [mbind result_bind].
  rewrite (q_div_pos (inject_Z 1) (inject_Z (Z.max 1 (exam - today)))) by exact HD.
  cbn [mbind result_bind].
  rewrite (q_div_pos ci) by reflexivity. cbn [mbind result_bind].
  destruct (Qeq_bool (inject_Z 1 + ci / inject_Z 100) 0) eqn:EC.
  - assert (E : Exact.q_div (inject_Z 1) (inject_Z 1 + ci / inject_Z 100)
                = Raise ZeroDivisionError) by (unfold Exact.q_div; rewrite EC; reflexivity).
    rewrite E. reflexivity.
  - rewrite (q_div_ok (inject_Z 1) (inject_Z 1 + ci / inject_Z 100))
      by (apply Qeq_bool_neq, EC).
    cbn [mbind result_bind].
    destruct Hz as [Hci|Hds].
    + exfalso. apply Qeq_bool_neq in EC. apply EC. rewrite Hci. reflexivity.
    + rewrite Hds. reflexivity.
Qed.

End PriorityEdges.

(** X6.  Where [calculate_priority] divides by zero, in exact
    arithmetic: it raises [ZeroDivisionError] exactly when the
    confidence interval is -100 or the last practice is dated one day
    after today; on every other input, in or out of the ranges of the
    data model, it returns the value of the formula. *)
Theorem calculate_priority_zero_division :
  forall qsqrt today (w m ci : Q) exam lp,
    ((ci == -100)%Q \/ days_since today lp = -1 ->
     @calculate_priority Q (Exact.QFloat qsqrt) today w m ci exam lp
     = Raise ZeroDivisionError)
    /\ (~ (ci == -100)%Q -> days_since today lp <> -1 ->
        exists p,
          @calculate_priority Q (Exact.QFloat qsqrt) today w m ci exam lp = Ok p
          /\ (p == priority_formula w m ci (exam - today) (days_since today lp))%Q).
Proof.
  intros qsqrt today w m ci exam lp. split.
  - apply priority_raises.
  - apply priority_general.
Qed.

Lemma calculate_priority_zero_division_witness :
  @calculate_priority Q Sample.QS 100 20%Q 50%Q 10%Q 110 (Some 101)
  = Raise ZeroDivisionError.
Proof.
  apply (proj1 (calculate_priority_zero_division Sample.small_sqrt 100 20%Q 50%Q 10%Q 110
                  (Some 101))).
  right. reflexivity.
Defined.

(** X7.  The recency factor.  A topic never practiced is treated as
    one last practiced 30 days ago (in any arithmetic).  In exact
    arithmetic and within the ranges of the data model the priority
    grows with the days since the last practice, in proportion to one
    plus that number of days, strictly when the weight is positive and
    the mastery below 100. *)
Theorem calculate_priority_recency :
  (forall T (H : PyFloat T) today (w m ci : T) exam,
     calculate_priority today w m ci exam None
     = calculate_priority today w m ci exam (Some (today - 30)))
  /\ (forall qsqrt today (w m ci : Q) exam d1 d2 p1 p2,
        priority_domain w m ci today (Some d2) ->
        d1 <= d2 ->
        @calculate_priority Q (Exact.QFloat qsqrt) today w m ci exam (Some d1) = Ok p1 ->
        @calculate_priority Q (Exact.QFloat qsqrt) today w m ci exam (Some d2) = Ok p2 ->
        (p2 <= p1)%Q
        /\ (p1 == p2 * (1 + inject_Z (today - d1)) / (1 + inject_Z (today - d2)))%Q
        /\ (d1 < d2 -> (0 < w)%Q -> (m < 100)%Q -> (p2 < p1)%Q)).
Proof.
  split.
  - intros T H today w m ci exam. unfold calculate_priority, days_since.
    replace (today - (today - 30)) with 30 by lia. reflexivity.
  - intros qsqrt today w m ci exam d1 d2 p1 p2 (Hw & [Hm0 Hm1] & Hci & Hds) Hd H1 H2.
    cbn [days_since] in Hds.
    assert (Hds1 : 0 <= days_since today (Some d1)) by (cbn; lia).
    assert (Hds2 : 0 <= days_since today (Some d2)) by (cbn; lia).
    destruct (priority_factors w m ci (exam - today) (today - d1) Hw Hm1 Hci ltac:(lia))
      as (FW & FG & FU & FC & FR1).
    destruct (priority_factors w m ci (exam - today) (today - d2) Hw Hm1 Hci ltac:(lia))
      as (_ & _ & _ & _ & FR2).
    priority_value qsqrt H1. priority_value qsqrt H2.
    cbn [days_since] in Eq, Eq0.
    rewrite Eq, Eq0. unfold priority_product.
    set (W := (w / 100)%Q) in *. set (G := (1 - m / 100)%Q) in *.
    set (U := (/ inject_Z (Z.max 1 (exam - today)))%Q) in *.
    set (C := (/ (1 + ci / 100))%Q) in *.
    assert (HR : (1 + inject_Z (today - d2) <= 1 + inject_Z (today - d1))%Q).
    { apply Qplus_le_r. rewrite <- Zle_Qle. lia. }
    assert (HP : (0 <= W * G * U * C)%Q).
    { assert (0 <= W * G)%Q by (apply Qmult_le_0_compat; assumption).
      assert (0 <= W * G * U)%Q
        by (apply Qmult_le_0_compat; [assumption|apply Qlt_le_weak, FU]).
      apply Qmult_le_0_compat; [assumption|apply Qlt_le_weak, FC]. }
    split; [|split].
    + nra.
    + field. lra.
    + intros Hlt Hwp Hmp.
      assert (HR' : (1 + inject_Z (today - d2) < 1 + inject_Z (today - d1))%Q).
      { apply Qplus_lt_r. rewrite <- Zlt_Qlt. lia. }
      assert (HP' : (0 < W * G * U * C)%Q).
      { assert (0 < W)%Q by (unfold W; apply Qlt_shift_div_l; lra).
        assert (0 < G)%Q.
        { unfold G. assert (m / 100 < 1)%Q by (apply Qlt_shift_div_r; lra). lra. }
        assert (0 < W * G)%Q by (apply Qmult_lt_0_compat; assumption).
        assert (0 < W * G * U)%Q by (apply Qmult_lt_0_compat; assumption).
        apply Qmult_lt_0_compat; assumption. }
      nra.
Qed.

Lemma calculate_priority_recency_witness :
  exists p1 p2,
    @calculate_priority Q Sample.QS 100 20%Q 50%Q 10%Q 110 (Some 90) = Ok p1
    /\ @calculate_priority Q Sample.QS 100 20%Q 50%Q 10%Q 110 (Some 95) = Ok p2
    /\ (p2 <= p1)%Q.
Proof.
  assert (Hok : match @calculate_priority Q Sample.QS 100 20%Q 50%Q 10%Q 110 (Some 90),
                      @calculate_priority Q Sample.QS 100 20%Q 50%Q 10%Q 110 (Some 95) with
                | Ok _, Ok _ => true
                | _, _ => false
                end = true) by (vm_compute; reflexivity).
  destruct (@calculate_priority Q Sample.QS 100 20%Q 50%Q 10%Q 110 (Some 90))
    as [p1|e1] eqn:H1; [|discriminate Hok].
  destruct (@calculate_priority Q Sample.QS 100 20%Q 50%Q 10%Q 110 (Some 95))
    as [p2|e2] eqn:H2; [|discriminate Hok].
  exists p1, p2. split; [reflexivity|]. split; [reflexivity|].
  apply (proj2 calculate_priority_recency Sample.small_sqrt 100 20%Q 50%Q 10%Q 110 90 95
           p1 p2).
  - unfold priority_domain, Qle. simpl. lia.
  - lia.
  - exact H1.
  - exact H2.
Defined.

(** ** Creating a record *)

Lemma find_mastery_snoc_other {T} user topic (l : list (MasteryRecord T)) r :
  ~ (mr_user_id r = user /\ mr_topic_id r = topic) ->
  find_mastery user topic (l ++ [r]) = find_mastery user topic l.
Proof.
  intros Hne. unfold find_mastery.
  destruct (list_find _ l) as [[i m]|] eqn:Hf.
  - apply list_find_app_l, Hf.
  - rewrite list_find_app_r by exact Hf. cbn.
    rewrite decide_False by exact Hne. reflexivity.
Qed.

(** X8.  [initialize_mastery] for a pair that has no record yet (the
    table has a unique index on the pair).  It either raises and leaves
    the session as it was, or appends the record it returns to the
    table and commits.  Then the lookup of the pair finds the new
    record, the lookups of every other (user, topic) pair are
    unchanged, and a later [update_mastery_ewma] for the pair rewrites
    that row in place: the table keeps its length, [practice_count]
    stays 1 and [quiz_count] becomes 1. *)
Theorem initialize_then_lookup :
  forall T (H : PyFloat T) (s : Session T) today now user topic score n s' res,
    find_mastery user topic (mastery_records (working s)) = None ->
    initialize_mastery s today now user topic score n = (s', res) ->
    (forall e, res = Raise e -> s' = s)
    /\ (forall r, res = Ok r ->
          committed s' = working s'
          /\ mastery_records (working s') = mastery_records (working s) ++ [r]
          /\ find_mastery user topic (mastery_records (working s'))
             = Some (length (mastery_records (working s)), r)
          /\ (forall u t, ~ (u = user /\ t = topic) ->
                find_mastery u t (mastery_records (working s'))
                = find_mastery u t (mastery_records (working s)))
          /\ (forall today' now' q' n' alpha s'' r',
                update_mastery_ewma s' today' now' user topic q' n' alpha = (s'', Ok r') ->
                length (mastery_records (working s''))
                = length (mastery_records (working s'))
                /\ practice_count r' = 1 /\ quiz_count r' = 1)).
Proof.
  intros T H s today now user topic score n s' res Hf. unfold initialize_mastery.
  destruct (calculate_confidence_interval n) as [c|e];
    [destruct (date_add_days today 1) as [next|e]|].
  - intros [= <- <-]. split; [discriminate|]. intros r [= <-].
    cbn [db_commit set_working committed working with_mastery_records mastery_records].
    split; [reflexivity|]. split; [reflexivity|].
    match goal with |- ?A /\ _ => assert (Hfound : A) end.
    { unfold find_mastery in *. rewrite list_find_app_r by exact Hf. cbn.
      rewrite decide_True by (split; reflexivity). reflexivity. }
    split; [exact Hfound|]. split.
    + intros u t Hne. apply find_mastery_snoc_other. cbn.
      intros [Hu Ht]. apply Hne. split; congruence.
    + intros today' now' q' n' alpha s'' r'. unfold update_mastery_ewma.
      cbn [db_commit set_working committed working with_mastery_records mastery_records].
      rewrite Hfound.
      match goal with
      | |- context [match ?sch with Ok _ => _ | Raise _ => _ end] =>
          destruct sch as [[iv ef]|e]
      end; [update_outcome|]; intros Hu; inversion Hu; subst; clear Hu.
      cbn. rewrite length_insert. repeat split; reflexivity.
  - intros [= <- <-]. split; [reflexivity|]. discriminate.
  - intros [= <- <-]. split; [reflexivity|]. discriminate.
Qed.

Lemma initialize_then_lookup_witness :
  exists s' r,
    @initialize_mastery Q Sample.QS (Sample.open_session (@Sample.empty_db Q Sample.QS))
      0 0 "u1" "t1" 80%Q 4 = (s', Ok r)
    /\ find_mastery "u1" "t1" (mastery_records (working s')) = Some (0%nat, r).
Proof.
  assert (Hok : match (@initialize_mastery Q Sample.QS
                         (Sample.open_session (@Sample.empty_db Q Sample.QS))
                         0 0 "u1" "t1" 80%Q 4).2 with
                | Ok _ => true
                | Raise _ => false
                end = true) by (vm_compute; reflexivity).
  destruct (@initialize_mastery Q Sample.QS
              (Sample.open_session (@Sample.empty_db Q Sample.QS))
              0 0 "u1" "t1" 80%Q 4) as [s' [r|e]] eqn:Hi; [|discriminate Hok].
  exists s', r. split; [reflexivity|].
  destruct (initialize_then_lookup Q Sample.QS
              (Sample.open_session (@Sample.empty_db Q Sample.QS))
              0 0 "u1" "t1" 80%Q 4 s' (Ok r) eq_refl Hi) as [_ Hr].
  destruct (Hr r eq_refl) as (_ & _ & Hfound & _).
  exact Hfound.
Defined.

(** X9.  A quiz of no questions, in double precision:
    [calculate_confidence_interval(0)] divides 20.0 by [sqrt(0) = 0.0]
    and raises [ZeroDivisionError]; so do [initialize_mastery] and, for
    a pair that has no record yet, [update_mastery_ewma], and the
    session is left as it was. *)
Theorem zero_questions_raise :
  forall (s : Session spec_float) today now user topic score alpha,
    @calculate_confidence_interval spec_float B64.binary64 0 = Raise ZeroDivisionError
    /\ initialize_mastery s today now user topic score 0 = (s, Raise ZeroDivisionError)
    /\ (find_mastery user topic (mastery_records (working s)) = None ->
        update_mastery_ewma s today now user topic score 0 alpha
        = (s, Raise ZeroDivisionError)).
Proof.
  intros s today now user topic score alpha.
  assert (Hc : @calculate_confidence_interval spec_float B64.binary64 0
               = Raise ZeroDivisionError) by (vm_compute; reflexivity).
  split; [exact Hc|]. split.
  - unfold initialize_mastery. rewrite Hc. reflexivity.
  - intros Hf. unfold update_mastery_ewma. rewrite Hf.
    unfold initialize_mastery. rewrite Hc. reflexivity.
Qed.

Lemma zero_questions_raise_witness :
  update_mastery_ewma (Sample.open_session (@Sample.empty_db spec_float B64.binary64))
    0 0 "u1" "t1" (Sample.f64 80) 0 (fdec 3 10)
  = (Sample.open_session (@Sample.empty_db spec_float B64.binary64), Raise ZeroDivisionError).
Proof.
  apply (zero_questions_raise (Sample.open_session (@Sample.empty_db spec_float B64.binary64))
           0 0 "u1" "t1" (Sample.f64 80) (fdec 3 10)).
  reflexivity.
Defined.

(** ** Prioritized topics: selection, order and length *)

Lemma mapM_Forall2 {A B} (f : A -> Result B) l : forall ys,
  mapM f l = Ok ys -> Forall2 (fun a y => f a = Ok y) l ys.
Proof.
  induction l as [|x l IH]; cbn; intros ys.
  - intros [= <-]. constructor.
  - destruct (f x) as [y|e] eqn:E; cbn; [|discriminate].
    destruct (mapM f l) as [ys'|e]; cbn; [|discriminate].
    intros [= <-]. constructor; [exact E|apply IH; reflexivity].
Qed.

Lemma insert_asc_perm {A} (key : A -> Z) x l : insert_asc key x l ≡ₚ x :: l.
Proof.
  induction l as [|y l IH]; cbn; [reflexivity|].
  destruct (key y <? key x); [|reflexivity]. rewrite IH. apply Permutation_swap.
Qed.

Lemma sort_asc_perm {A} (key : A -> Z) l : sort_asc key l ≡ₚ l.
Proof.
  induction l as [|x l IH]; cbn; [reflexivity|]. rewrite insert_asc_perm, IH. reflexivity.
Qed.

Lemma insert_asc_sorted {A} (key : A -> Z) x l :
  StronglySorted (fun a b => key a <= key b) l ->
  StronglySorted (fun a b => key a <= key b) (insert_asc key x l).
Proof.
  induction l as [|y l IH]; intros Hs; cbn; [repeat constructor|].
  apply StronglySorted_cons in Hs as [Hy Hs].
  destruct (key y <? key x) eqn:E.
  - apply Z.ltb_lt in E. apply StronglySorted_cons. split; [|apply IH, Hs].
    apply Forall_forall. intros z Hz. rewrite insert_asc_perm in Hz.
    apply elem_of_cons in Hz as [->|Hz]; [lia|].
    rewrite Forall_forall in Hy. apply Hy, Hz.
  - apply Z.ltb_ge in E. apply StronglySorted_cons. split.
    + constructor; [exact E|]. eapply Forall_impl; [exact Hy|]. cbn. intros z Hz. lia.
    + apply StronglySorted_cons. split; assumption.
Qed.

Lemma sort_asc_sorted {A} (key : A -> Z) l :
  StronglySorted (fun a b => key a <= key b) (sort_asc key l).
Proof. induction l as [|x l IH]; cbn; [constructor|]. apply insert_asc_sorted, IH. Qed.

Lemma upcoming_assessments_head {T} (d : Database T) now topic a rest :
  upcoming_assessments_of now topic (assessments d) = a :: rest ->
  earliest_upcoming d now topic a.
Proof.
  unfold upcoming_assessments_of, earliest_upcoming. intros Hs.
  pose proof (sort_asc_sorted due_date
                (filter (fun a => topic ∈ a_topics a /\ now <= due_date a) (assessments d)))
    as Hsorted.
  pose proof (sort_asc_perm due_date
                (filter (fun a => topic ∈ a_topics a /\ now <= due_date a) (assessments d)))
    as Hperm.
  rewrite Hs in Hsorted, Hperm.
  assert (Ha : a ∈ filter (fun a => topic ∈ a_topics a /\ now <= due_date a) (assessments d)).
  { rewrite <- Hperm. left. }
  apply list_elem_of_filter in Ha as [[Ht Hn] Hin].
  split; [exact Hin|]. split; [exact Ht|]. split; [exact Hn|].
  intros a' Hin' Ht' Hn'.
  assert (Ha' : a' ∈ a :: rest).
  { rewrite Hperm. apply list_elem_of_filter. split; [split|]; assumption. }
  apply StronglySorted_cons in Hsorted as [Hall _].
  apply elem_of_cons in Ha' as [->|Ha']; [lia|].
  rewrite Forall_forall in Hall. apply Hall, Ha'.
Qed.

Lemma prioritize_record_spec {T} `{PyFloat T} (d : Database T) today now record x :
  prioritize_record d today now record = Ok (Some x) ->
  exists topic a p,
    topic ∈ topics d /\ topic_id topic = mr_topic_id record
    /\ earliest_upcoming d now (mr_topic_id record) a
    /\ calculate_priority today (weight_percent a) (mastery_score record)
         (confidence_interval record) (date_of (due_date a))
         (date_of <$> last_practiced_at record) = Ok p
    /\ x !! "topic_id" = Some (VStr (mr_topic_id record))
    /\ x !! "course_id" = Some (VStr (topic_course_id topic))
    /\ x !! "priority" = Some (VFloat p)
    /\ x !! "mastery" = Some (VFloat (mastery_score record))
    /\ x !! "assessment_name" = Some (VStr (a_name a))
    /\ x !! "days_until_exam" = Some (VInt (date_of (due_date a) - today)).
Proof.
  unfold prioritize_record.
  destruct (list_find _ (topics d)) as [[i topic]|] eqn:Hf; [|discriminate].
  destruct (upcoming_assessments_of now (mr_topic_id record) (assessments d))
    as [|a rest] eqn:Hu; [discriminate|].
  destruct (calculate_priority _ _ _ _ _ _) as [p|e] eqn:Hp; cbn [mbind result_bind];
    [|discriminate].
  intros [= <-]. exists topic, a, p.
  apply list_find_Some in Hf as (Hl & Ht & _).
  split; [eapply list_elem_of_lookup_2, Hl|]. split; [exact Ht|].
  split; [eapply upcoming_assessments_head, Hu|]. split; [exact Hp|].
  repeat split; reflexivity.
Qed.

Lemma sublist_Forall {A} (P : A -> Prop) l1 l2 :
  sublist l1 l2 -> Forall P l2 -> Forall P l1.
Proof.
  induction 1 as [|x l1 l2 Hsub IH|x l1 l2 Hsub IH]; intros Hall.
  - constructor.
  - apply Forall_cons in Hall as [Hx Hall]. constructor; [exact Hx|apply IH, Hall].
  - apply Forall_cons in Hall as [_ Hall]. apply IH, Hall.
Qed.

Lemma py_slice_to_sublist {A} n (l : list A) : sublist (py_slice_to n l) l.
Proof. unfold py_slice_to. destruct (0 <=? n); apply sublist_take. Qed.

Lemma py_slice_to_length {A} n (l : list A) :
  0 <= n -> Z.of_nat (length (py_slice_to n l)) <= n.
Proof.
  intros Hn. unfold py_slice_to. apply Z.leb_le in Hn as Hb. rewrite Hb.
  rewrite length_take. lia.
Qed.

(** X10.  What [get_prioritized_topics] returns.  For a horizon that
    is not negative the list has at most [2 * horizon_days] entries.
    Every entry belongs to a mastery record of the user whose topic
    exists, and is measured against an assessment that covers the
    topic, is due now or later and is due no later than any other such
    assessment: the entry carries the topic, the priority
    [calculate_priority] gives for that assessment, its name and the
    days until it. *)
Theorem prioritized_topics_bounded :
  forall T (H : PyFloat T) (d : Database T) today now user horizon_days l,
    get_prioritized_topics d today now user horizon_days = Ok l ->
    (0 <= horizon_days -> Z.of_nat (length l) <= 2 * horizon_days)
    /\ Forall (fun x =>
         exists record topic a p,
           record ∈ mastery_records d /\ mr_user_id record = user
           /\ topic ∈ topics d /\ topic_id topic = mr_topic_id record
           /\ earliest_upcoming d now (mr_topic_id record) a
           /\ calculate_priority today (weight_percent a) (mastery_score record)
                (confidence_interval record) (date_of (due_date a))
                (date_of <$> last_practiced_at record) = Ok p
           /\ x !! "topic_id" = Some (VStr (mr_topic_id record))
           /\ x !! "priority" = Some (VFloat p)
           /\ x !! "assessment_name" = Some (VStr (a_name a))
           /\ x !! "days_until_exam" = Some (VInt (date_of (due_date a) - today))) l.
Proof.
  intros T H d today now user horizon_days l. unfold get_prioritized_topics.
  destruct (mapM (prioritize_record d today now) _) as [found|e] eqn:Hfound;
    cbn [mbind result_bind]; [|discriminate].
  destruct (mapM _ (omap id found)) as [keyed|e] eqn:Hkeyed; cbn [mbind result_bind];
    [|discriminate].
  intros [= <-]. split.
  - intros Hh. rewrite Z.mul_comm. apply py_slice_to_length. lia.
  - eapply sublist_Forall; [apply py_slice_to_sublist|].
    assert (Hk : snd <$> sort_desc keyed ≡ₚ omap id found).
    { rewrite sort_desc_perm. apply mapM_Forall2 in Hkeyed. clear -Hkeyed.
      induction Hkeyed as [|x y l ys Hxy _ IH]; [reflexivity|].
      cbn. rewrite IH.
      destruct (getitem x "priority") as [v|]; cbn in Hxy; [|discriminate].
      destruct (as_float v) as [k|]; cbn in Hxy; [|discriminate].
      inversion Hxy; subst. reflexivity. }
    rewrite Hk. apply Forall_forall. intros x Hx.
    apply list_elem_of_omap in Hx as (ox & Hox & Hid). cbn in Hid. subst ox.
    apply mapM_Forall2 in Hfound.
    assert (Hrec : exists record,
               record ∈ filter (fun r => mr_user_id r = user) (mastery_records d)
               /\ prioritize_record d today now record = Ok (Some x)).
    { clear -Hfound Hox. induction Hfound as [|r y l ys Hry _ IH]; [inversion Hox|].
      apply elem_of_cons in Hox as [->|Hox].
      - exists r. split; [left|exact Hry].
      - destruct (IH Hox) as (record & Hin & Hp). exists record.
        split; [right; exact Hin|exact Hp]. }
    destruct Hrec as (record & Hin & Hp).
    apply list_elem_of_filter in Hin as [Hu Hin].
    destruct (prioritize_record_spec d today now record x Hp)
      as (topic & a & p & H1 & H2 & H3 & H4 & H5 & _ & H6 & _ & H7 & H8).
    exists record, topic, a, p. repeat split; try assumption; apply H3.
Qed.

(** The sample: the second topic, further from mastery and measured
    against the final, comes before the first, measured against the
    midterm. *)
Lemma sample_exact_prioritized :
  match @get_prioritized_topics Q Sample.QS SampleExact.course_db 0 0 "u1" 7 with
  | Ok l => (fun x => (x !! "topic_id", x !! "assessment_name")) <$> l
  | Raise _ => []
  end
  = [(Some (VStr "t2"), Some (VStr "Final")); (Some (VStr "t1"), Some (VStr "Midterm"))].
Proof. vm_compute. reflexivity. Qed.

Lemma prioritized_topics_bounded_witness :
  exists l,
    @get_prioritized_topics Q Sample.QS SampleExact.course_db 0 0 "u1" 7 = Ok l
    /\ (fun x => x !! "assessment_name") <$> l
       = [Some (VStr "Final"); Some (VStr "Midterm")]
    /\ Z.of_nat (length l) <= 2 * 7.
Proof.
  pose proof sample_exact_prioritized as Hs.
  destruct (@get_prioritized_topics Q Sample.QS SampleExact.course_db 0 0 "u1" 7)
    as [l|e] eqn:E; [|discriminate Hs].
  exists l. split; [reflexivity|]. split.
  - destruct l as [|x1 [|x2 [|x3 l]]]; try discriminate Hs.
    injection Hs as _ H1 _ H2. cbn. rewrite H1, H2. reflexivity.
  - apply (proj1 (prioritized_topics_bounded Q Sample.QS SampleExact.course_db
                    0 0 "u1" 7 l E)).
    lia.
Defined.

(** *** Descending order *)

Section PrioritizedOrder.
Variable qsqrt : Q -> Result Q.
Abbreviation QO := (Exact.QFloat qsqrt).

Lemma insert_desc_sorted {A} (x : Q * A) l :
  StronglySorted (fun a b : Q * A => (b.1 <= a.1)%Q) l ->
  StronglySorted (fun a b : Q * A => (b.1 <= a.1)%Q) (@insert_desc Q QO A x l).
Proof.
  induction l as [|y l IH]; intros Hs; cbn.
  - repeat constructor.
  - apply StronglySorted_cons in Hs as [Hy Hs].
    cbn [fltb Exact.QFloat]. destruct (Exact.Qltb x.1 y.1) eqn:E.
    + apply Qltb_true in E. apply StronglySorted_cons. split; [|apply IH, Hs].
      apply Forall_forall. intros z Hz.
      rewrite (insert_desc_perm (H := QO) x l) in Hz.
      apply elem_of_cons in Hz as [->|Hz]; [apply Qlt_le_weak, E|].
      rewrite Forall_forall in Hy. apply Hy, Hz.
    + apply Qltb_false in E. apply StronglySorted_cons. split.
      * constructor; [exact E|]. eapply Forall_impl; [exact Hy|].
        cbn. intros z Hz. eapply Qle_trans; [exact Hz|exact E].
      * apply StronglySorted_cons. split; assumption.
Qed.

Lemma sort_desc_sorted {A} (l : list (Q * A)) :
  StronglySorted (fun a b : Q * A => (b.1 <= a.1)%Q) (@sort_desc Q QO A l).
Proof.
  induction l as [|x l IH]; cbn; [constructor|]. apply insert_desc_sorted, IH.
Qed.

End PrioritizedOrder.

Lemma StronglySorted_sublist {A} (R : A -> A -> Prop) l1 l2 :
  sublist l1 l2 -> StronglySorted R l2 -> StronglySorted R l1.
Proof.
  induction 1 as [|x l1 l2 Hsub IH|x l1 l2 Hsub IH]; intros Hs.
  - constructor.
  - apply StronglySorted_cons in Hs as [Hx Hs]. apply StronglySorted_cons.
    split; [|apply IH, Hs]. eapply sublist_Forall; [exact Hsub|exact Hx].
  - apply StronglySorted_cons in Hs as [_ Hs]. apply IH, Hs.
Qed.

(** X11.  In exact arithmetic the list [get_prioritized_topics]
    returns is in descending order of priority. *)
Theorem prioritized_topics_sorted :
  forall qsqrt (d : Database Q) today now user horizon_days l,
    @get_prioritized_topics Q (Exact.QFloat qsqrt) d today now user horizon_days = Ok l ->
    StronglySorted
      (fun a b => exists pa pb,
           @priority_key Q (Exact.QFloat qsqrt) a = Ok pa
           /\ @priority_key Q (Exact.QFloat qsqrt) b = Ok pb
           /\ (pb <= pa)%Q) l.
Proof.
  intros qsqrt d today now user horizon_days l. unfold get_prioritized_topics.
  destruct (mapM (prioritize_record d today now) _) as [found|e];
    cbn [mbind result_bind]; [|discriminate].
  destruct (mapM _ (omap id found)) as [keyed|e] eqn:Hkeyed; cbn [mbind result_bind];
    [|discriminate].
  intros [= <-]. eapply StronglySorted_sublist; [apply py_slice_to_sublist|].
  assert (Hk : Forall (fun p : Q * gmap string (PyVal Q) =>
                         @priority_key Q (Exact.QFloat qsqrt) p.2 = Ok p.1)
                 (@sort_desc Q (Exact.QFloat qsqrt) _ keyed)).
  { rewrite (sort_desc_perm (H := Exact.QFloat qsqrt)).
    apply mapM_Forall2 in Hkeyed. clear -Hkeyed.
    induction Hkeyed as [|x y l ys Hxy _ IH]; constructor; [|exact IH].
    unfold priority_key.
    destruct (getitem x "priority") as [v|] eqn:Ev; cbn in Hxy; [|discriminate].
    destruct (as_float v) as [k|] eqn:Ek; cbn in Hxy; [|discriminate].
    inversion Hxy; subst. cbn [fst snd]. rewrite Ev. exact Ek. }
  pose proof (sort_desc_sorted qsqrt keyed) as Hs.
  revert Hk Hs. generalize (@sort_desc Q (Exact.QFloat qsqrt) _ keyed). intros sorted.
  induction sorted as [|p sorted IH]; intros Hk Hs; cbn; [constructor|].
  apply Forall_cons in Hk as [Hp Hk]. apply StronglySorted_cons in Hs as [Hpl Hs].
  apply StronglySorted_cons. split; [|apply IH; assumption].
  apply Forall_fmap, Forall_forall. intros q Hq. cbn.
  rewrite Forall_forall in Hpl, Hk.
  exists p.1, q.1. split; [exact Hp|]. split; [apply Hk, Hq|apply Hpl, Hq].
Qed.

Lemma prioritized_topics_sorted_witness :
  exists l,
    @get_prioritized_topics Q Sample.QS SampleExact.course_db 0 0 "u1" 7 = Ok l
    /\ (fun x => x !! "topic_id") <$> l = [Some (VStr "t2"); Some (VStr "t1")]
    /\ StronglySorted
         (fun a b => exists pa pb,
              @priority_key Q Sample.QS a = Ok pa
              /\ @priority_key Q Sample.QS b = Ok pb
              /\ (pb <= pa)%Q) l.
Proof.
  pose proof sample_exact_prioritized as Hs.
  destruct (@get_prioritized_topics Q Sample.QS SampleExact.course_db 0 0 "u1" 7)
    as [l|e] eqn:E; [|discriminate Hs].
  exists l. split; [reflexivity|]. split.
  - destruct l as [|x1 [|x2 [|x3 l]]]; try discriminate Hs.
    injection Hs as H1 _ H2 _. cbn. rewrite H1, H2. reflexivity.
  - apply (prioritized_topics_sorted Sample.small_sqrt SampleExact.course_db 0 0 "u1" 7 l E).
Defined.

(** ** Availability planner: the grid *)

Lemma tile_day_slots busy L B day_end start :
  0 <= L + B ->
  forall fuel k acc acc',
    tile_day fuel busy L B day_end (start + k * (L + B)) acc = Some acc' ->
    forall blk,
      blk ∈ acc' <->
      blk ∈ acc
      \/ exists k', k <= k'
                    /\ blk = (start + k' * (L + B), start + k' * (L + B) + L)
                    /\ blk.2 <= day_end
                    /\ is_busy busy blk.1 blk.2 = false.
Proof.
  intros HLB. induction fuel as [|fuel IH]; intros k acc acc'; cbn [tile_day].
  - destruct (start + k * (L + B) + L <=? day_end) eqn:E; [discriminate|].
    apply Z.leb_gt in E. intros [= <-] blk. split; [auto|].
    intros [Hin|(k' & Hk & -> & Hend & _)]; [exact Hin|]. cbn in Hend. nia.
  - destruct (start + k * (L + B) + L <=? day_end) eqn:E.
    + apply Z.leb_le in E.
      replace (start + k * (L + B) + L + B) with (start + (k + 1) * (L + B)) by lia.
      intros Ht blk. rewrite (IH _ _ _ Ht blk). clear IH Ht.
      destruct (is_busy busy (start + k * (L + B)) (start + k * (L + B) + L)) eqn:Eb.
      * split.
        -- intros [Hin|(k' & Hk & Hblk)]; [auto|]. right. exists k'. split; [lia|exact Hblk].
        -- intros [Hin|(k' & Hk & -> & Hend & Hfree)]; [auto|].
           destruct (decide (k' = k)) as [->|Hne]; [cbn in Hfree; congruence|].
           right. exists k'. split; [lia|]. repeat split; assumption.
      * rewrite elem_of_app, list_elem_of_singleton. split.
        -- intros [[Hin| ->]|(k' & Hk & Hblk)]; [auto| |].
           ++ right. exists k. split; [lia|]. repeat split; [exact E|exact Eb].
           ++ right. exists k'. split; [lia|exact Hblk].
        -- intros [Hin|(k' & Hk & -> & Hend & Hfree)]; [auto|].
           destruct (decide (k' = k)) as [->|Hne]; [left; right; reflexivity|].
           right. exists k'. split; [lia|]. repeat split; assumption.
    + apply Z.leb_gt in E. intros [= <-] blk. split; [auto|].
      intros [Hin|(k' & Hk & -> & Hend & _)]; [exact Hin|]. cbn in Hend. nia.
Qed.

Lemma tile_days_slots {T} (prefs : UserPreferences T) busy fuel :
  0 <= preferred_block_length_min prefs + break_length_min prefs ->
  forall n current_date acc acc',
    tile_days fuel prefs busy n current_date acc = Some acc' ->
    forall blk,
      blk ∈ acc' <->
      blk ∈ acc
      \/ exists day k,
           current_date <= day < current_date + Z.of_nat n
           /\ day_enabled prefs day = true
           /\ 0 <= k
           /\ blk = grid_slot prefs day k
           /\ blk.2 <= combine day (latest_end_time prefs)
           /\ is_busy busy blk.1 blk.2 = false.
Proof.
  intros HLB. induction n as [|n IH]; intros cd acc acc'; cbn [tile_days].
  - intros [= <-] blk. split; [auto|]. intros [Hin|(day & k & Hd & _)]; [exact Hin|lia].
  - fold (day_enabled prefs cd). destruct (day_enabled prefs cd) eqn:Een; cbn [negb].
    + destruct (tile_day fuel busy _ _ _ _ acc) as [blocks|] eqn:Ht; cbn; [|discriminate].
      intros Hn blk. rewrite (IH _ _ _ Hn blk). clear IH Hn.
      replace (combine cd (earliest_start_time prefs))
        with (combine cd (earliest_start_time prefs)
              + 0 * (preferred_block_length_min prefs * MINUTE
                     + break_length_min prefs * MINUTE)) in Ht by lia.
      assert (HLB' : 0 <= preferred_block_length_min prefs * MINUTE
                          + break_length_min prefs * MINUTE) by (unfold MINUTE; lia).
      rewrite (tile_day_slots _ _ _ _ _ HLB' _ _ _ _ Ht blk). clear Ht.
      split.
      * intros [[Hin|(k & Hk & -> & Hend & Hfree)]|(day & k & Hd & Hrest)]; [auto| |].
        -- right. exists cd, k. split; [lia|]. split; [exact Een|]. split; [exact Hk|].
           split; [|split; assumption].
           unfold grid_slot. cbn zeta. f_equal; lia.
        -- right. exists day, k. split; [lia|exact Hrest].
      * intros [Hin|(day & k & Hd & Hen & Hk & -> & Hend & Hfree)]; [auto|].
        destruct (decide (day = cd)) as [->|Hne].
        -- left. right. exists k. split; [exact Hk|].
           assert (Hs : grid_slot prefs cd k
                        = (combine cd (earliest_start_time prefs)
                           + k * (preferred_block_length_min prefs * MINUTE
                                  + break_length_min prefs * MINUTE),
                           combine cd (earliest_start_time prefs)
                           + k * (preferred_block_length_min prefs * MINUTE
                                  + break_length_min prefs * MINUTE)
                           + preferred_block_length_min prefs * MINUTE)).
           { unfold grid_slot. cbn zeta. f_equal; lia. }
           rewrite Hs in *. repeat split; assumption.
        -- right. exists day, k. split; [lia|]. repeat split; assumption.
    + intros Hn blk. rewrite (IH _ _ _ Hn blk). clear IH Hn. split.
      * intros [Hin|(day & k & Hd & Hrest)]; [auto|].
        right. exists day, k. split; [lia|exact Hrest].
      * intros [Hin|(day & k & Hd & Hen & Hrest)]; [auto|].
        destruct (decide (day = cd)) as [->|Hne]; [congruence|].
        right. exists day, k. split; [lia|]. split; assumption.
Qed.

(** X12.  The blocks the availability planner returns are exactly the
    free slots of a grid.  On every day of the range that the weekly
    availability does not switch off, the slots start at the earliest
    start time and follow one another one block and one break apart, as
    long as they end by the latest end time; a slot is returned if and
    only if no calendar block of the query overlaps it.  A busy slot is
    dropped, the following ones are not moved.  (The block length plus
    the break must not be negative.) *)
Theorem available_blocks_are_free_grid_slots :
  forall T (H : PyFloat T) (d : Database T) user start_date end_date prefs fuel blocks,
    user_preferences d user = Ok (Some prefs) ->
    0 <= preferred_block_length_min prefs + break_length_min prefs ->
    get_available_time_blocks fuel d user start_date end_date = Some (Ok blocks) ->
    forall blk,
      blk ∈ blocks <->
      on_grid prefs start_date end_date blk
      /\ is_busy (busy_blocks d user start_date end_date) blk.1 blk.2 = false.
Proof.
  intros T H d user start_date end_date prefs fuel blocks Hu HLB.
  unfold get_available_time_blocks. rewrite Hu.
  destruct (tile_days fuel prefs _ _ start_date []) as [acc|] eqn:Ht; cbn; [|discriminate].
  intros [= <-] blk.
  rewrite (tile_days_slots prefs _ fuel HLB _ _ _ _ Ht blk). unfold on_grid. split.
  - intros [Hin|(day & k & Hd & Hen & Hk & Hblk & Hend & Hfree)]; [inversion Hin|].
    split; [|exact Hfree]. exists day, k. split; [lia|]. repeat split; assumption.
  - intros [(day & k & Hd & Hen & Hk & Hblk & Hend) Hfree].
    right. exists day, k. split; [lia|]. repeat split; assumption.
Qed.

Lemma available_blocks_are_free_grid_slots_witness :
  exists blocks,
    get_available_time_blocks 1440 Sample.busy_db "u1" 0 1 = Some (Ok blocks)
    /\ (Sample.at_time 9 0, Sample.at_time 9 50) ∈ blocks
    /\ (Sample.at_time 8 0, Sample.at_time 8 50) ∉ blocks.
Proof.
  assert (Hok : match get_available_time_blocks 1440 Sample.busy_db "u1" 0 1 with
                | Some (Ok _) => true
                | _ => false
                end = true) by (vm_compute; reflexivity).
  destruct (get_available_time_blocks 1440 Sample.busy_db "u1" 0 1)
    as [[blocks|e]|] eqn:Hg; try discriminate Hok.
  exists blocks. split; [reflexivity|].
  pose proof (available_blocks_are_free_grid_slots spec_float B64.binary64
                Sample.busy_db "u1" 0 1 Sample.default_preferences 1440%nat blocks
                eq_refl ltac:(cbn; lia) Hg) as Hspec.
  assert (Hbusy : is_busy (busy_blocks Sample.busy_db "u1" 0 1)
                    (Sample.at_time 8 0) (Sample.at_time 8 50) = true)
    by (vm_compute; reflexivity).
  split.
  - apply Hspec. split; [|vm_compute; reflexivity].
    exists 0, 1. split; [lia|]. split; [reflexivity|]. split; [lia|].
    split; vm_compute; [reflexivity|discriminate].
  - intros Hin. apply Hspec in Hin as [_ Hfree]. cbn [fst snd] in Hfree. congruence.
Defined.

(** ** Greedy scheduler: what a run does to tasks and blocks *)

(** *** Nothing lost, nothing made up *)

Lemma greedy_fold_partition {T} `{PyFloat T} (max_hours : T) (l : list (StudyTask T)) :
  forall (g : Greedy T) placed done,
    g_scheduled g = (fun p : Z * StudyTask T => set_scheduled p.1 p.2) <$> placed ->
    (snd <$> placed) ++ g_unscheduled g ≡ₚ done ->
    exists placed',
      g_scheduled (foldl (place_task max_hours) g l)
      = (fun p : Z * StudyTask T => set_scheduled p.1 p.2) <$> placed'
      /\ (snd <$> placed') ++ g_unscheduled (foldl (place_task max_hours) g l) ≡ₚ done ++ l.
Proof.
  induction l as [|t l IH]; intros g placed done Hs Hp; cbn [foldl].
  - exists placed. rewrite app_nil_r. split; assumption.
  - destruct (IH (place_task max_hours g t)
                (match find_block max_hours (g_usage g) (estimated_duration_min t)
                         (g_blocks g) with
                 | Some (bs, _) => placed ++ [(bs, t)]
                 | None => placed
                 end)
                (done ++ [t])) as (placed' & H1 & H2).
    + unfold place_task. destruct (find_block _ _ _ _) as [[bs be]|]; cbn.
      * rewrite Hs, fmap_app. reflexivity.
      * exact Hs.
    + unfold place_task. destruct (find_block _ _ _ _) as [[bs be]|]; cbn.
      * rewrite fmap_app. cbn. rewrite <- Hp.
        rewrite <- !app_assoc. apply Permutation_app_head. apply Permutation_app_comm.
      * rewrite app_assoc, Hp. reflexivity.
    + exists placed'. split; [exact H1|]. rewrite H2, <- app_assoc. reflexivity.
Qed.

(** X13.  A run of the greedy scheduler loses and invents no task.
    The unscheduled tasks are candidates, returned as they were; every
    scheduled task is a candidate with [scheduled_start],
    [scheduled_end] and [status] set and nothing else changed; taken
    together they are the candidates, each one once. *)
Theorem greedy_partition :
  forall T (H : PyFloat T) (tasks : list (StudyTask T)) blocks max_hours,
  exists placed : list (Z * StudyTask T),
    (schedule_tasks_greedy tasks blocks max_hours).1
    = (fun p => set_scheduled p.1 p.2) <$> placed
    /\ (snd <$> placed) ++ (schedule_tasks_greedy tasks blocks max_hours).2 ≡ₚ tasks.
Proof.
  intros T H tasks blocks max_hours. unfold schedule_tasks_greedy, greedy_run. cbn [fst snd].
  destruct (greedy_fold_partition max_hours
              (snd <$> sort_desc ((fun t => (sort_key t, t)) <$> tasks))
              {| g_blocks := blocks; g_usage := ∅; g_scheduled := []; g_unscheduled := [] |}
              [] []) as (placed & H1 & H2); [reflexivity|reflexivity|].
  exists placed. split; [exact H1|]. rewrite H2. cbn. apply sorted_tasks_perm.
Qed.

(** *** Inside the free blocks *)

Lemma place_task_within {T} `{PyFloat T} (max_hours : T) (blocks : list (Z * Z)) g task :
  0 <= estimated_duration_min task ->
  Forall (fun b => exists b0, b0 ∈ blocks /\ within b b0) (g_blocks g) ->
  Forall (fun t => exists s b0,
            b0 ∈ blocks /\ scheduled_start t = Some s
            /\ within (s, s + estimated_duration_min t * MINUTE) b0) (g_scheduled g) ->
  Forall (fun b => exists b0, b0 ∈ blocks /\ within b b0)
    (g_blocks (place_task max_hours g task))
  /\ Forall (fun t => exists s b0,
               b0 ∈ blocks /\ scheduled_start t = Some s
               /\ within (s, s + estimated_duration_min t * MINUTE) b0)
       (g_scheduled (place_task max_hours g task)).
Proof.
  intros Hd Hb Hs. unfold place_task.
  destruct (find_block max_hours (g_usage g) (estimated_duration_min task) (g_blocks g))
    as [[bs be]|] eqn:Hf; cbn [g_blocks g_scheduled]; [|split; assumption].
  apply find_block_spec in Hf as (Hin & Hfit & _).
  assert (HM : 0 <= estimated_duration_min task * MINUTE) by (unfold MINUTE; lia).
  rewrite Forall_forall in Hb. destruct (Hb _ Hin) as (b0 & Hb0 & Hw0).
  unfold within in Hw0. cbn in Hw0. split.
  - apply Forall_app. split.
    + apply Forall_forall. intros x Hx. apply Hb, (remove_first_subset (bs, be)), Hx.
    + destruct (_ <? be); repeat constructor.
      exists b0. split; [exact Hb0|]. unfold within. cbn. lia.
  - apply Forall_app. split; [exact Hs|]. repeat constructor.
    exists bs, b0. split; [exact Hb0|]. split; [reflexivity|].
    unfold within. cbn. lia.
Qed.

(** X14.  With durations that are not negative, every task the greedy
    scheduler schedules gets the status [SCHEDULED] and an interval
    [[start, start + duration)] that lies inside one of the free blocks
    handed in; so does every block left in [available_blocks] after the
    run. *)
Theorem greedy_tasks_inside_blocks :
  forall T (H : PyFloat T) (tasks : list (StudyTask T)) (blocks : list (Z * Z)) max_hours,
    Forall (fun t => 0 <= estimated_duration_min t) tasks ->
    Forall (fun t => exists s b,
              b ∈ blocks /\ scheduled_start t = Some s
              /\ scheduled_end t = Some (s + estimated_duration_min t * MINUTE)
              /\ status t = SCHEDULED
              /\ within (s, s + estimated_duration_min t * MINUTE) b)
      (schedule_tasks_greedy tasks blocks max_hours).1
    /\ Forall (fun b => exists b0, b0 ∈ blocks /\ within b b0)
         (g_blocks (greedy_run tasks blocks max_hours)).
Proof.
  intros T H tasks blocks max_hours Hpos.
  unfold schedule_tasks_greedy, greedy_run. cbn [fst].
  pose proof (sorted_tasks_perm tasks) as Hperm.
  set (sorted_tasks := snd <$> sort_desc ((fun t => (sort_key t, t)) <$> tasks)) in *.
  rewrite <- Hperm in Hpos. clear Hperm.
  assert (Hgen : forall l (g : Greedy T),
             Forall (fun t => 0 <= estimated_duration_min t) l ->
             Forall (fun b => exists b0, b0 ∈ blocks /\ within b b0) (g_blocks g) ->
             Forall (fun t => exists s b,
                       b ∈ blocks /\ scheduled_start t = Some s
                       /\ within (s, s + estimated_duration_min t * MINUTE) b)
               (g_scheduled g) ->
             Forall (fun t => exists s, scheduled_start t = Some s
                       /\ scheduled_end t = Some (s + estimated_duration_min t * MINUTE)
                       /\ status t = SCHEDULED) (g_scheduled g) ->
             let g' := foldl (place_task max_hours) g l in
             Forall (fun b => exists b0, b0 ∈ blocks /\ within b b0) (g_blocks g')
             /\ Forall (fun t => exists s b,
                          b ∈ blocks /\ scheduled_start t = Some s
                          /\ within (s, s + estimated_duration_min t * MINUTE) b)
                  (g_scheduled g')
             /\ Forall (fun t => exists s, scheduled_start t = Some s
                          /\ scheduled_end t = Some (s + estimated_duration_min t * MINUTE)
                          /\ status t = SCHEDULED) (g_scheduled g')).
  { induction l as [|t l IH]; intros g Hl Hb Hs Hst; cbn [foldl].
    - split; [exact Hb|]. split; assumption.
    - apply Forall_cons in Hl as [Ht Hl].
      destruct (place_task_within max_hours blocks g t Ht Hb Hs) as [Hb' Hs'].
      apply IH; try assumption.
      unfold place_task. destruct (find_block _ _ _ _) as [[bs be]|]; cbn; [|exact Hst].
      apply Forall_app. split; [exact Hst|]. repeat constructor.
      exists bs. repeat split. }
  destruct (Hgen sorted_tasks
              {| g_blocks := blocks; g_usage := ∅; g_scheduled := []; g_unscheduled := [] |}
              Hpos) as (Hb & Hs & Hst).
  - cbn. apply Forall_forall. intros b Hb. exists b. split; [exact Hb|].
    unfold within. lia.
  - constructor.
  - constructor.
  - split; [|exact Hb].
    rewrite Forall_forall in *. intros t Ht.
    destruct (Hs t Ht) as (s & b & Hb1 & Hs1 & Hw).
    destruct (Hst t Ht) as (s' & Hs2 & He & Hstat).
    exists s, b. rewrite Hs1 in Hs2. inversion Hs2; subst s'.
    repeat split; try assumption; apply Hw.
Qed.

Lemma greedy_tasks_inside_blocks_witness :
  Forall (fun t => exists s b,
            b ∈ [(Sample.at_time 8 0, Sample.at_time 10 0)]
            /\ scheduled_start t = Some s
            /\ scheduled_end t = Some (s + estimated_duration_min t * MINUTE)
            /\ status t = SCHEDULED
            /\ within (s, s + estimated_duration_min t * MINUTE) b)
    (schedule_tasks_greedy
       [Sample.pending_task "A" 90 10; Sample.pending_task "B" 60 5]
       [(Sample.at_time 8 0, Sample.at_time 10 0)] (Sample.f64 4)).1.
Proof.
  apply (greedy_tasks_inside_blocks spec_float B64.binary64
           [Sample.pending_task "A" 90 10; Sample.pending_task "B" 60 5]
           [(Sample.at_time 8 0, Sample.at_time 10 0)] (Sample.f64 4)).
  repeat constructor; cbn; lia.
Defined.

(** *** Free time is conserved *)

Lemma free_time_app l1 l2 : free_time (l1 ++ l2) = free_time l1 + free_time l2.
Proof. unfold free_time. induction l1 as [|b l1 IH]; cbn; [reflexivity|]. rewrite IH. lia. Qed.

Lemma scheduled_minutes_app {T} (l1 l2 : list (StudyTask T)) :
  scheduled_minutes (l1 ++ l2) = scheduled_minutes l1 + scheduled_minutes l2.
Proof.
  unfold scheduled_minutes. induction l1 as [|t l1 IH]; cbn; [reflexivity|]. rewrite IH. lia.
Qed.

Lemma remove_first_free_time b l :
  b ∈ l -> free_time (remove_first b l) = free_time l - (b.2 - b.1).
Proof.
  induction l as [|y l IH]; intros Hb; [inversion Hb|]. cbn.
  destruct (decide (b = y)) as [->|Hne]; [unfold free_time; cbn; lia|].
  apply elem_of_cons in Hb as [->|Hb]; [congruence|].
  unfold free_time in *. cbn. rewrite (IH Hb). lia.
Qed.

Lemma place_task_free_time {T} `{PyFloat T} (max_hours : T) g task :
  let g' := place_task max_hours g task in
  free_time (g_blocks g') + scheduled_minutes (g_scheduled g') * MINUTE
  = free_time (g_blocks g) + scheduled_minutes (g_scheduled g) * MINUTE
  /\ (Forall (fun b => b.1 < b.2) (g_blocks g) -> Forall (fun b => b.1 < b.2) (g_blocks g')).
Proof.
  unfold place_task.
  destruct (find_block max_hours (g_usage g) (estimated_duration_min task) (g_blocks g))
    as [[bs be]|] eqn:Hf; cbn [g_blocks g_scheduled]; [|split; [reflexivity|auto]].
  apply find_block_spec in Hf as (Hin & Hfit & _). split.
  - rewrite free_time_app, scheduled_minutes_app, (remove_first_free_time _ _ Hin).
    cbn [fst snd scheduled_minutes foldr set_scheduled estimated_duration_min].
    destruct (bs + estimated_duration_min task * MINUTE <? be) eqn:E.
    + unfold free_time. cbn. lia.
    + apply Z.ltb_ge in E. unfold free_time at 2. cbn. lia.
  - intros Hb. apply Forall_app. split.
    + rewrite Forall_forall in *. intros x Hx. apply Hb, (remove_first_subset (bs, be)), Hx.
    + destruct (bs + estimated_duration_min task * MINUTE <? be) eqn:E; repeat constructor.
      apply Z.ltb_lt in E. exact E.
Qed.

(** X15.  The greedy scheduler conserves time: the length of the
    blocks left in [available_blocks] after the run plus the minutes of
    the scheduled tasks is the length of the blocks handed in.  For
    blocks of positive length the blocks left are of positive length
    too, and the scheduled minutes are at most the free time handed
    in. *)
Theorem greedy_conserves_free_time :
  forall T (H : PyFloat T) (tasks : list (StudyTask T)) blocks max_hours,
    free_time (g_blocks (greedy_run tasks blocks max_hours))
    + scheduled_minutes (schedule_tasks_greedy tasks blocks max_hours).1 * MINUTE
    = free_time blocks
    /\ (Forall (fun b => b.1 < b.2) blocks ->
        Forall (fun b => b.1 < b.2) (g_blocks (greedy_run tasks blocks max_hours))
        /\ scheduled_minutes (schedule_tasks_greedy tasks blocks max_hours).1 * MINUTE
           <= free_time blocks).
Proof.
  intros T H tasks blocks max_hours. unfold schedule_tasks_greedy, greedy_run. cbn [fst].
  set (sorted_tasks := snd <$> sort_desc ((fun t => (sort_key t, t)) <$> tasks)).
  assert (Hgen : forall l (g : Greedy T),
             let g' := foldl (place_task max_hours) g l in
             free_time (g_blocks g') + scheduled_minutes (g_scheduled g') * MINUTE
             = free_time (g_blocks g) + scheduled_minutes (g_scheduled g) * MINUTE
             /\ (Forall (fun b => b.1 < b.2) (g_blocks g) ->
                 Forall (fun b => b.1 < b.2) (g_blocks g'))).
  { induction l as [|t l IH]; intros g; cbn [foldl]; [split; [reflexivity|auto]|].
    destruct (place_task_free_time max_hours g t) as [E1 E2].
    destruct (IH (place_task max_hours g t)) as [E3 E4].
    split; [cbn zeta in *; lia|]. intros Hb. apply E4, E2, Hb. }
  destruct (Hgen sorted_tasks
              {| g_blocks := blocks; g_usage := ∅; g_scheduled := []; g_unscheduled := [] |})
    as [E1 E2].
  cbn [g_blocks g_scheduled scheduled_minutes foldr] in E1, E2.
  split; [cbn zeta in E1; lia|].
  intros Hb. specialize (E2 Hb). split; [exact E2|].
  assert (0 <= free_time (g_blocks (foldl (place_task max_hours)
             {| g_blocks := blocks; g_usage := ∅; g_scheduled := []; g_unscheduled := [] |}
             sorted_tasks))).
  { revert E2. generalize (g_blocks (foldl (place_task max_hours)
             {| g_blocks := blocks; g_usage := ∅; g_scheduled := []; g_unscheduled := [] |}
             sorted_tasks)).
    induction 1 as [|b l Hb' _ IH]; unfold free_time in *; cbn; lia. }
  cbn zeta in E1. lia.
Qed.

Lemma greedy_conserves_free_time_witness :
  Forall (fun b : Z * Z => b.1 < b.2) [(Sample.at_time 8 0, Sample.at_time 10 0)]
  /\ scheduled_minutes
       (schedule_tasks_greedy
          [Sample.pending_task "A" 90 10; Sample.pending_task "B" 60 5]
          [(Sample.at_time 8 0, Sample.at_time 10 0)] (Sample.f64 4)).1 * MINUTE
     <= free_time [(Sample.at_time 8 0, Sample.at_time 10 0)].
Proof.
  assert (Hpos : Forall (fun b : Z * Z => b.1 < b.2)
                   [(Sample.at_time 8 0, Sample.at_time 10 0)]) by (repeat constructor).
  split; [exact Hpos|].
  exact (proj2 (proj2 (greedy_conserves_free_time spec_float B64.binary64
                  [Sample.pending_task "A" 90 10; Sample.pending_task "B" 60 5]
                  [(Sample.at_time 8 0, Sample.at_time 10 0)] (Sample.f64 4)) Hpos)).
Defined.

(** *** Priority order *)

Section GreedyOrder.
Variable qsqrt : Q -> Result Q.
Abbreviation QG := (Exact.QFloat qsqrt).

Lemma sorted_tasks_by_priority (tasks : list (StudyTask Q)) :
  by_priority qsqrt (snd <$> @sort_desc Q QG _ ((fun t => (@sort_key Q QG t, t)) <$> tasks)).
Proof.
  unfold by_priority.
  assert (Hk : Forall (fun p : Q * StudyTask Q => p.1 = @sort_key Q QG p.2)
                 (@sort_desc Q QG _ ((fun t => (@sort_key Q QG t, t)) <$> tasks))).
  { rewrite (sort_desc_perm (H := QG)). apply Forall_fmap, Forall_forall. reflexivity. }
  pose proof (sort_desc_sorted qsqrt ((fun t => (@sort_key Q QG t, t)) <$> tasks)) as Hs.
  revert Hk Hs. generalize (@sort_desc Q QG _ ((fun t => (@sort_key Q QG t, t)) <$> tasks)).
  intros sorted. induction sorted as [|p sorted IH]; intros Hk Hs; cbn; [constructor|].
  apply Forall_cons in Hk as [Hp Hk]. apply StronglySorted_cons in Hs as [Hpl Hs].
  apply StronglySorted_cons. split; [|apply IH; assumption].
  apply Forall_fmap, Forall_forall. intros q Hq. cbn.
  rewrite Forall_forall in Hpl, Hk. rewrite <- Hp, <- (Hk q Hq). apply Hpl, Hq.
Qed.

Lemma greedy_fold_order (max_hours : Q) (l : list (StudyTask Q)) :
  by_priority qsqrt l ->
  forall g : Greedy Q,
    by_priority qsqrt (g_scheduled g) -> by_priority qsqrt (g_unscheduled g) ->
    (forall a b, a ∈ g_scheduled g ++ g_unscheduled g -> b ∈ l ->
                 (@sort_key Q QG b <= @sort_key Q QG a)%Q) ->
    by_priority qsqrt (g_scheduled (foldl (@place_task Q QG max_hours) g l))
    /\ by_priority qsqrt (g_unscheduled (foldl (@place_task Q QG max_hours) g l)).
Proof.
  unfold by_priority.
  induction l as [|t l IH]; intros Hl g Hs Hu Hle; cbn [foldl]; [split; assumption|].
  apply StronglySorted_cons in Hl as [Htl Hl]. rewrite Forall_forall in Htl.
  assert (Hsnoc : forall (l0 : list (StudyTask Q)) (x : StudyTask Q),
             StronglySorted
               (fun a b => (@sort_key Q QG b <= @sort_key Q QG a)%Q) l0 ->
             (forall a, a ∈ l0 -> (@sort_key Q QG x <= @sort_key Q QG a)%Q) ->
             StronglySorted
               (fun a b => (@sort_key Q QG b <= @sort_key Q QG a)%Q) (l0 ++ [x])).
  { intros l0 x H0 Hx. apply StronglySorted_app. split; [|split; [exact H0|repeat constructor]].
    intros x1 x2 H1 H2. apply list_elem_of_singleton in H2. subst x2. apply Hx, H1. }
  apply IH; [exact Hl| | |].
  - unfold place_task. destruct (find_block _ _ _ _) as [[bs be]|]; cbn; [|exact Hs].
    apply Hsnoc; [exact Hs|]. intros a Ha.
    change (@sort_key Q QG (set_scheduled bs t)) with (@sort_key Q QG t).
    apply Hle; [apply elem_of_app; left; exact Ha|left].
  - unfold place_task. destruct (find_block _ _ _ _) as [[bs be]|]; cbn; [exact Hu|].
    apply Hsnoc; [exact Hu|]. intros a Ha.
    apply Hle; [apply elem_of_app; right; exact Ha|left].
  - intros a b Ha Hb.
    assert (Hcase : a ∈ g_scheduled g ++ g_unscheduled g
                    \/ @sort_key Q QG a = @sort_key Q QG t).
    { revert Ha. unfold place_task. destruct (find_block _ _ _ _) as [[bs be]|]; cbn;
        rewrite !elem_of_app, ?list_elem_of_singleton; intros Ha.
      - destruct Ha as [[Ha| ->]|Ha]; auto.
      - destruct Ha as [Ha|[Ha| ->]]; auto. }
    destruct Hcase as [Hin|Heq].
    + apply Hle; [exact Hin|right; exact Hb].
    + rewrite Heq. apply Htl, Hb.
Qed.

End GreedyOrder.

(** X16.  In exact arithmetic both lists the greedy scheduler returns
    are in descending order of [priority_score] (a missing score
    counting as 0): the tasks are tried from the highest priority
    down. *)
Theorem greedy_priority_order :
  forall qsqrt (tasks : list (StudyTask Q)) blocks max_hours,
    by_priority qsqrt (@schedule_tasks_greedy Q (Exact.QFloat qsqrt) tasks blocks max_hours).1
    /\ by_priority qsqrt
         (@schedule_tasks_greedy Q (Exact.QFloat qsqrt) tasks blocks max_hours).2.
Proof.
  intros qsqrt tasks blocks max_hours. unfold schedule_tasks_greedy, greedy_run. cbn [fst snd].
  apply greedy_fold_order.
  - apply sorted_tasks_by_priority.
  - constructor.
  - constructor.
  - intros a b Ha. cbn in Ha. inversion Ha.
Qed.

(** ** Schedule generation and replanning *)

Lemma StudyTask_new_assessment_id {T} (row : StudyTask T) :
  StudyTask_new
    ["user_id"; "course_id"; "assessment_id"; "title"; "task_type";
     "difficulty"; "estimated_duration_min"; "priority_score"; "status"] row
  = Raise (TypeError "assessment_id").
Proof. vm_compute. reflexivity. Qed.

Lemma create_review_task_raises {T} `{PyFloat T} user start (a : Assessment T) :
  create_review_task user start a
  = match fdiv (of_int (date_of (due_date a) - start)) (of_int 7) with
    | Ok _ => Raise (TypeError "assessment_id")
    | Raise e => Raise e
    end.
Proof.
  unfold create_review_task.
  destruct (fdiv _ _); cbn [mbind result_bind]; [apply StudyTask_new_assessment_id|reflexivity].
Qed.

(** X17.  The review task of an upcoming assessment is never created:
    [StudyTask] has no attribute [assessment_id], and the constructor
    call of [generate_schedule] raises [TypeError] for it (in double
    precision and in exact arithmetic on every assessment; in any
    arithmetic the call returns no task). *)
Theorem review_task_never_created :
  (forall T (H : PyFloat T) user start_date (a : Assessment T),
     exists e, create_review_task user start_date a = Raise e)
  /\ (forall user start_date (a : Assessment spec_float),
        create_review_task user start_date a = Raise (TypeError "assessment_id"))
  /\ (forall qsqrt user start_date (a : Assessment Q),
        @create_review_task Q (Exact.QFloat qsqrt) user start_date a
        = Raise (TypeError "assessment_id")).
Proof.
  split; [|split].
  - intros T H user start_date a. rewrite create_review_task_raises.
    destruct (fdiv _ _) as [q|e]; eexists; reflexivity.
  - intros user start_date a. rewrite create_review_task_raises. reflexivity.
  - intros qsqrt user start_date a. rewrite create_review_task_raises. reflexivity.
Qed.

Lemma mapM_never {A B} (f : A -> Result B) l ys :
  (forall a y, f a <> Ok y) -> mapM f l = Ok ys -> l = [] /\ ys = [].
Proof.
  intros Hf Hm. apply mapM_Forall2 in Hm.
  destruct Hm as [|a y l ys Hay _]; [split; reflexivity|].
  exfalso. exact (Hf a y Hay).
Qed.

Lemma create_study_tasks_empty {T} `{PyFloat T} (d : Database T) today now user course l :
  create_study_tasks_from_topics d today now user course = Ok l -> l = [].
Proof.
  unfold create_study_tasks_from_topics.
  destruct (get_prioritized_topics d today now user 7) as [topics|e]; cbn; [|discriminate].
  destruct (mapM _ _) as [made|e] eqn:Hm; cbn; [|discriminate].
  intros [= <-]. apply mapM_Forall2 in Hm.
  induction Hm as [|a y l ys Hay _ IH]; [reflexivity|].
  destruct y as [task|]; [exfalso; exact (create_study_task_never _ _ _ _ _ Hay)|].
  cbn. exact IH.
Qed.

Lemma plan_schedule_empty {T} `{PyFloat T} fuel (d : Database T) today now utcnow user
    start_date end_date scheduled unscheduled :
  plan_schedule fuel d today now utcnow user start_date end_date
  = Some (Ok (scheduled, unscheduled)) ->
  scheduled = [] /\ unscheduled = []
  /\ upcoming_incomplete d utcnow user end_date = [].
Proof.
  unfold plan_schedule, upcoming_incomplete.
  destruct (user_preferences d user) as [prefs|e]; [|discriminate].
  destruct (get_available_time_blocks fuel d user start_date end_date) as [[blocks|e]|];
    cbn; try discriminate.
  destruct (mapM _ (filter _ (courses d))) as [per_course|e] eqn:Hpc; cbn; [|discriminate].
  destruct (mapM (create_review_task user start_date) _) as [reviews|e] eqn:Hrev;
    cbn; [|discriminate].
  destruct prefs as [p|]; cbn; [|discriminate].
  assert (Hc : concat per_course = []).
  { apply mapM_Forall2 in Hpc.
    induction Hpc as [|c l cs ls Hcl _ IH]; [reflexivity|].
    cbn. rewrite IH, (create_study_tasks_empty _ _ _ _ _ _ Hcl). reflexivity. }
  assert (Hnever : forall (a : Assessment T) y, create_review_task user start_date a <> Ok y).
  { intros a y. rewrite create_review_task_raises. destruct (fdiv _ _); discriminate. }
  destruct (mapM_never _ _ _ Hnever Hrev) as [Hnone Hr].
  rewrite Hc, Hr. cbn. intros [= <- <-]. split; [reflexivity|]. split; [reflexivity|].
  exact Hnone.
Qed.

(** X18.  [generate_schedule] never adds a task.  Whenever it ends,
    with a result or with an exception, the study tasks of the session
    are the ones it started with.  When it returns a result, nothing
    was there to schedule: the user has no upcoming incomplete
    assessment in the range, both lists and the daily breakdown of the
    result are empty, and the pending changes of the session are
    committed. *)
Theorem generate_schedule_adds_no_task :
  forall T (H : PyFloat T) fuel (s : Session T) today now utcnow user start_date end_date
         s' res,
    generate_schedule fuel s today now utcnow user start_date end_date = Some (s', res) ->
    study_tasks (working s') = study_tasks (working s)
    /\ (forall r, res = Ok r ->
          upcoming_incomplete (working s) utcnow user end_date = []
          /\ r_scheduled r = [] /\ r_unscheduled r = [] /\ r_daily_breakdown r = ∅
          /\ study_tasks (committed s') = study_tasks (working s)).
Proof.
  intros T H fuel s today now utcnow user start_date end_date s' res.
  unfold generate_schedule.
  destruct (plan_schedule fuel (working s) today now utcnow user start_date end_date)
    as [[[scheduled unscheduled]|e]|] eqn:Hp; cbn; [| |discriminate].
  - destruct (plan_schedule_empty _ _ _ _ _ _ _ _ _ _ Hp) as (-> & -> & Hnone).
    intros [= <- <-]. cbn. rewrite app_nil_r. split; [reflexivity|].
    intros r. destruct (fdiv _ _) as [total|e]; cbn; [|discriminate].
    intros [= <-]. cbn. split; [exact Hnone|]. repeat split; reflexivity.
  - intros [= <- <-]. split; [reflexivity|]. intros r Hr. discriminate Hr.
Qed.

Lemma generate_schedule_adds_no_task_witness :
  exists s' r,
    generate_schedule 1440 (Sample.open_session Sample.busy_db) 0 0 0 "u1" 0 1
    = Some (s', Ok r)
    /\ r_scheduled r = [] /\ r_unscheduled r = [] /\ r_daily_breakdown r = ∅
    /\ study_tasks (committed s') = [].
Proof.
  assert (Hok : match generate_schedule 1440 (Sample.open_session Sample.busy_db)
                        0 0 0 "u1" 0 1 with
                | Some (_, Ok _) => true
                | _ => false
                end = true) by (vm_compute; reflexivity).
  destruct (generate_schedule 1440 (Sample.open_session Sample.busy_db) 0 0 0 "u1" 0 1)
    as [[s' [r|e]]|] eqn:Hg; try discriminate Hok.
  exists s', r. split; [reflexivity|].
  destruct (generate_schedule_adds_no_task spec_float B64.binary64 1440%nat
              (Sample.open_session Sample.busy_db) 0 0 0 "u1" 0 1 s' (Ok r) Hg) as [_ Hr].
  destruct (Hr r eq_refl) as (_ & H1 & H2 & H3 & H4).
  repeat split; assumption.
Defined.

(** ** Replanning only deletes *)

Lemma replan_deletes_window {T} user today (t : StudyTask T) :
  replan_deletes user today t = true <-> in_replan_window user today t.
Proof.
  unfold replan_deletes, in_replan_window.
  rewrite !andb_true_iff, !bool_decide_eq_true. split.
  - intros [[Hu Hs] Hst]. split; [exact Hu|]. split; [|exact Hst].
    destruct (scheduled_start t) as [start|]; [|discriminate].
    apply andb_true_iff in Hs as [H1 H2]. apply Z.leb_le in H1, H2. lia.
  - intros (Hu & Hs & Hst). split; [split; [exact Hu|]|exact Hst].
    destruct (scheduled_start t) as [start|]; [|contradiction].
    apply andb_true_iff. split; apply Z.leb_le; lia.
Qed.

Lemma replan_tasks {T} `{PyFloat T} fuel (s : Session T) today now utcnow user trigger_event
    s' res :
  replan_schedule fuel s today now utcnow user trigger_event = Some (s', res) ->
  study_tasks (committed s') = kept_tasks user today (working s)
  /\ study_tasks (working s') = kept_tasks user today (working s).
Proof.
  unfold replan_schedule, generate_schedule, kept_tasks.
  cbn [db_commit set_working working committed].
  destruct (plan_schedule fuel _ today now utcnow user today (today + 7))
    as [[[scheduled unscheduled]|e]|] eqn:Hp; cbn; [| |discriminate].
  - destruct (plan_schedule_empty _ _ _ _ _ _ _ _ _ _ Hp) as (-> & -> & _).
    intros [= <- <-]. cbn. rewrite app_nil_r. split; reflexivity.
  - intros [= <- <-]. cbn. split; reflexivity.
Qed.

(** X19.  [replan_schedule] only deletes.  Whenever it ends, with a
    result or with an exception, the committed study tasks are the ones
    of before, in their order, without the tasks of the user that were
    pending or scheduled to start within the seven days from today;
    tasks of other users, tasks in progress, completed or skipped, and
    tasks without a start or outside the horizon stay.  A result lists
    no task, and replanning again on the same day changes nothing
    more. *)
Theorem replan_only_deletes :
  forall T (H : PyFloat T) fuel (s : Session T) today now utcnow user trigger_event s' res,
    replan_schedule fuel s today now utcnow user trigger_event = Some (s', res) ->
    study_tasks (committed s')
    = filter (fun t => ~ in_replan_window user today t) (study_tasks (working s))
    /\ study_tasks (working s') = study_tasks (committed s')
    /\ (forall r, res = Ok r ->
          r_scheduled (schedule r) = [] /\ r_unscheduled (schedule r) = [])
    /\ (forall s'' res',
          replan_schedule fuel s' today now utcnow user trigger_event = Some (s'', res') ->
          study_tasks (committed s'') = study_tasks (committed s')).
Proof.
  intros T H fuel s today now utcnow user trigger_event s' res Hr.
  assert (Hk : forall d : Database T,
             kept_tasks user today d
             = filter (fun t => ~ in_replan_window user today t) (study_tasks d)).
  { intros d. unfold kept_tasks. apply list_filter_iff. intros t.
    rewrite <- replan_deletes_window. destruct (replan_deletes user today t); split; congruence. }
  destruct (replan_tasks _ _ _ _ _ _ _ _ _ Hr) as [Hc Hw].
  split; [rewrite Hc; apply Hk|]. split; [congruence|]. split.
  - intros r ->. revert Hr. unfold replan_schedule, generate_schedule.
    cbn [db_commit set_working working committed].
    destruct (plan_schedule fuel _ today now utcnow user today (today + 7))
      as [[[scheduled unscheduled]|e]|] eqn:Hp; cbn; [| |discriminate].
    + destruct (plan_schedule_empty _ _ _ _ _ _ _ _ _ _ Hp) as (-> & -> & _).
      destruct (fdiv _ _) as [total|e]; cbn; [|discriminate].
      intros [= _ <-]. cbn. split; reflexivity.
    + discriminate.
  - intros s'' res' Hr'.
    destruct (replan_tasks _ _ _ _ _ _ _ _ _ Hr') as [Hc' _].
    rewrite Hc', Hc, !Hk, Hw, Hk.
    apply list_filter_filter_l. tauto.
Qed.

Lemma replan_only_deletes_witness :
  exists s',
    replan_schedule 1440
      (Sample.open_session (Sample.course_db false [Sample.stored_task]))
      0 0 0 "u1" "manual_replan" = Some (s', Raise (KeyError "mastery_score"))
    /\ study_tasks (committed s')
       = filter (fun t => ~ in_replan_window "u1" 0 t) [Sample.stored_task].
Proof.
  exists (Sample.open_session (Sample.course_db false [])).
  assert (Hr : replan_schedule 1440
                 (Sample.open_session (Sample.course_db false [Sample.stored_task]))
                 0 0 0 "u1" "manual_replan"
               = Some (Sample.open_session (Sample.course_db false []),
                       Raise (KeyError "mastery_score"))) by (vm_compute; reflexivity).
  split; [exact Hr|].
  exact (proj1 (replan_only_deletes _ _ _ _ _ _ _ _ _ _ _ Hr)).
Defined.

(** ** Mastery overview *)

(** The four bands partition a list when each record is in exactly one. *)
Lemma count_if_partition {A} (c1 c2 c3 c4 : A -> bool) (l : list A) :
  Forall (fun r => (if c1 r then 1 else 0) + (if c2 r then 1 else 0)
                   + (if c3 r then 1 else 0) + (if c4 r then 1 else 0) = 1) l ->
  count_if c1 l + count_if c2 l + count_if c3 l + count_if c4 l = Z.of_nat (length l).
Proof.
  unfold count_if. induction 1 as [|r l Hr _ IH]; cbn [foldr length]; lia.
Qed.

Lemma count_if_partition_le {A} (c1 c2 c3 c4 : A -> bool) (l : list A) :
  Forall (fun r => (if c1 r then 1 else 0) + (if c2 r then 1 else 0)
                   + (if c3 r then 1 else 0) + (if c4 r then 1 else 0) <= 1) l ->
  count_if c1 l + count_if c2 l + count_if c3 l + count_if c4 l <= Z.of_nat (length l).
Proof.
  unfold count_if. induction 1 as [|r l Hr _ IH]; cbn [foldr length]; lia.
Qed.

(** A double that is a number lies in exactly one band; a NaN in none. *)
Lemma b64_band (x : spec_float) :
  let bands :=
    (if SFleb (B64.b64_of_Z 90) x then 1 else 0)
    + (if SFleb (B64.b64_of_Z 70) x && SFltb x (B64.b64_of_Z 90) then 1 else 0)
    + (if SFleb (B64.b64_of_Z 50) x && SFltb x (B64.b64_of_Z 70) then 1 else 0)
    + (if SFltb x (B64.b64_of_Z 50) then 1 else 0) in
  (x <> S754_nan -> bands = 1) /\ (x = S754_nan -> bands = 0).
Proof.
  cbn zeta. split; [|intros ->; vm_compute; reflexivity].
  intros Hx.
  assert (Hn : forall c, B64.b64_of_Z c <> S754_nan
                         -> SFltb x (B64.b64_of_Z c) = negb (SFleb (B64.b64_of_Z c) x)).
  { intros c Hc. destruct (SFleb (B64.b64_of_Z c) x) eqn:E; cbn.
    - destruct (SFltb x (B64.b64_of_Z c)) eqn:E'; [|reflexivity].
      apply SFltb_not_SFleb in E'. congruence.
    - apply SFleb_false; assumption. }
  rewrite (Hn 90), (Hn 70), (Hn 50) by (vm_compute; discriminate).
  assert (H97 : SFleb (B64.b64_of_Z 90) x = true -> SFleb (B64.b64_of_Z 70) x = true).
  { apply SFleb_trans. vm_compute. reflexivity. }
  assert (H75 : SFleb (B64.b64_of_Z 70) x = true -> SFleb (B64.b64_of_Z 50) x = true).
  { apply SFleb_trans. vm_compute. reflexivity. }
  destruct (SFleb (B64.b64_of_Z 90) x), (SFleb (B64.b64_of_Z 70) x),
    (SFleb (B64.b64_of_Z 50) x); cbn; try reflexivity;
    try (specialize (H97 eq_refl); discriminate);
    try (specialize (H75 eq_refl); discriminate).
Qed.

Lemma q_band (x : Q) :
  (if Qle_bool 90 x then 1 else 0)
  + (if Qle_bool 70 x && Exact.Qltb x 90 then 1 else 0)
  + (if Qle_bool 50 x && Exact.Qltb x 70 then 1 else 0)
  + (if Exact.Qltb x 50 then 1 else 0) = 1.
Proof.
  unfold Exact.Qltb.
  assert (H97 : Qle_bool 90 x = true -> Qle_bool 70 x = true).
  { rewrite !Qle_bool_iff. intros. lra. }
  assert (H75 : Qle_bool 70 x = true -> Qle_bool 50 x = true).
  { rewrite !Qle_bool_iff. intros. lra. }
  destruct (Qle_bool 90 x), (Qle_bool 70 x), (Qle_bool 50 x); cbn; try reflexivity;
    try (specialize (H97 eq_refl); discriminate);
    try (specialize (H75 eq_refl); discriminate).
Qed.

(** X20.  The bands of [get_mastery_overview] (mastered from 90,
    proficient from 70, learning from 50, needs review below 50).  The
    total is the number of the user's records.  In double precision the
    four counts add up to at most the total, and to the total when no
    score is a NaN (a NaN is in no band); in exact arithmetic the route
    always returns and the counts add up to the total. *)
Theorem mastery_overview_partition :
  (forall (d : Database spec_float) user o,
     get_mastery_overview d user = Ok o ->
     total_topics o
     = Z.of_nat (length (filter (fun r => mr_user_id r = user) (mastery_records d)))
     /\ mastered_count o + proficient_count o + learning_count o + needs_review o
        <= total_topics o
     /\ (Forall (fun r => mr_user_id r = user -> mastery_score r <> S754_nan)
           (mastery_records d) ->
         mastered_count o + proficient_count o + learning_count o + needs_review o
         = total_topics o))
  /\ (forall qsqrt (d : Database Q) user,
        exists o,
          @get_mastery_overview Q (Exact.QFloat qsqrt) d user = Ok o
          /\ total_topics o
             = Z.of_nat (length (filter (fun r => mr_user_id r = user) (mastery_records d)))
          /\ mastered_count o + proficient_count o + learning_count o + needs_review o
             = total_topics o).
Proof.
  split.
  - intros d user o. unfold get_mastery_overview.
    set (records := filter (fun r => mr_user_id r = user) (mastery_records d)).
    assert (Hle : count_if (fun r => fleb (of_int 90) (mastery_score r)) records
                  + count_if (fun r => fleb (of_int 70) (mastery_score r)
                                       && fltb (mastery_score r) (of_int 90)) records
                  + count_if (fun r => fleb (of_int 50) (mastery_score r)
                                       && fltb (mastery_score r) (of_int 70)) records
                  + count_if (fun r => fltb (mastery_score r) (of_int 50)) records
                  <= Z.of_nat (length records)).
    { apply count_if_partition_le, Forall_forall. intros r _.
      destruct (b64_band (mastery_score r)) as [H1 H0]. cbn zeta in H1, H0.
      cbn [fleb fltb of_int B64.binary64].
      assert (Hd : mastery_score r = S754_nan \/ mastery_score r <> S754_nan)
        by (destruct (mastery_score r); auto; right; discriminate).
      destruct Hd as [E|E]; [rewrite (H0 E)|rewrite (H1 E)]; lia. }
    assert (Heq : Forall (fun r => mr_user_id r = user -> mastery_score r <> S754_nan)
                    (mastery_records d) ->
                  count_if (fun r => fleb (of_int 90) (mastery_score r)) records
                  + count_if (fun r => fleb (of_int 70) (mastery_score r)
                                       && fltb (mastery_score r) (of_int 90)) records
                  + count_if (fun r => fleb (of_int 50) (mastery_score r)
                                       && fltb (mastery_score r) (of_int 70)) records
                  + count_if (fun r => fltb (mastery_score r) (of_int 50)) records
                  = Z.of_nat (length records)).
    { intros Hnan. apply count_if_partition, Forall_forall. intros r Hr.
      apply list_elem_of_filter in Hr as [Hu Hr].
      rewrite Forall_forall in Hnan.
      exact (proj1 (b64_band (mastery_score r)) (Hnan r Hr Hu)). }
    destruct records as [|r0 rest] eqn:Er.
    + intros [= <-]. cbn. repeat split; lia.
    + destruct (fdiv _ _) as [average|e]; cbn [mbind result_bind]; [|discriminate].
      intros [= <-]. cbn [total_topics mastered_count proficient_count learning_count
                          needs_review].
      split; [reflexivity|]. split; [exact Hle|exact Heq].
  - intros qsqrt d user. unfold get_mastery_overview.
    set (records := filter (fun r => mr_user_id r = user) (mastery_records d)).
    assert (Heq : count_if (fun r => Qle_bool (inject_Z 90) (mastery_score r)) records
                  + count_if (fun r => Qle_bool (inject_Z 70) (mastery_score r)
                                       && Exact.Qltb (mastery_score r) (inject_Z 90)) records
                  + count_if (fun r => Qle_bool (inject_Z 50) (mastery_score r)
                                       && Exact.Qltb (mastery_score r) (inject_Z 70)) records
                  + count_if (fun r => Exact.Qltb (mastery_score r) (inject_Z 50)) records
                  = Z.of_nat (length records)).
    { apply count_if_partition, Forall_forall. intros r _. apply q_band. }
    destruct records as [|r0 rest] eqn:Er.
    + eexists. split; [reflexivity|]. cbn. split; lia.
    + cbn [fdiv Exact.QFloat].
      rewrite q_div_pos by (apply inject_Z_pos; cbn [length]; lia).
      cbn [mbind result_bind]. eexists. split; [reflexivity|].
      cbn [total_topics mastered_count proficient_count learning_count needs_review].
      split; [reflexivity|exact Heq].
Qed.

Lemma mastery_overview_partition_witness :
  exists o,
    get_mastery_overview (Sample.course_db false []) "u1" = Ok o
    /\ total_topics o = 1
    /\ learning_count o = 1
    /\ mastered_count o + proficient_count o + learning_count o + needs_review o
       = total_topics o.
Proof.
  assert (Ho : match get_mastery_overview (Sample.course_db false []) "u1" with
               | Ok o => (total_topics o, learning_count o)
               | Raise _ => (0, 0)
               end = (1, 1)) by (vm_compute; reflexivity).
  destruct (get_mastery_overview (Sample.course_db false []) "u1") as [o|e] eqn:E;
    [|discriminate Ho].
  exists o. split; [reflexivity|]. injection Ho as Ht Hl.
  split; [exact Ht|]. split; [exact Hl|].
  apply (proj1 mastery_overview_partition (Sample.course_db false []) "u1" o E).
  repeat constructor. intros _. vm_compute. discriminate.
Defined.
